(** * wtmux-mcp: the MCP tool server of WTMux, embedded in Rocq

    Source: [Resources/remote-scripts/wtmux-mcp.py].

    The embedding follows the Python text function by function.
    Conventions of the model:
    - a Python [str] is a Rocq [string]; each character stands for one code
      point below 256, so [lower], [strip] and the escapes of [repr] and
      [json.dumps] are the ones Python applies to those code points;
    - a decoded JSON document (what [json.loads] returns: [None], [bool],
      [int], [float], [str], [list], [dict]) is a value of type [json]; a
      [float] is carried by its Python [repr];
    - the file system is a finite map from path strings to nodes; paths are
      the strings the code builds with [os.path.join];
    - code that raises is a computation in a state-and-exception monad over
      the file system. *)

From Stdlib Require Import String Ascii List ZArith Lia Bool.
From Stdlib Require Import Numbers.DecimalString.
From Stdlib Require Import Sorting.Sorted Sorting.Permutation.
From stdpp Require Import gmap strings.

Open Scope string_scope.
Open Scope Z_scope.

(* ===================================================================== *)
(** * Python strings *)
(* ===================================================================== *)

Definition code (c : ascii) : Z := Z.of_nat (nat_of_ascii c).
Definition chr (z : Z) : ascii := ascii_of_nat (Z.to_nat z).

Definition nl : ascii := chr 10.
Definition NL : string := String nl "".

(** [s.startswith(p)] *)
Definition startswith (s p : string) : bool := String.prefix p s.

(** [s.endswith(p)]: some tail of [s] is [p]. *)
Fixpoint endswith (s p : string) : bool :=
  if String.eqb s p then true
  else match s with
       | EmptyString => false
       | String _ s' => endswith s' p
       end.

(** [p in s] for strings: [p] occurs in [s] as a contiguous substring. *)
Fixpoint str_in (p s : string) : bool :=
  if String.prefix p s then true
  else match s with
       | EmptyString => false
       | String _ s' => str_in p s'
       end.

(** [c.lower()] on a code point below 256: A-Z and the Latin-1 capitals
    (U+00C0..U+00DE without the multiplication sign U+00D7) move up by 32. *)
Definition lower_char (c : ascii) : ascii :=
  let n := code c in
  if ((65 <=? n) && (n <=? 90)) || ((192 <=? n) && (n <=? 222) && negb (n =? 215))
  then chr (n + 32) else c.

Fixpoint lower (s : string) : string :=
  match s with
  | EmptyString => EmptyString
  | String c s' => String (lower_char c) (lower s')
  end.

(** [c.isspace()] below 256: TAB..CR, FS..US, space, NEL, NBSP. *)
Definition isspace (c : ascii) : bool :=
  let n := code c in
  ((9 <=? n) && (n <=? 13)) || ((28 <=? n) && (n <=? 32)) || (n =? 133) || (n =? 160).

Fixpoint lstrip (s : string) : string :=
  match s with
  | EmptyString => EmptyString
  | String c s' => if isspace c then lstrip s' else s
  end.

(** Drops the trailing white space: a character is kept when something
    that is kept follows it, or when it is not white space itself. *)
Fixpoint rstrip (s : string) : string :=
  match s with
  | EmptyString => EmptyString
  | String c s' =>
      match rstrip s' with
      | EmptyString => if isspace c then EmptyString else String c EmptyString
      | t => String c t
      end
  end.

(** [s.strip()] *)
Definition strip (s : string) : string := rstrip (lstrip s).

(** [s.split(sep)] for a one-character separator. *)
Fixpoint split (sep : ascii) (s : string) : list string :=
  match s with
  | EmptyString => [EmptyString]
  | String c s' =>
      if Ascii.eqb c sep then EmptyString :: split sep s'
      else match split sep s' with
           | h :: t => String c h :: t
           | [] => [String c EmptyString]
           end
  end.

(** [sep.join(l)] *)
Definition join (sep : string) (l : list string) : string := String.concat sep l.

(** [x in l] for a list (or set) of strings. *)
Definition mem (x : string) (l : list string) : bool :=
  existsb (String.eqb x) l.

(** [any(p in s for p in patterns)] *)
Definition any_in (patterns : list string) (s : string) : bool :=
  existsb (fun p => str_in p s) patterns.

(** [str(n)] for an [int]. *)
Definition str_of_int (z : Z) : string := NilZero.string_of_int (Z.to_int z).

Definition hex_digit (n : Z) : ascii :=
  if n <? 10 then chr (48 + n) else chr (87 + n).

(** Two lower-case hexadecimal digits of a code point below 256. *)
Definition hex2 (c : ascii) : string :=
  String (hex_digit (code c / 16)) (String (hex_digit (code c mod 16)) "").

Definition has_char (c : ascii) (s : string) : bool :=
  existsb (Ascii.eqb c) (list_ascii_of_string s).

(** [str.isprintable] fails, below 256, on the C0 and C1 controls, DEL,
    the no-break space and the soft hyphen. *)
Definition isprintable (c : ascii) : bool :=
  let n := code c in
  negb ((n <? 32) || ((127 <=? n) && (n <=? 160)) || (n =? 173)).

Definition repr_char (quote c : ascii) : string :=
  let n := code c in
  if Ascii.eqb c quote || (n =? 92) then String (chr 92) (String c "")
  else if n =? 9 then String (chr 92) "t"
  else if n =? 10 then String (chr 92) "n"
  else if n =? 13 then String (chr 92) "r"
  else if isprintable c then String c ""
  else String (chr 92) ("x" +:+ hex2 c).

Fixpoint repr_chars (quote : ascii) (s : string) : string :=
  match s with
  | EmptyString => EmptyString
  | String c s' => repr_char quote c +:+ repr_chars quote s'
  end.

(** [repr(s)] for a [str]: single quotes, unless the text has a single
    quote and no double quote. *)
Definition repr_str (s : string) : string :=
  let quote := if has_char (chr 39) s && negb (has_char (chr 34) s)
               then chr 34 else chr 39 in
  String quote (repr_chars quote s +:+ String quote "").

(** ** [list.sort]

    Python's sort is stable; so is this insertion sort: an element is put
    in front of the first element that is not smaller. *)
Section sort.
Context {A : Type} (leb : A -> A -> bool).

Fixpoint insert_sorted (x : A) (l : list A) : list A :=
  match l with
  | [] => [x]
  | y :: r => if leb x y then x :: l else y :: insert_sorted x r
  end.

Definition sort (l : list A) : list A := fold_right insert_sorted [] l.
End sort.

(* ===================================================================== *)
(** * JSON values *)
(* ===================================================================== *)

#[local] Set Warnings "-register-all".

Inductive json : Type :=
| JNull
| JBool (b : bool)
| JInt (z : Z)
| JFloat (repr : string)
| JStr (s : string)
| JArr (items : list json)
| JObj (fields : list (string * json)).

(** Structural induction that reaches the elements of arrays and the
    values of objects. *)
Section json_induction.
Variable P : json -> Prop.
Hypothesis Hnull : P JNull.
Hypothesis Hbool : forall b, P (JBool b).
Hypothesis Hint : forall z, P (JInt z).
Hypothesis Hfloat : forall r, P (JFloat r).
Hypothesis Hstr : forall s, P (JStr s).
Hypothesis Harr : forall l, Forall P l -> P (JArr l).
Hypothesis Hobj : forall kv, Forall (fun p => P (snd p)) kv -> P (JObj kv).

Fixpoint json_ind' (v : json) : P v :=
  match v with
  | JNull => Hnull
  | JBool b => Hbool b
  | JInt z => Hint z
  | JFloat r => Hfloat r
  | JStr s => Hstr s
  | JArr l =>
      Harr l ((fix go (l : list json) : Forall P l :=
                 match l with
                 | [] => List.Forall_nil _
                 | x :: r => List.Forall_cons _ _ _ (json_ind' x) (go r)
                 end) l)
  | JObj kv =>
      Hobj kv ((fix go (kv : list (string * json))
                  : Forall (fun p => P (snd p)) kv :=
                  match kv with
                  | [] => List.Forall_nil _
                  | p :: r => List.Forall_cons _ _ _ (json_ind' (snd p)) (go r)
                  end) kv)
  end.
End json_induction.

(** [d.get(k)] on a dict given by its items: the binding of [k], if any. *)
Fixpoint lookup_field (k : string) (kv : list (string * json)) : option json :=
  match kv with
  | [] => None
  | (k', v) :: r => if String.eqb k k' then Some v else lookup_field k r
  end.

(** [d.get(k, default)] *)
Definition dict_get (kv : list (string * json)) (k : string) (default : json) : json :=
  match lookup_field k kv with
  | Some v => v
  | None => default
  end.

(** Python truth value of a decoded JSON value. *)
Definition truthy (v : json) : bool :=
  match v with
  | JNull => false
  | JBool b => b
  | JInt z => negb (z =? 0)
  | JFloat r => negb (String.eqb r "0.0" || String.eqb r "-0.0")
  | JStr s => negb (String.eqb s "")
  | JArr l => match l with [] => false | _ => true end
  | JObj kv => match kv with [] => false | _ => true end
  end.

(** [v == s] for a string literal [s]: only a [str] equals a [str]. *)
Definition eq_str (v : json) (s : string) : bool :=
  match v with
  | JStr t => String.eqb t s
  | _ => false
  end.

(** [repr(v)] *)
Fixpoint py_repr (v : json) : string :=
  match v with
  | JNull => "None"
  | JBool true => "True"
  | JBool false => "False"
  | JInt z => str_of_int z
  | JFloat r => r
  | JStr s => repr_str s
  | JArr l => "[" +:+ join ", " (map py_repr l) +:+ "]"
  | JObj kv =>
      "{" +:+ join ", " (map (fun p => repr_str (fst p) +:+ ": " +:+ py_repr (snd p)) kv)
          +:+ "}"
  end.

(** [str(v)], which is what ["{}".format(v)] inserts. *)
Definition py_str (v : json) : string :=
  match v with
  | JStr s => s
  | _ => py_repr v
  end.

(** ** [json.dumps] *)

(** One character of a JSON string with [ensure_ascii=True]. *)
Definition escape_char (c : ascii) : string :=
  let n := code c in
  if n =? 34 then String (chr 92) (String (chr 34) "")
  else if n =? 92 then String (chr 92) (String (chr 92) "")
  else if n =? 10 then String (chr 92) "n"
  else if n =? 13 then String (chr 92) "r"
  else if n =? 9 then String (chr 92) "t"
  else if n =? 8 then String (chr 92) "b"
  else if n =? 12 then String (chr 92) "f"
  else if (32 <=? n) && (n <=? 126) then String c ""
  else String (chr 92) ("u00" +:+ hex2 c).

Fixpoint escape (s : string) : string :=
  match s with
  | EmptyString => EmptyString
  | String c s' => escape_char c +:+ escape s'
  end.

Definition json_string (s : string) : string :=
  String (chr 34) (escape s +:+ String (chr 34) "").

Definition json_float (r : string) : string :=
  if String.eqb r "nan" then "NaN"
  else if String.eqb r "inf" then "Infinity"
  else if String.eqb r "-inf" then "-Infinity"
  else r.

(** [json.dumps(v, separators=(",", ":"))] *)
Fixpoint dumps_compact (v : json) : string :=
  match v with
  | JNull => "null"
  | JBool true => "true"
  | JBool false => "false"
  | JInt z => str_of_int z
  | JFloat r => json_float r
  | JStr s => json_string s
  | JArr l => "[" +:+ join "," (map dumps_compact l) +:+ "]"
  | JObj kv =>
      "{" +:+ join "," (map (fun p => json_string (fst p) +:+ ":" +:+ dumps_compact (snd p)) kv)
          +:+ "}"
  end.

(** Dict items ordered by key, as [sort_keys=True] orders them. *)
Definition sort_items (l : list (string * json)) : list (string * json) :=
  sort (fun p q => String.leb (fst p) (fst q)) l.

Fixpoint sort_keys (v : json) : json :=
  match v with
  | JArr l => JArr (map sort_keys l)
  | JObj kv => JObj (sort_items (map (fun p => (fst p, sort_keys (snd p))) kv))
  | _ => v
  end.

Fixpoint spaces (n : nat) : string :=
  match n with
  | O => EmptyString
  | S n' => " " +:+ spaces n'
  end.

(** A line break followed by the indentation of nesting level [level]. *)
Definition newline_indent (level : nat) : string := NL +:+ spaces (2 * level).

Fixpoint dumps_indent (level : nat) (v : json) : string :=
  match v with
  | JNull => "null"
  | JBool true => "true"
  | JBool false => "false"
  | JInt z => str_of_int z
  | JFloat r => json_float r
  | JStr s => json_string s
  | JArr [] => "[]"
  | JArr l =>
      "[" +:+ newline_indent (S level)
          +:+ join ("," +:+ newline_indent (S level)) (map (dumps_indent (S level)) l)
          +:+ newline_indent level +:+ "]"
  | JObj [] => "{}"
  | JObj kv =>
      "{" +:+ newline_indent (S level)
          +:+ join ("," +:+ newline_indent (S level))
                (map (fun p => json_string (fst p) +:+ ": " +:+ dumps_indent (S level) (snd p)) kv)
          +:+ newline_indent level +:+ "}"
  end.

(** [json.dumps(v, indent=2, sort_keys=True)] *)
Definition dumps_pretty (v : json) : string := dumps_indent 0 (sort_keys v).

(* ===================================================================== *)
(** * Exceptions, the file system, and the monad of effectful code *)
(* ===================================================================== *)

(** The exceptions the code can meet. [OSError] carries [str(e)]. *)
Inductive exn : Type :=
| AttributeError
| TypeError
| KeyError
| OSError (message : string).

Inductive res (A : Type) : Type :=
| Ret (a : A)
| Raise (e : exn).
Arguments Ret {A} a.
Arguments Raise {A} e.

Definition res_bind {A B} (r : res A) (k : A -> res B) : res B :=
  match r with
  | Ret a => k a
  | Raise e => Raise e
  end.

(** A node of the file system: a regular file with its text, or a
    directory. A path that is not a key does not exist. *)
Inductive node : Type :=
| File (content : string)
| Dir.

Abbreviation filesystem := (gmap string node).

(** A computation that reads and writes the file system and may raise.
    The state at the time of the exception is kept. *)
Definition M (A : Type) : Type := filesystem -> res A * filesystem.

Definition ret {A} (a : A) : M A := fun fs => (Ret a, fs).
Definition raise {A} (e : exn) : M A := fun fs => (Raise e, fs).
Definition bind {A B} (m : M A) (k : A -> M B) : M B :=
  fun fs => match m fs with
            | (Ret a, fs') => k a fs'
            | (Raise e, fs') => (Raise e, fs')
            end.
Definition lift {A} (r : res A) : M A := fun fs => (r, fs).
Definition reads {A} (f : filesystem -> A) : M A := fun fs => (Ret (f fs), fs).

(** [try: body except OSError as e: handler(str(e))] *)
Definition try_OSError {A} (body : M A) (handler : string -> M A) : M A :=
  fun fs => match body fs with
            | (Raise (OSError msg), fs') => handler msg fs'
            | other => other
            end.

#[export] Instance res_ret : MRet res := @Ret.
#[export] Instance res_mbind : MBind res := fun A B k r => res_bind r k.
#[export] Instance M_ret : MRet M := @ret.
#[export] Instance M_mbind : MBind M := fun A B k m => bind m k.

(** ** [os.path] on POSIX *)

Definition sep : ascii := chr 47.

(** [os.path.join(a, b)] *)
Definition path_join (a b : string) : string :=
  if startswith b "/" then b
  else if String.eqb a "" || endswith a "/" then a +:+ b
  else a +:+ "/" +:+ b.

Definition is_nil {A} (l : list A) : bool :=
  match l with [] => true | _ => false end.

(** The loop of [posixpath.normpath] over the components. *)
Definition normpath_step (initial_slashes : nat) (new_comps : list string) (comp : string)
  : list string :=
  if String.eqb comp "" || String.eqb comp "." then new_comps
  else if negb (String.eqb comp "..")
          || (Nat.eqb initial_slashes 0 && is_nil new_comps)
          || (negb (is_nil new_comps) && String.eqb (List.last new_comps "") "..")
       then (new_comps ++ [comp])%list
       else removelast new_comps.

(** [os.path.normpath(path)] *)
Definition normpath (path : string) : string :=
  if String.eqb path "" then "."
  else
    let initial_slashes : nat :=
      if startswith path "/"
      then (if startswith path "//" && negb (startswith path "///") then 2 else 1)%nat
      else 0%nat in
    let comps := fold_left (normpath_step initial_slashes) (split sep path) [] in
    let path := join "" (repeat "/" initial_slashes) +:+ join "/" comps in
    if String.eqb path "" then "." else path.

(** [os.path.abspath(path)], with the working directory of the process. *)
Definition abspath (cwd path : string) : string :=
  normpath (if startswith path "/" then path else path_join cwd path).

(** [os.path.basename(path)]: what follows the last separator. *)
Definition basename (path : string) : string := List.last (split sep path) "".

Fixpoint commonprefix (a b : list string) : list string :=
  match a, b with
  | x :: a', y :: b' => if String.eqb x y then x :: commonprefix a' b' else []
  | _, _ => []
  end.

Definition nonempty (s : string) : bool := negb (String.eqb s "").

(** [os.path.relpath(path, start)] *)
Definition relpath (cwd path start : string) : string :=
  let start_list := List.filter nonempty (split sep (abspath cwd start)) in
  let path_list := List.filter nonempty (split sep (abspath cwd path)) in
  let i := length (commonprefix start_list path_list) in
  let rel_list := (repeat ".." (length start_list - i)%nat ++ skipn i path_list)%list in
  match rel_list with
  | [] => "."
  | x :: r => fold_left path_join r x
  end.

(** ** File-system primitives *)

Definition isdir (fs : filesystem) (p : string) : bool :=
  match fs !! p with Some Dir => true | _ => false end.

Definition isfile (fs : filesystem) (p : string) : bool :=
  match fs !! p with Some (File _) => true | _ => false end.

(** The name under which key [k] is an entry of directory [d], if it is. *)
Definition child_name (d k : string) : option string :=
  let pre := if endswith d "/" then d else d +:+ "/" in
  if String.prefix pre k then
    let r := String.substring (String.length pre) (String.length k - String.length pre)%nat k in
    if String.eqb r "" || has_char sep r then None else Some r
  else None.

(** [os.listdir(d)]: the entries of a directory; [None] stands for the
    [OSError] raised when [d] is not a directory that can be listed. *)
Definition listdir (fs : filesystem) (d : string) : option (list string) :=
  match fs !! d with
  | Some Dir => Some (omap (child_name d) (map fst (map_to_list fs)))
  | _ => None
  end.

Definition os_error (errno : Z) (strerror filename : string) : exn :=
  OSError ("[Errno " +:+ str_of_int errno +:+ "] " +:+ strerror +:+ ": " +:+ filename).

(** A text file is read with universal newlines: CR LF and CR become LF. *)
Fixpoint universal_newlines (s : string) : string :=
  match s with
  | EmptyString => EmptyString
  | String c r =>
      if code c =? 13 then
        String nl (match r with
                   | String c2 r2 => if code c2 =? 10 then universal_newlines r2
                                     else universal_newlines r
                   | EmptyString => EmptyString
                   end)
      else String c (universal_newlines r)
  end.

(** [open(p, "r").read()] *)
Definition read_text (fs : filesystem) (p : string) : res string :=
  match fs !! p with
  | Some (File c) => Ret (universal_newlines c)
  | Some Dir => Raise (os_error 21 "Is a directory" (repr_str p))
  | None => Raise (os_error 2 "No such file or directory" (repr_str p))
  end.

(** The primitive writes, one system-visible step each. *)
Inductive fsop : Type :=
| Makedirs (p : string)          (* os.makedirs(p, exist_ok=True) *)
| OpenW (p : string)             (* open(p, "w"): create or truncate *)
| WriteTo (p : string) (data : string)   (* f.write(data) on the open file *)
| Replace (src dst : string).    (* os.replace(src, dst) *)

(** What a primitive write does to the file system. Each primitive is
    taken at a path whose parent directory is there, which is where the
    two scripts use them once the repository root (for the hook: the home
    directory) is a directory: a step looks at the node of the path itself,
    and the resolution of its ancestors is left out. *)
Definition exec (o : fsop) : M unit :=
  fun fs =>
    match o with
    | Makedirs p =>
        match fs !! p with
        | Some Dir => (Ret tt, fs)
        | Some (File _) => (Raise (os_error 17 "File exists" (repr_str p)), fs)
        | None => (Ret tt, <[p := Dir]> fs)
        end
    | OpenW p =>
        match fs !! p with
        | Some Dir => (Raise (os_error 21 "Is a directory" (repr_str p)), fs)
        | _ => (Ret tt, <[p := File ""]> fs)
        end
    | WriteTo p data =>
        match fs !! p with
        | Some (File c) => (Ret tt, <[p := File (c +:+ data)]> fs)
        | _ => (Raise (os_error 9 "Bad file descriptor" (repr_str p)), fs)
        end
    | Replace src dst =>
        match fs !! src, fs !! dst with
        | None, _ =>
            (Raise (os_error 2 "No such file or directory"
                      (repr_str src +:+ " -> " +:+ repr_str dst)), fs)
        | Some (File _), Some Dir =>
            (Raise (os_error 21 "Is a directory"
                      (repr_str src +:+ " -> " +:+ repr_str dst)), fs)
        | Some Dir, Some (File _) =>
            (Raise (os_error 20 "Not a directory"
                      (repr_str src +:+ " -> " +:+ repr_str dst)), fs)
        | Some n, _ => (Ret tt, <[dst := n]> (delete src fs))
        end
    end.

(** A sequence of primitive writes; it stops at the first that raises. *)
Fixpoint run (ops : list fsop) : M unit :=
  match ops with
  | [] => ret tt
  | o :: r => bind (exec o) (fun _ => run r)
  end.

(* ===================================================================== *)
(** * What the server takes from its host *)
(* ===================================================================== *)

(** The decoder of the [json] module, the [git] binary, the working
    directory and two long literals of the source are taken as given.
    [json_loads s] is [None] when [json.loads(s)] raises
    [JSONDecodeError]; [run_git args cwd] is what the function [run_git] of
    the source returns: the stripped standard output of [git args] run in
    [cwd], or [None] when git fails, cannot be started or times out. *)
Record host : Type := {
  json_loads : string -> option json;
  run_git : list string -> string -> option string;
  getcwd : string;
  SERVER_INSTRUCTIONS : string;
  TOOL_DEFINITIONS : json;
}.

Definition SERVER_NAME : string := "wtmux".
Definition SERVER_VERSION : string := "1.0.0".

(** [error_result(text)] *)
Definition error_result (text : string) : json :=
  JObj [("content", JArr [JObj [("type", JStr "text"); ("text", JStr text)]]);
        ("isError", JBool true)].

(** [text_result(text)] *)
Definition text_result (text : string) : json :=
  JObj [("content", JArr [JObj [("type", JStr "text"); ("text", JStr text)]])].

(* ===================================================================== *)
(** * Env file scanner *)
(* ===================================================================== *)

Definition SKIP_DIRS : list string :=
  ["node_modules"; ".git"; "vendor"; ".build";
   "DerivedData"; ".svn"; ".hg"; "Pods"; "Carthage";
   ".swiftpm"; "build"; "dist"; ".next"; ".nuxt"].

Definition MAX_DEPTH : nat := 5.

Definition is_env_file (name : string) : bool :=
  startswith name ".env" || endswith name ".env".

Section scan.
Variable fs : filesystem.
Variable cwd : string.
(** [repo_path] after [os.path.abspath]. *)
Variable repo_path : string.

(** The body of the [for name in entries] loop of [scan_dir], with the
    recursive call passed in. *)
Definition scan_entry (scan_sub : string -> list string -> list string)
           (dirpath : string) (results : list string) (name : string) : list string :=
  let full := path_join dirpath name in
  if isdir fs full then
    if negb (mem name SKIP_DIRS) && negb (startswith name ".")
    then scan_sub full results
    else results
  else if isfile fs full && is_env_file name then
    let rel := relpath cwd full repo_path in
    if negb (mem rel results) then (results ++ [rel])%list else results
  else results.

(** [scan_dir(dirpath, depth)], acting on the list [results]. The
    recursion is on [budget = MAX_DEPTH + 1 - depth]: the guard
    [depth > MAX_DEPTH] of the source is [budget = 0]. *)
Fixpoint scan_dir (budget : nat) (dirpath : string) (results : list string)
  : list string :=
  match budget with
  | O => results
  | S budget' =>
      match listdir fs dirpath with
      | None => results
      | Some entries =>
          fold_left (scan_entry (scan_dir budget') dirpath) entries results
      end
  end.
End scan.

Definition scan_env_files (fs : filesystem) (cwd repo_path : string) : list string :=
  let repo_path := abspath cwd repo_path in
  let results := scan_dir fs cwd repo_path (S MAX_DEPTH) repo_path [] in
  sort String.leb results.

(* ===================================================================== *)
(** * Package manager detection *)
(* ===================================================================== *)

(** (manifest, lock file, name, setup command) *)
Definition PACKAGE_MANAGER_CANDIDATES : list (string * option string * string * string) :=
  [("package.json", Some "bun.lockb", "bun", "bun install");
   ("package.json", Some "bun.lock", "bun", "bun install");
   ("package.json", Some "pnpm-lock.yaml", "pnpm", "pnpm install");
   ("package.json", Some "yarn.lock", "yarn", "yarn install");
   ("package.json", None, "npm", "npm install");
   ("Gemfile", None, "bundler", "bundle install");
   ("requirements.txt", None, "pip", "pip install -r requirements.txt");
   ("pyproject.toml", None, "pip", "pip install -e .");
   ("composer.json", None, "composer", "composer install");
   ("Cargo.toml", None, "cargo", "cargo build");
   ("go.mod", None, "go", "go mod download");
   ("Package.swift", None, "swift", "swift package resolve");
   ("Podfile", None, "cocoapods", "pod install")].

(** The loop of [detect_package_manager] over a table of candidates. The
    result is the returned dict, or [JNull] for [None]. *)
Fixpoint detect_in (fs : filesystem) (repo_path : string)
         (candidates : list (string * option string * string * string)) : json :=
  match candidates with
  | [] => JNull
  | (manifest, lock_file, name, setup_cmd) :: rest =>
      let manifest_path := path_join repo_path manifest in
      if negb (isfile fs manifest_path) then detect_in fs repo_path rest
      else match lock_file with
           | Some lock =>
               let lock_path := path_join repo_path lock in
               if negb (isfile fs lock_path) then detect_in fs repo_path rest
               else JObj [("name", JStr name); ("setupCommand", JStr setup_cmd);
                          ("lockFile", JStr lock)]
           | None =>
               JObj [("name", JStr name); ("setupCommand", JStr setup_cmd);
                     ("lockFile", JNull)]
           end
  end.

Definition detect_package_manager (fs : filesystem) (repo_path : string) : json :=
  detect_in fs repo_path PACKAGE_MANAGER_CANDIDATES.

(* ===================================================================== *)
(** * Script parsing *)
(* ===================================================================== *)

Definition JS_MANAGERS : list string := ["npm"; "yarn"; "pnpm"; "bun"].

Definition DEV_NAME_PATTERNS : list string := ["dev"; "start"; "serve"; "watch"].
Definition DEV_CMD_PATTERNS : list string :=
  ["vite"; "next dev"; "nodemon"; "webpack serve"; "webpack-dev-server";
   "ts-node-dev"; "tsx watch"; "nuxt dev"; "remix dev"; "astro dev"].
Definition BUILD_PATTERNS : list string := ["build"; "compile"; "bundle"].
Definition TEST_PATTERNS : list string := ["test"; "e2e"; "cypress"; "vitest"; "playwright"].
Definition LINT_PATTERNS : list string :=
  ["lint"; "format"; "check"; "prettier"; "typecheck"; "type-check"].

(** [CATEGORY_ORDER.get(category, 4)] *)
Definition CATEGORY_ORDER (category : string) : nat :=
  if String.eqb category "devServer" then 0
  else if String.eqb category "build" then 1
  else if String.eqb category "test" then 2
  else if String.eqb category "lint" then 3
  else 4.

(** [categorize_script(name, command)]. [name] is a key of a decoded
    object, hence a [str]; [command] is any decoded value, and
    [command.lower()] raises on one that is not a [str]. *)
Definition categorize_script (name : string) (command : json) : res string :=
  let lower_name := lower name in
  match command with
  | JStr command =>
      let lower_cmd := lower command in
      if any_in DEV_NAME_PATTERNS lower_name || any_in DEV_CMD_PATTERNS lower_cmd
      then Ret "devServer"
      else if any_in BUILD_PATTERNS lower_name then Ret "build"
      else if any_in TEST_PATTERNS lower_name then Ret "test"
      else if any_in LINT_PATTERNS lower_name then Ret "lint"
      else Ret "other"
  | _ => Raise AttributeError
  end.

(** The key of [result.sort]: [(CATEGORY_ORDER.get(s["category"], 4), s["name"])]. *)
Definition script_key (s : json) : nat * string :=
  match s with
  | JObj kv => (CATEGORY_ORDER (py_str (dict_get kv "category" JNull)),
                py_str (dict_get kv "name" JNull))
  | _ => (4%nat, "")
  end.

(** Order of Python tuples [(int, str)]. *)
Definition key_leb (a b : nat * string) : bool :=
  (fst a <? fst b)%nat || (Nat.eqb (fst a) (fst b) && String.leb (snd a) (snd b)).

Definition script_leb (a b : json) : bool := key_leb (script_key a) (script_key b).

(** The loop of [parse_scripts] over [scripts.items()]. *)
Fixpoint script_entries (run_prefix : string) (items : list (string * json))
  : res (list json) :=
  match items with
  | [] => Ret []
  | (name, command) :: rest =>
      category ← categorize_script name command;
      result ← script_entries run_prefix rest;
      Ret (JObj [("name", JStr name);
                 ("command", command);
                 ("runCommand", JStr (run_prefix +:+ " " +:+ name));
                 ("category", JStr category)] :: result)
  end.

(** [package_manager["name"]] *)
Definition subscript_name (package_manager : json) : res json :=
  match package_manager with
  | JObj kv => match lookup_field "name" kv with
               | Some v => Ret v
               | None => Raise KeyError
               end
  | _ => Raise TypeError
  end.

(** [v in JS_MANAGERS], a set of strings: lists and dicts cannot be hashed. *)
Definition in_string_set (v : json) (set : list string) : res bool :=
  match v with
  | JStr s => Ret (mem s set)
  | JArr _ | JObj _ => Raise TypeError
  | _ => Ret false
  end.

Definition run_prefix_of (pm_name : json) : string :=
  if eq_str pm_name "npm" then "npm run"
  else if eq_str pm_name "yarn" then "yarn"
  else if eq_str pm_name "pnpm" then "pnpm run"
  else if eq_str pm_name "bun" then "bun run"
  else py_str pm_name +:+ " run".

Definition parse_scripts (H : host) (fs : filesystem) (repo_path : string)
           (package_manager : json) : res (list json) :=
  if negb (truthy package_manager) then Ret []
  else
    pm_name ← subscript_name package_manager;
    is_js ← in_string_set pm_name JS_MANAGERS;
    if negb is_js then Ret []
    else
      let pkg_path := path_join repo_path "package.json" in
      match read_text fs pkg_path with
      | Raise _ => Ret []
      | Ret text =>
          match json_loads H text with
          | None => Ret []
          | Some pkg =>
              match pkg with
              | JObj kv =>
                  match dict_get kv "scripts" JNull with
                  | JObj scripts =>
                      result ← script_entries (run_prefix_of pm_name) scripts;
                      Ret (sort script_leb result)
                  | _ => Ret []
                  end
              | _ => Raise AttributeError
              end
          end
      end.

(* ===================================================================== *)
(** * Default branch detection *)
(* ===================================================================== *)

(** [s.split("/", 1)] when it has two parts: the text before and after the
    first separator. *)
Fixpoint split_once (c : ascii) (s : string) : option (string * string) :=
  match s with
  | EmptyString => None
  | String a r =>
      if Ascii.eqb a c then Some (EmptyString, r)
      else match split_once c r with
           | Some (h, t) => Some (String a h, t)
           | None => None
           end
  end.

Definition is_some {A} (o : option A) : bool :=
  match o with Some _ => true | None => false end.

(** The result is the branch name, or [JNull] for [None]. *)
Definition detect_default_branch (H : host) (repo_path : string) : json :=
  let output := run_git H ["symbolic-ref"; "--short"; "refs/remotes/origin/HEAD"] repo_path in
  match output with
  | Some (String a r as output) =>
      match split_once sep output with
      | Some (_, rest) => JStr rest
      | None => JStr output
      end
  | _ =>
      if is_some (run_git H ["rev-parse"; "--verify"; "main"] repo_path) then JStr "main"
      else if is_some (run_git H ["rev-parse"; "--verify"; "master"] repo_path) then JStr "master"
      else JNull
  end.

(* ===================================================================== *)
(** * Config service *)
(* ===================================================================== *)

Definition CONFIG_DIR : string := ".wtmux".
Definition CONFIG_FILE : string := "config.json".

(** [read_config(repo_path)]: the decoded file, or [JNull] for [None]. *)
Definition read_config (H : host) (fs : filesystem) (repo_path : string) : json :=
  let config_path := path_join (path_join repo_path CONFIG_DIR) CONFIG_FILE in
  match read_text fs config_path with
  | Raise _ => JNull
  | Ret text => match json_loads H text with
                | Some v => v
                | None => JNull
                end
  end.

Definition config_dir_path (repo_path : string) : string := path_join repo_path CONFIG_DIR.
Definition config_file_path (repo_path : string) : string :=
  path_join (config_dir_path repo_path) CONFIG_FILE.
Definition config_tmp_path (repo_path : string) : string :=
  config_file_path repo_path +:+ ".tmp".

(** The text [json.dump] sends to the file reaches it in pieces. The
    model takes the finest split, one character at a time, so that every
    partial content of the file is a state of the trace. *)
Definition write_chars (p : string) (text : string) : list fsop :=
  map (fun c => WriteTo p (String c "")) (list_ascii_of_string text).

(** The primitive steps of [write_config(repo_path, config)], in order. *)
Definition write_config_ops (repo_path : string) (config : json) : list fsop :=
  let dir_path := path_join repo_path CONFIG_DIR in
  let config_path := path_join dir_path CONFIG_FILE in
  let tmp_path := config_path +:+ ".tmp" in
  ([Makedirs dir_path; OpenW tmp_path]
     ++ write_chars tmp_path (dumps_pretty config)
     ++ [WriteTo tmp_path NL; Replace tmp_path config_path])%list.

Definition write_config (repo_path : string) (config : json) : M unit :=
  run (write_config_ops repo_path config).

(** A line of the ignore file that already names the config directory. *)
Definition is_entry (line : string) : bool :=
  let trimmed := strip line in
  String.eqb trimmed ".wtmux" || String.eqb trimmed ".wtmux/".

(** [ensure_gitignore(repo_path)]: [True] when the entry was added. *)
Definition ensure_gitignore (repo_path : string) : M bool :=
  let gitignore_path := path_join repo_path ".gitignore" in
  fun fs =>
    (contents ← (if isfile fs gitignore_path
                 then lift (read_text fs gitignore_path)
                 else ret "");
     let lines := split nl contents in
     if existsb is_entry lines then ret false
     else
       let suffix := if endswith contents NL then "" else NL in
       let contents := contents +:+ suffix +:+ ".wtmux" +:+ NL in
       run [OpenW gitignore_path; WriteTo gitignore_path contents];;
       ret true) fs.

(* ===================================================================== *)
(** * Tool handlers *)
(* ===================================================================== *)

(** [arguments or {}] *)
Definition or_empty_dict (arguments : json) : json :=
  if truthy arguments then arguments else JObj [].

(** [v.get(k, default)]: only a dict has [get]. *)
Definition get (v : json) (k : string) (default : json) : res json :=
  match v with
  | JObj kv => Ret (dict_get kv k default)
  | _ => Raise AttributeError
  end.

(** [v.startswith(p)]: only a [str] has [startswith]. *)
Definition value_startswith (v : json) (p : string) : res bool :=
  match v with
  | JStr s => Ret (startswith s p)
  | _ => Raise AttributeError
  end.

(** [iter(v)]: the elements of a list, the keys of a dict, the characters
    of a [str]; nothing else can be iterated. *)
Definition iterate (v : json) : res (list json) :=
  match v with
  | JArr l => Ret l
  | JObj kv => Ret (map (fun p => JStr (fst p)) kv)
  | JStr s => Ret (map (fun c => JStr (String c "")) (list_ascii_of_string s))
  | _ => Raise TypeError
  end.

(** [len(v)] *)
Definition len (v : json) : res nat :=
  match v with
  | JArr l => Ret (length l)
  | JObj kv => Ret (length kv)
  | JStr s => Ret (String.length s)
  | _ => Raise TypeError
  end.

Fixpoint all_str (l : list json) : res (list string) :=
  match l with
  | [] => Ret []
  | JStr s :: r => t ← all_str r; Ret (s :: t)
  | _ :: _ => Raise TypeError
  end.

(** [sep.join(v)]: [v] must be an iterable of [str]. *)
Definition value_join (sep : string) (v : json) : res string :=
  items ← iterate v;
  strs ← all_str items;
  Ret (join sep strs).

(** The checks all three handlers start with. [inl] is the error result
    returned early, [inr] the path that passed. *)
Definition check_repo_path (arguments : json) : res (json + string) :=
  repo_path ← get (or_empty_dict arguments) "repoPath" JNull;
  if negb (truthy repo_path) then Ret (inl (error_result "Missing required parameter: repoPath"))
  else
    absolute ← value_startswith repo_path "/";
    if negb absolute then Ret (inl (error_result "repoPath must be an absolute path"))
    else match repo_path with
         | JStr p => Ret (inr p)
         | _ => Raise AttributeError
         end.

Definition no_git_message (repo_path : string) : string :=
  "No .git directory found at " +:+ repo_path +:+ ". Is this a git repository?".

Definition handle_analyze_project (H : host) (arguments : json) : M json :=
  fun fs =>
    (checked ← lift (check_repo_path arguments);
     match checked with
     | inl err => ret err
     | inr repo_path =>
         if negb (isdir fs (path_join repo_path ".git"))
         then ret (error_result (no_git_message repo_path))
         else
           let project_name := basename (abspath (getcwd H) repo_path) in
           let env_files := scan_env_files fs (getcwd H) repo_path in
           let pm := detect_package_manager fs repo_path in
           scripts ← lift (parse_scripts H fs repo_path pm);
           let default_branch := detect_default_branch H repo_path in
           let existing_config := read_config H fs repo_path in
           let analysis :=
             JObj [("projectName", JStr project_name);
                   ("envFiles", JArr (map JStr env_files));
                   ("packageManager", pm);
                   ("scripts", JArr scripts);
                   ("defaultBranch", default_branch);
                   ("existingConfig", existing_config)] in
           ret (text_result (dumps_pretty analysis))
     end) fs.

(** [isinstance(port, int)] with the value: [bool] is a subclass of [int]
    in Python, [True] being 1 and [False] 0. *)
Definition as_int (v : json) : option Z :=
  match v with
  | JInt z => Some z
  | JBool b => Some (if b then 1 else 0)
  | _ => None
  end.

(** [not isinstance(port, int) or port < 1 or port > 65535] *)
Definition port_rejected (port : json) : bool :=
  match as_int port with
  | None => true
  | Some z => (z <? 1) || (z >? 65535)
  end.

Definition is_null (v : json) : bool :=
  match v with JNull => true | _ => false end.

Definition invalid_port_message (port name : json) : string :=
  "Invalid port " +:+ py_str port +:+ " for '" +:+ py_str name +:+ "'. Must be 1-65535.".

(** How the loop over [runConfigurations] ends: with an early [return] of
    an error result, or with the list [run_configs]. *)
Inductive loop_end : Type :=
| Returned (result : json)
| Completed (run_configs : list json).

(** The loop [for i, rc in enumerate(...)], from index [i] on. *)
Fixpoint run_configs_loop (i : nat) (items : list json) (run_configs : list json)
  : loop_end :=
  match items with
  | [] => Completed run_configs
  | rc :: rest =>
      match rc with
      | JObj kv =>
          let name := dict_get kv "name" JNull in
          let command := dict_get kv "command" JNull in
          if negb (truthy name) || negb (truthy command)
          then run_configs_loop (S i) rest run_configs
          else
            let port := dict_get kv "port" JNull in
            if negb (is_null port) && port_rejected port
            then Returned (error_result (invalid_port_message port name))
            else
              let auto_start := dict_get kv "autoStart" (JBool false) in
              let order := dict_get kv "order" (JInt (Z.of_nat i)) in
              run_configs_loop (S i) rest
                (run_configs ++ [JObj [("name", name);
                                       ("command", command);
                                       ("port", port);
                                       ("autoStart", auto_start);
                                       ("order", order)]])%list
      | _ => run_configs_loop (S i) rest run_configs
      end
  end.

(** [config[k] = v] when [v is not None], on a dict that has no [k] yet. *)
Definition set_if_not_none (k : string) (v : json) (config : list (string * json))
  : list (string * json) :=
  if is_null v then config else (config ++ [(k, v)])%list.

Definition build_config (env_files setup_commands : json) (run_configs : list json)
           (terminal_start_command project_name default_branch worktree_base_path : json)
  : json :=
  JObj (set_if_not_none "worktreeBasePath" worktree_base_path
          (set_if_not_none "defaultBranch" default_branch
             (set_if_not_none "projectName" project_name
                (set_if_not_none "terminalStartCommand" terminal_start_command
                   [("envFilesToCopy", env_files);
                    ("setupCommands", setup_commands);
                    ("runConfigurations", JArr run_configs)])))).

(** The line of the summary for one persisted run configuration. *)
Definition run_config_line (rc : json) : string :=
  match rc with
  | JObj kv =>
      let port := dict_get kv "port" JNull in
      let port_str := if truthy port then " (port " +:+ py_str port +:+ ")" else "" in
      let auto_str := if truthy (dict_get kv "autoStart" JNull)
                      then " [default]" else " [optional]" in
      "    " +:+ py_str (dict_get kv "name" JNull) +:+ ": "
             +:+ py_str (dict_get kv "command" JNull) +:+ port_str +:+ auto_str
  | _ => ""
  end.

(** The part of [handle_configure_project] after the write: the summary. *)
Definition build_summary (repo_path : string) (env_files setup_commands : json)
           (run_configs : list json) (terminal_start_command : json)
           (gitignore_added : bool) : res json :=
  let lines := ["Configured " +:+ repo_path +:+ ":"] in
  lines ← (if truthy env_files
           then joined ← value_join ", " env_files;
                Ret (lines ++ ["- Env files: " +:+ joined])%list
           else Ret lines);
  lines ← (if truthy setup_commands
           then n ← len setup_commands;
                cmds ← iterate setup_commands;
                Ret (lines ++ ["- Setup commands: " +:+ str_of_int (Z.of_nat n)]
                           ++ map (fun cmd => "    " +:+ py_str cmd) cmds)%list
           else Ret lines);
  let lines := if negb (is_nil run_configs)
               then (lines ++ ["- Run configurations: "
                                 +:+ str_of_int (Z.of_nat (length run_configs))]
                           ++ map run_config_line run_configs)%list
               else lines in
  let lines := if truthy terminal_start_command
               then (lines ++ ["- Terminal start command: "
                                 +:+ py_str terminal_start_command])%list
               else lines in
  let gitignore_note := if gitignore_added then "Added .wtmux to .gitignore."
                        else ".wtmux was already in .gitignore." in
  let lines := (lines ++ [""; ".wtmux/config.json written and project configured for WTMux. "
                                +:+ gitignore_note])%list in
  Ret (text_result (join NL lines)).

Definition handle_configure_project (arguments : json) : M json :=
  fun fs =>
    (let args := or_empty_dict arguments in
     checked ← lift (check_repo_path arguments);
     match checked with
     | inl err => ret err
     | inr repo_path =>
         if negb (isdir fs (path_join repo_path ".git"))
         then ret (error_result (no_git_message repo_path))
         else
           env_files ← lift (get args "envFilesToCopy" (JArr []));
           setup_commands ← lift (get args "setupCommands" (JArr []));
           start_claude ← lift (get args "startClaudeInTerminals" JNull);
           explicit_command ← lift (get args "terminalStartCommand" JNull);
           let terminal_start_command :=
             if truthy start_claude then JStr "claude"
             else if truthy explicit_command then explicit_command
             else JNull in
           project_name ← lift (get args "projectName" JNull);
           default_branch ← lift (get args "defaultBranch" JNull);
           worktree_base_path ← lift (get args "worktreeBasePath" JNull);
           rcs ← lift (get args "runConfigurations" (JArr []));
           items ← lift (iterate rcs);
           match run_configs_loop 0 items [] with
           | Returned err => ret err
           | Completed run_configs =>
               let config := build_config env_files setup_commands run_configs
                               terminal_start_command project_name default_branch
                               worktree_base_path in
               written ← try_OSError
                           (write_config repo_path config;;
                            gitignore_added ← ensure_gitignore repo_path;
                            ret (inr gitignore_added))
                           (fun e => ret (inl (error_result ("Failed to write config: " +:+ e))));
               match written with
               | inl err => ret err
               | inr gitignore_added =>
                   lift (build_summary repo_path env_files setup_commands run_configs
                           terminal_start_command gitignore_added)
               end
           end
     end) fs.

Definition not_configured_message (repo_path : string) : string :=
  "No .wtmux/config.json found at " +:+ repo_path
    +:+ ". Project is not yet configured for WTMux.".

Definition handle_get_project_config (H : host) (arguments : json) : M json :=
  fun fs =>
    (checked ← lift (check_repo_path arguments);
     match checked with
     | inl err => ret err
     | inr repo_path =>
         let config := read_config H fs repo_path in
         if is_null config then ret (text_result (not_configured_message repo_path))
         else ret (text_result (dumps_pretty config))
     end) fs.

(** [TOOL_HANDLERS.get(tool_name)]: a list or a dict cannot be hashed. *)
Definition TOOL_HANDLERS (H : host) (tool_name : json) : res (option (json -> M json)) :=
  match tool_name with
  | JStr s =>
      if String.eqb s "analyze_project" then Ret (Some (handle_analyze_project H))
      else if String.eqb s "configure_project" then Ret (Some handle_configure_project)
      else if String.eqb s "get_project_config" then Ret (Some (handle_get_project_config H))
      else Ret None
  | JArr _ | JObj _ => Raise TypeError
  | _ => Ret None
  end.

(* ===================================================================== *)
(** * JSON-RPC server *)
(* ===================================================================== *)

Definition response (msg_id result : json) : json :=
  JObj [("jsonrpc", JStr "2.0"); ("id", msg_id); ("result", result)].

Definition initialize_result (H : host) : json :=
  JObj [("protocolVersion", JStr "2024-11-05");
        ("capabilities", JObj [("tools", JObj [])]);
        ("serverInfo", JObj [("name", JStr SERVER_NAME); ("version", JStr SERVER_VERSION)]);
        ("instructions", JStr (SERVER_INSTRUCTIONS H))].

Definition method_not_found (msg_id method : json) : json :=
  JObj [("jsonrpc", JStr "2.0");
        ("id", msg_id);
        ("error", JObj [("code", JInt (-32601));
                        ("message", JStr ("Method not found: " +:+ py_str method))])].

(** [handle_request(msg)]: the response, or [None] for no response. *)
Definition handle_request (H : host) (msg : json) : M (option json) :=
  method ← lift (get msg "method" (JStr ""));
  params ← lift (get msg "params" (JObj []));
  msg_id ← lift (get msg "id" JNull);
  if eq_str method "initialize" then
    ret (Some (response msg_id (initialize_result H)))
  else if eq_str method "notifications/initialized" then
    ret None
  else if eq_str method "tools/list" then
    ret (Some (response msg_id (JObj [("tools", TOOL_DEFINITIONS H)])))
  else if eq_str method "tools/call" then
    tool_name ← lift (get params "name" (JStr ""));
    arguments ← lift (get params "arguments" (JObj []));
    handler ← lift (TOOL_HANDLERS H tool_name);
    result ← match handler with
              | Some handler => handler arguments
              | None => ret (error_result ("Unknown tool: " +:+ py_str tool_name))
              end;
    ret (Some (response msg_id result))
  else if eq_str method "ping" then
    ret (Some (response msg_id (JObj [])))
  else if negb (is_null msg_id) then
    ret (Some (method_not_found msg_id method))
  else ret None.

(** [send_response(obj)]: what is written to standard output, and flushed. *)
Definition send_response (obj : json) : string := dumps_compact obj +:+ NL.

(** How the process ends: the input is exhausted, or an exception that
    nothing catches ends it. *)
Inductive exit : Type :=
| EndOfInput
| Uncaught (e : exn).

(** The state of a run when it ends: how it ended, the file system, and
    the writes to standard output in order. *)
Record final : Type := {
  ending : exit;
  files : filesystem;
  stdout : list string;
}.

(** The loop [for line in sys.stdin] of [main]. *)
Fixpoint serve (H : host) (stdin : list string) (fs : filesystem) (out : list string)
  : final :=
  match stdin with
  | [] => {| ending := EndOfInput; files := fs; stdout := out |}
  | line :: rest =>
      let line := strip line in
      if String.eqb line "" then serve H rest fs out
      else match json_loads H line with
           | None => serve H rest fs out
           | Some msg =>
               match handle_request H msg fs with
               | (Raise e, fs') => {| ending := Uncaught e; files := fs'; stdout := out |}
               | (Ret None, fs') => serve H rest fs' out
               | (Ret (Some resp), fs') =>
                   serve H rest fs' (out ++ [send_response resp])%list
               end
           end
  end.

(** [main()], for a process started without [--version]. *)
Definition main (H : host) (stdin : list string) (fs : filesystem) : final :=
  serve H stdin fs [].

(* ===================================================================== *)
(** * Specification-level notions

    The definitions below do not come from the source: they say, in the
    words of the specification, what the functions above are compared
    with. *)
(* ===================================================================== *)

(** ** Package manager table *)

(** An entry of the table is satisfied when its manifest is a file of the
    repository root and so is its lock file, when it names one. *)
Definition candidate_satisfied (fs : filesystem) (repo_path : string)
           (c : string * option string * string * string) : bool :=
  let '(manifest, lock_file, _, _) := c in
  isfile fs (path_join repo_path manifest)
  && match lock_file with
     | Some lock => isfile fs (path_join repo_path lock)
     | None => true
     end.

(** What is reported for an entry of the table. *)
Definition candidate_result (c : string * option string * string * string) : json :=
  let '(_, lock_file, name, setup_cmd) := c in
  JObj [("name", JStr name); ("setupCommand", JStr setup_cmd);
        ("lockFile", match lock_file with Some lock => JStr lock | None => JNull end)].

Definition candidate_manifest (c : string * option string * string * string) : string :=
  let '(manifest, _, _, _) := c in manifest.

(** The name of a detected package manager. *)
Definition manager_name (pm : json) : option string :=
  match pm with
  | JObj kv => match lookup_field "name" kv with
               | Some (JStr s) => Some s
               | _ => None
               end
  | _ => None
  end.

(** ** Script categories *)

(** [p] occurs in [s] as a contiguous run of characters. *)
Definition occurs (p s : string) : Prop := exists a b, s = a +:+ p +:+ b.

(** One of the tokens occurs in the text, read without regard to case. *)
Definition has_token (tokens : list string) (text : string) : Prop :=
  exists p, In p tokens /\ occurs p (lower text).

Definition dev_like (name command : string) : Prop :=
  has_token DEV_NAME_PATTERNS name \/ has_token DEV_CMD_PATTERNS command.

(** The first satisfied category in the order devServer, build, test,
    lint, other. *)
Inductive category (name command : string) : string -> Prop :=
| category_devServer :
    dev_like name command ->
    category name command "devServer"
| category_build :
    ~ dev_like name command ->
    has_token BUILD_PATTERNS name ->
    category name command "build"
| category_test :
    ~ dev_like name command ->
    ~ has_token BUILD_PATTERNS name ->
    has_token TEST_PATTERNS name ->
    category name command "test"
| category_lint :
    ~ dev_like name command ->
    ~ has_token BUILD_PATTERNS name ->
    ~ has_token TEST_PATTERNS name ->
    has_token LINT_PATTERNS name ->
    category name command "lint"
| category_other :
    ~ dev_like name command ->
    ~ has_token BUILD_PATTERNS name ->
    ~ has_token TEST_PATTERNS name ->
    ~ has_token LINT_PATTERNS name ->
    category name command "other".

(** The entry [parse_scripts] reports for a script with a given category. *)
Definition script_entry (run_prefix name : string) (command : json) (cat : string) : json :=
  JObj [("name", JStr name);
        ("command", command);
        ("runCommand", JStr (run_prefix +:+ " " +:+ name));
        ("category", JStr cat)].

(** Entries come in the order of (category rank, script name). *)
Definition by_rank_then_name (a b : json) : Prop :=
  key_leb (script_key a) (script_key b) = true.

(** ** Env files below the repository root *)

(** [env_file_at fs depth dirpath full]: [full] is a regular file with an
    env-file name that the descent reaches from the directory [dirpath],
    itself [depth] levels below the root: it is an entry of [dirpath], or
    it is reached from a subdirectory of [dirpath] whose name is neither in
    the skip set nor dot-prefixed. No directory deeper than [MAX_DEPTH] is
    listed. *)
Inductive env_file_at (fs : filesystem) : nat -> string -> string -> Prop :=
| env_file_here depth dirpath entries name :
    (depth <= MAX_DEPTH)%nat ->
    listdir fs dirpath = Some entries ->
    In name entries ->
    isfile fs (path_join dirpath name) = true ->
    is_env_file name = true ->
    env_file_at fs depth dirpath (path_join dirpath name)
| env_file_below depth dirpath entries name full :
    (depth <= MAX_DEPTH)%nat ->
    listdir fs dirpath = Some entries ->
    In name entries ->
    isdir fs (path_join dirpath name) = true ->
    ~ In name SKIP_DIRS ->
    startswith name "." = false ->
    env_file_at fs (S depth) (path_join dirpath name) full ->
    env_file_at fs depth dirpath full.

(** A repository whose root holds [.env], [.env.local], [config.env] and
    [notes.txt]. *)
Definition four_files : filesystem :=
  list_to_map [("/repo", Dir);
               ("/repo/notes.txt", File "remember");
               ("/repo/config.env", File "A=1");
               ("/repo/.env.local", File "B=2");
               ("/repo/.env", File "C=3")].

(** ** Writes and the paths they touch *)

(** The paths whose node a primitive write can change. *)
Definition touches (o : fsop) : list string :=
  match o with
  | Makedirs p => [p]
  | OpenW p => [p]
  | WriteTo p _ => [p]
  | Replace src dst => [src; dst]
  end.

(** The state of the file system when the process is terminated after
    [k] primitive steps of a sequence of writes. *)
Definition terminated_after (k : nat) (ops : list fsop) (fs : filesystem) : filesystem :=
  snd (run (firstn k ops) fs).

(** The steps of [write_config] that come before [os.replace]. *)
Definition before_replace (repo_path : string) (config : json) : list fsop :=
  removelast (write_config_ops repo_path config).

(** Every object of a document has its keys in the order of strings. *)
Fixpoint keys_sorted (v : json) : Prop :=
  match v with
  | JArr l =>
      (fix all (l : list json) : Prop :=
         match l with
         | [] => True
         | x :: r => keys_sorted x /\ all r
         end) l
  | JObj kv =>
      StronglySorted (fun p q => String.leb (fst p) (fst q) = true) kv
      /\ (fix all (kv : list (string * json)) : Prop :=
            match kv with
            | [] => True
            | p :: r => keys_sorted (snd p) /\ all r
            end) kv
  | _ => True
  end.

(** ** The ignore file *)

Definition gitignore_path (repo_path : string) : string := path_join repo_path ".gitignore".

(** The text of the ignore file as the code reads it; empty when there is
    no such file. *)
Definition gitignore_text (fs : filesystem) (repo_path : string) : string :=
  match fs !! gitignore_path repo_path with
  | Some (File c) => universal_newlines c
  | _ => ""
  end.

(** The number of lines that name the config directory, bare or with a
    trailing separator. *)
Definition entry_count (text : string) : nat :=
  length (List.filter is_entry (split nl text)).

(** The text with one entry line appended: a line break is put in front
    only when the text does not already end with one. *)
Definition with_entry (text : string) : string :=
  text +:+ (if endswith text NL then "" else NL) +:+ ".wtmux" +:+ NL.

(** What one entry [name] of the directory [dirpath], at [depth], adds to
    the results of the scan. *)
Definition adds (fs : filesystem) (cwd repo_path : string)
           (depth : nat) (dirpath name x : string) : Prop :=
  (isfile fs (path_join dirpath name) = true /\ is_env_file name = true
   /\ x = relpath cwd (path_join dirpath name) repo_path)
  \/ (isdir fs (path_join dirpath name) = true /\ ~ In name SKIP_DIRS
      /\ startswith name "." = false
      /\ exists full, env_file_at fs (S depth) (path_join dirpath name) full
                      /\ x = relpath cwd full repo_path).

(** The order a Boolean comparison stands for. *)
Definition le_of {A : Type} (leb : A -> A -> bool) (x y : A) : Prop := leb x y = true.

(** A text without carriage return. *)
Definition no_cr (s : string) : Prop := has_char (chr 13) s = false.

(** ** Run configurations *)

(** An element of [runConfigurations] is kept when it is an object whose
    name and command are both true values in Python's sense: present and
    not null, not empty, not zero, not false. Any other element is
    skipped. *)
Definition kept (rc : json) : bool :=
  match rc with
  | JObj kv => truthy (dict_get kv "name" JNull) && truthy (dict_get kv "command" JNull)
  | _ => false
  end.

(** A field of an element; [JNull] when the element has no such field. *)
Definition field (k : string) (rc : json) : json :=
  match rc with
  | JObj kv => dict_get kv k JNull
  | _ => JNull
  end.

(** The field is there: the element is an object with a binding for it. *)
Definition has_field (k : string) (rc : json) : bool :=
  match rc with
  | JObj kv => is_some (lookup_field k kv)
  | _ => false
  end.

(** The port of a kept element stops the call. *)
Definition port_stops (rc : json) : bool :=
  negb (is_null (field "port" rc)) && port_rejected (field "port" rc).

(** The entry persisted for the element at position [i] of the caller's
    list. *)
Definition entry_of (i : nat) (rc : json) : json :=
  match rc with
  | JObj kv =>
      JObj [("name", dict_get kv "name" JNull);
            ("command", dict_get kv "command" JNull);
            ("port", dict_get kv "port" JNull);
            ("autoStart", dict_get kv "autoStart" (JBool false));
            ("order", dict_get kv "order" (JInt (Z.of_nat i)))]
  | _ => JNull
  end.

(** [enumerate(l)], counting from [i]. *)
Fixpoint enumerate_from {A : Type} (i : nat) (l : list A) : list (nat * A) :=
  match l with
  | [] => []
  | x :: r => (i, x) :: enumerate_from (S i) r
  end.

Definition kept_indexed (p : nat * json) : bool := kept (snd p).
Definition stops_indexed (p : nat * json) : bool := kept (snd p) && port_stops (snd p).

(** The entries of the kept elements, each with its position in the
    caller's list. *)
Definition entries_from (i : nat) (items : list json) : list json :=
  map (fun p => entry_of (fst p) (snd p)) (List.filter kept_indexed (enumerate_from i items)).

(** The configuration [configure_project] builds from its arguments, given
    the run configurations it kept. *)
Definition config_of (kv : list (string * json)) (run_configs : list json) : json :=
  build_config (dict_get kv "envFilesToCopy" (JArr []))
               (dict_get kv "setupCommands" (JArr []))
               run_configs
               (if truthy (dict_get kv "startClaudeInTerminals" JNull) then JStr "claude"
                else if truthy (dict_get kv "terminalStartCommand" JNull)
                     then dict_get kv "terminalStartCommand" JNull
                     else JNull)
               (dict_get kv "projectName" JNull)
               (dict_get kv "defaultBranch" JNull)
               (dict_get kv "worktreeBasePath" JNull).

(** The summary [configure_project] returns for the same arguments. *)
Definition summary_of (repo_path : string) (kv : list (string * json))
           (run_configs : list json) (gitignore_added : bool) : res json :=
  build_summary repo_path
                (dict_get kv "envFilesToCopy" (JArr []))
                (dict_get kv "setupCommands" (JArr []))
                run_configs
                (if truthy (dict_get kv "startClaudeInTerminals" JNull) then JStr "claude"
                 else if truthy (dict_get kv "terminalStartCommand" JNull)
                      then dict_get kv "terminalStartCommand" JNull
                      else JNull)
                gitignore_added.

(** A call of [configure_project] that passes the checks on the path: the
    arguments are an object, [repoPath] is an absolute path, and the
    repository has a [.git] directory. *)
Definition call_accepted (fs : filesystem) (kv : list (string * json)) (repo_path : string)
  : Prop :=
  lookup_field "repoPath" kv = Some (JStr repo_path)
  /\ startswith repo_path "/" = true
  /\ isdir fs (path_join repo_path ".git") = true.

(** Nothing stands in the way of the write: the config directory is not a
    regular file, the config file and its temporary sibling are not
    directories, and the ignore file is not a directory. *)
Definition writable (fs : filesystem) (repo_path : string) : Prop :=
  isfile fs (config_dir_path repo_path) = false
  /\ isdir fs (config_tmp_path repo_path) = false
  /\ isdir fs (config_file_path repo_path) = false
  /\ isdir fs (gitignore_path repo_path) = false.

(** A port as the specification wants it: a JSON integer from 1 to 65535. *)
Definition integer_port (v : json) : Prop :=
  exists z, v = JInt z /\ 1 <= z <= 65535.

Definition is_boolean (v : json) : bool :=
  match v with JBool _ => true | _ => false end.

(** A repository that is a git checkout and nothing else. *)
Definition bare_repo : filesystem :=
  list_to_map [("/repo", Dir); ("/repo/.git", Dir)].

(** ** Sample calls *)

Definition web_runner : json :=
  JObj [("name", JStr "web"); ("command", JStr "npm run dev")].

(** A call whose list of run configurations starts with an element that
    is not an object. *)
Definition call_with_stray_element : list (string * json) :=
  [("repoPath", JStr "/repo"); ("runConfigurations", JArr [JInt 3; web_runner])].

(** A call with one run configuration, which names no port. *)
Definition call_without_port : list (string * json) :=
  [("repoPath", JStr "/repo"); ("runConfigurations", JArr [web_runner])].

Definition boolean_port_runner : json :=
  JObj [("name", JStr "web"); ("command", JStr "npm run dev"); ("port", JBool true)].

(** A call with one run configuration, whose port is the JSON value
    [true]. *)
Definition call_with_boolean_port : list (string * json) :=
  [("repoPath", JStr "/repo"); ("runConfigurations", JArr [boolean_port_runner])].

(** ** Messages and responses *)

Definition method_of (kv : list (string * json)) : json := dict_get kv "method" (JStr "").
Definition id_of (kv : list (string * json)) : json := dict_get kv "id" JNull.

(** The four methods the server treats as requests. *)
Definition request_method (m : json) : bool :=
  eq_str m "initialize" || eq_str m "tools/list" || eq_str m "tools/call" || eq_str m "ping".

(** The messages the server answers: those of a request method, with or
    without an id, and those of any other method but
    [notifications/initialized] that carry an id which is not null. *)
Definition answered (kv : list (string * json)) : bool :=
  request_method (method_of kv)
  || (negb (eq_str (method_of kv) "notifications/initialized")
      && negb (is_null (id_of kv))).

(** The result of a tool call: text content, flagged as an error or not. *)
Definition tool_result (r : json) : Prop :=
  exists text, r = text_result text \/ r = error_result text.

(** A text that fits on one line. *)
Definition one_line (s : string) : Prop := has_char nl s = false.

(** The [repr] of every float of a document is free of line breaks, as
    the [repr] of a Python float is. *)
Fixpoint plain (v : json) : Prop :=
  match v with
  | JFloat r => one_line r
  | JArr l =>
      (fix all (l : list json) : Prop :=
         match l with
         | [] => True
         | x :: r => plain x /\ all r
         end) l
  | JObj kv =>
      (fix all (kv : list (string * json)) : Prop :=
         match kv with
         | [] => True
         | p :: r => plain (snd p) /\ all r
         end) kv
  | _ => True
  end.

(** What is written for the outcome of [handle_request]. *)
Definition written (r : option json) : list string :=
  match r with
  | Some resp => [send_response resp]
  | None => []
  end.

(** A decoder that knows the compact text of the given documents and
    rejects every other line. *)
Definition decoder_of (docs : list json) (s : string) : option json :=
  find (fun v => String.eqb (dumps_compact v) s) docs.

(** A host for the examples: no git, an empty tool catalogue. *)
Definition sample_host (docs : list json) : host :=
  {| json_loads := decoder_of docs;
     run_git := fun _ _ => None;
     getcwd := "/";
     SERVER_INSTRUCTIONS := "Use these tools.";
     TOOL_DEFINITIONS := JArr [] |}.

(** [ping] sent as a notification: no id. *)
Definition ping_notification : json :=
  JObj [("jsonrpc", JStr "2.0"); ("method", JStr "ping")].

Definition ping_request : json :=
  JObj [("jsonrpc", JStr "2.0"); ("id", JInt 2); ("method", JStr "ping")].

(** [notifications/initialized] sent with an id. *)
Definition initialized_with_id : json :=
  JObj [("jsonrpc", JStr "2.0"); ("id", JInt 1); ("method", JStr "notifications/initialized")].

(** A tool call whose [repoPath] is a number. *)
Definition call_with_numeric_path : json :=
  JObj [("jsonrpc", JStr "2.0"); ("id", JInt 1); ("method", JStr "tools/call");
        ("params", JObj [("name", JStr "get_project_config");
                         ("arguments", JObj [("repoPath", JInt 42)])])].

(* ===================================================================== *)
(** * Further notions for the properties of the remaining code *)
(* ===================================================================== *)

(** ** Lines of standard input *)

(** A line the loop of [main] hands to [handle_request]: not blank once
    stripped, and decoded by [json.loads]. *)
Definition decodable (H : host) (line : string) : bool :=
  negb (String.eqb (strip line) "") && is_some (json_loads H (strip line)).

(** The run so far has read all its input. *)
Definition running (f : final) : bool :=
  match ending f with EndOfInput => true | Uncaught _ => false end.

(** ** Tool calls *)

(** One of the three names of [TOOL_HANDLERS]. *)
Definition known_tool (name : json) : bool :=
  eq_str name "analyze_project" || eq_str name "configure_project"
  || eq_str name "get_project_config".

(** A value that can be a key of a Python dict: neither a list nor a
    dict. *)
Definition hashable (v : json) : bool :=
  match v with JArr _ | JObj _ => false | _ => true end.

(** The message is a call of the tool [configure_project]. *)
Definition configure_call (msg : json) : Prop :=
  exists kv params,
    msg = JObj kv
    /\ method_of kv = JStr "tools/call"
    /\ dict_get kv "params" (JObj []) = JObj params
    /\ dict_get params "name" (JStr "") = JStr "configure_project".

(** The [repoPath] a handler sees in its arguments; [JNull] when the
    arguments are a false value or have no such member. *)
Definition repo_path_of (arguments : json) : json :=
  match or_empty_dict arguments with
  | JObj kv => dict_get kv "repoPath" JNull
  | _ => JNull
  end.

(** The arguments of a tool call are an object, or a false value, which
    the handlers read as the empty object. *)
Definition dict_like (arguments : json) : bool :=
  match or_empty_dict arguments with JObj _ => true | _ => false end.

(** A call of [configure_project] on the bare repository. *)
Definition configure_message : json :=
  JObj [("jsonrpc", JStr "2.0"); ("id", JInt 7); ("method", JStr "tools/call");
        ("params", JObj [("name", JStr "configure_project");
                         ("arguments", JObj call_without_port)])].

(** ** The config store *)

(** The text [write_config] brings into the config file. *)
Definition config_text (config : json) : string := dumps_pretty config +:+ NL.

(** The file system after the steps of [write_config] that come before
    the replace: the config directory is there and the temporary file holds
    the whole text. *)
Definition staged (repo_path : string) (config : json) (fs : filesystem) : filesystem :=
  <[config_tmp_path repo_path := File (config_text config)]>
    (<[config_dir_path repo_path := Dir]> fs).

(** The file system after a [write_config] that went through. *)
Definition written_config (repo_path : string) (config : json) (fs : filesystem)
  : filesystem :=
  <[config_file_path repo_path := File (config_text config)]>
    (delete (config_tmp_path repo_path) (<[config_dir_path repo_path := Dir]> fs)).

(** A repository whose [.wtmux] is a regular file. *)
Definition blocked_repo : filesystem :=
  list_to_map [("/repo", Dir); ("/repo/.git", Dir); ("/repo/.wtmux", File "")].

(** A repository whose [.gitignore] is a directory. *)
Definition odd_ignore_repo : filesystem :=
  list_to_map [("/repo", Dir); ("/repo/.git", Dir); ("/repo/.gitignore", Dir)].

(** A repository whose config path is a directory. *)
Definition odd_config_repo : filesystem :=
  list_to_map [("/repo", Dir); ("/repo/.git", Dir); ("/repo/.wtmux", Dir);
               ("/repo/.wtmux/config.json", Dir)].

(** ** Persisted configurations *)

(** The keys of an object, in order; none for any other value. *)
Definition keys (v : json) : list string :=
  match v with
  | JObj kv => map fst kv
  | _ => []
  end.

(** The keys of a persisted run configuration. *)
Definition run_config_keys : list string :=
  ["name"; "command"; "port"; "autoStart"; "order"].

(** A call with a project name, an explicit terminal command and the
    request to start Claude in terminals. *)
Definition call_with_claude : list (string * json) :=
  [("repoPath", JStr "/repo");
   ("terminalStartCommand", JStr "zsh");
   ("startClaudeInTerminals", JBool true);
   ("projectName", JStr "demo")].

(** A runner whose port is out of range, after a valid one. *)
Definition call_with_port_70000 : list (string * json) :=
  [("repoPath", JStr "/repo");
   ("runConfigurations",
    JArr [JObj [("name", JStr "api"); ("command", JStr "make run"); ("port", JInt 8080)];
          JObj [("name", JStr "web"); ("command", JStr "npm run dev");
                ("port", JInt 70000)]])].

(** A call whose list of env files holds a number. *)
Definition call_with_numeric_env_file : list (string * json) :=
  [("repoPath", JStr "/repo"); ("envFilesToCopy", JArr [JInt 1])].

(** A call whose [runConfigurations] is null. *)
Definition call_with_null_runners : list (string * json) :=
  [("repoPath", JStr "/repo"); ("runConfigurations", JNull)].

(** A value that [iter] refuses: null, a boolean or a number. *)
Definition not_iterable (v : json) : bool :=
  match v with
  | JNull | JBool _ | JInt _ | JFloat _ => true
  | _ => false
  end.

(** ** The analyzer *)

(** The three probes of [detect_default_branch]. *)
Definition origin_head (H : host) (repo_path : string) : option string :=
  run_git H ["symbolic-ref"; "--short"; "refs/remotes/origin/HEAD"] repo_path.
Definition has_main (H : host) (repo_path : string) : bool :=
  is_some (run_git H ["rev-parse"; "--verify"; "main"] repo_path).
Definition has_master (H : host) (repo_path : string) : bool :=
  is_some (run_git H ["rev-parse"; "--verify"; "master"] repo_path).

(** The symbolic reference gave nothing to go by: the probe failed, or
    its output was empty. *)
Definition no_origin_head (H : host) (repo_path : string) : bool :=
  match origin_head H repo_path with
  | Some (String _ _) => false
  | _ => true
  end.

(** A host whose git answers the symbolic-reference probe with the given
    text and fails every other probe. *)
Definition host_with_origin_head (output : string) : host :=
  {| json_loads := fun _ => None;
     run_git := fun args _ => match args with
                              | "symbolic-ref" :: _ => Some output
                              | _ => None
                              end;
     getcwd := "/";
     SERVER_INSTRUCTIONS := "";
     TOOL_DEFINITIONS := JArr [] |}.

(** A host whose git has no origin but knows both [main] and [master]. *)
Definition host_with_local_branches : host :=
  {| json_loads := fun _ => None;
     run_git := fun args _ => match args with
                              | "rev-parse" :: _ => Some "0123abc"
                              | _ => None
                              end;
     getcwd := "/";
     SERVER_INSTRUCTIONS := "";
     TOOL_DEFINITIONS := JArr [] |}.

(** The word a package manager puts in front of a script name. *)
Definition run_words (manager : string) : string :=
  if String.eqb manager "yarn" then "yarn" else manager +:+ " run".

(** The manifest of a repository decodes to an object whose [scripts]
    member is the object [scripts]. *)
Definition manifest_scripts (H : host) (fs : filesystem) (repo_path : string)
           (scripts : list (string * json)) : Prop :=
  exists text pkg,
    read_text fs (path_join repo_path "package.json") = Ret text
    /\ json_loads H text = Some (JObj pkg)
    /\ dict_get pkg "scripts" JNull = JObj scripts.

(** A host that decodes one given text to one given document. *)
Definition host_decoding (text : string) (doc : json) : host :=
  {| json_loads := fun s => if String.eqb s text then Some doc else None;
     run_git := fun _ _ => None;
     getcwd := "/";
     SERVER_INSTRUCTIONS := "";
     TOOL_DEFINITIONS := JArr [] |}.

(** A repository with a yarn lock file and a manifest, whose text stands
    for two scripts. *)
Definition yarn_repo : filesystem :=
  list_to_map [("/repo", Dir); ("/repo/.git", Dir);
               ("/repo/package.json", File "MANIFEST"); ("/repo/yarn.lock", File "")].

Definition yarn_manifest : json :=
  JObj [("name", JStr "demo");
        ("scripts", JObj [("test", JStr "jest"); ("dev", JStr "vite")])].

(** A repository whose manifest decodes to a list. *)
Definition list_manifest_repo : filesystem :=
  list_to_map [("/repo", Dir); ("/repo/.git", Dir); ("/repo/package.json", File "LIST")].

(** ** Texts of documents *)

(** No float of the document has the character [c] in its [repr]. *)
Fixpoint floats_avoid (c : ascii) (v : json) : Prop :=
  match v with
  | JFloat r => has_char c r = false
  | JArr l =>
      (fix all (l : list json) : Prop :=
         match l with
         | [] => True
         | x :: r => floats_avoid c x /\ all r
         end) l
  | JObj kv =>
      (fix all (kv : list (string * json)) : Prop :=
         match kv with
         | [] => True
         | p :: r => floats_avoid c (snd p) /\ all r
         end) kv
  | _ => True
  end.

(** The carriage return. *)
Definition CR : ascii := chr 13.

(** One member of an object with its value's keys sorted. *)
Definition sort_member (p : string * json) : string * json := (fst p, sort_keys (snd p)).

(** The order of dict items by key. *)
Definition item_leb (p q : string * json) : bool := String.leb (fst p) (fst q).

(** The configuration written for [call_with_claude]. *)
Definition claude_config : json := config_of call_with_claude [].

(* ===================================================================== *)
(** * The hook script

    Source: [Resources/remote-scripts/wtmux-hook.py]. *)
(* ===================================================================== *)

(** [json.dumps(v)] with the default separators. *)
Fixpoint dumps_default (v : json) : string :=
  match v with
  | JNull => "null"
  | JBool true => "true"
  | JBool false => "false"
  | JInt z => str_of_int z
  | JFloat r => json_float r
  | JStr s => json_string s
  | JArr l => "[" +:+ join ", " (map dumps_default l) +:+ "]"
  | JObj kv =>
      "{" +:+ join ", " (map (fun p => json_string (fst p) +:+ ": " +:+ dumps_default (snd p)) kv)
          +:+ "}"
  end.

(** [s.rstrip("/")] *)
Fixpoint rstrip_sep (s : string) : string :=
  match s with
  | EmptyString => EmptyString
  | String c s' =>
      match rstrip_sep s' with
      | EmptyString => if Ascii.eqb c sep then EmptyString else String c EmptyString
      | t => String c t
      end
  end.

(** [p[:p.rfind("/") + 1]]: the text up to the last separator, with it. *)
Fixpoint up_to_last_sep (p : string) : string :=
  match p with
  | EmptyString => EmptyString
  | String c p' => if has_char sep p then String c (up_to_last_sep p') else EmptyString
  end.

Definition all_sep (s : string) : bool :=
  forallb (Ascii.eqb sep) (list_ascii_of_string s).

(** [os.path.dirname(p)] *)
Definition dirname (p : string) : string :=
  let head := up_to_last_sep p in
  if negb (String.eqb head "") && negb (all_sep head) then rstrip_sep head else head.

(** [os.path.expanduser("~" + rest)] for a [rest] that starts with the
    separator; [userhome] is the home directory the function finds for the
    user, if it finds one. *)
Definition expanduser_tilde (userhome : option string) (rest : string) : string :=
  match userhome with
  | None => "~" +:+ rest
  | Some home =>
      let path := rstrip_sep home +:+ rest in
      if String.eqb path "" then "/" else path
  end.

Definition WRITE_TOOLS : list string := ["Edit"; "Write"; "MultiEdit"; "NotebookEdit"; "Bash"].

Definition STATUS_FILE (userhome : option string) : string :=
  expanduser_tilde userhome "/.wtmux/claude-status.json".

(** [v in (a, b, ...)] for a tuple of strings: comparison by [==]. *)
Definition in_tuple (v : json) (t : list string) : bool :=
  existsb (eq_str v) t.

(** [map_status(event)] *)
Definition map_status (event : json) : res string :=
  hook ← get event "hook_event_name" (JStr "");
  if eq_str hook "SessionStart" then Ret "idle"
  else if in_tuple hook ["UserPromptSubmit"; "PostToolUse"] then Ret "thinking"
  else if eq_str hook "PreToolUse" then
    tool ← get event "tool_name" (JStr "");
    is_write ← in_string_set tool WRITE_TOOLS;
    if (is_write : bool) then Ret "working" else Ret "thinking"
  else if eq_str hook "Stop" then Ret "done"
  else if eq_str hook "SessionEnd" then Ret "sessionEnded"
  else if eq_str hook "PermissionRequest" then Ret "needsAttention"
  else if eq_str hook "Notification" then
    ntype ← get event "notification_type" (JStr "");
    if in_tuple ntype ["permission_prompt"; "idle_prompt"; "elicitation_dialog"]
    then Ret "needsAttention"
    else Ret "thinking"
  else Ret "thinking".

(** The dict [data] of [write_status]; [now] is [int(time.time())]. *)
Definition status_data (status : string) (cwd session_id : json) (now : Z) : json :=
  JObj [("status", JStr status);
        ("cwd", cwd);
        ("sessionId", session_id);
        ("timestamp", JInt now)].

(** The primitive steps of [write_status], in order. *)
Definition write_status_ops (userhome : option string) (status : string)
           (cwd session_id : json) (now : Z) : list fsop :=
  let data := status_data status cwd session_id now in
  let status_dir := dirname (STATUS_FILE userhome) in
  let tmp_path := STATUS_FILE userhome +:+ ".tmp" in
  ([Makedirs status_dir; OpenW tmp_path]
     ++ write_chars tmp_path (dumps_default data)
     ++ [Replace tmp_path (STATUS_FILE userhome)])%list.

Definition write_status (userhome : option string) (status : string)
           (cwd session_id : json) (now : Z) : M unit :=
  run (write_status_ops userhome status cwd session_id now).

(** How the hook process ends: normally, by [sys.exit(1)], or by an
    exception that nothing catches. *)
Inductive hook_end : Type :=
| HookDone
| HookExit (code : Z)
| HookUncaught (e : exn).

(** [main()] of the hook: [raw] is all of standard input. *)
Definition hook_main (H : host) (userhome : option string) (now : Z) (raw : string)
  : filesystem -> hook_end * filesystem :=
  fun fs =>
    match json_loads H raw with
    | None => (HookExit 1, fs)
    | Some event =>
        match map_status event with
        | Raise e => (HookUncaught e, fs)
        | Ret status =>
            match get event "cwd" (JStr ""), get event "session_id" (JStr "") with
            | Ret cwd, Ret session_id =>
                match write_status userhome status cwd session_id now fs with
                | (Ret _, fs') => (HookDone, fs')
                | (Raise e, fs') => (HookUncaught e, fs')
                end
            | Raise e, _ => (HookUncaught e, fs)
            | _, Raise e => (HookUncaught e, fs)
            end
        end
    end.

(** ** Notions for the properties of the hook *)

(** The statuses the hook can report. *)
Definition STATUSES : list string :=
  ["idle"; "thinking"; "working"; "done"; "sessionEnded"; "needsAttention"].

(** The directory the status file lives in, as a text: the home directory
    without trailing separators (or [~] when no home is found), followed by
    [/.wtmux]. *)
Definition status_dir_text (userhome : option string) : string :=
  match userhome with
  | None => "~/.wtmux"
  | Some home => rstrip_sep home +:+ "/.wtmux"
  end.

(** A tool-use event for the tool [Edit]. *)
Definition edit_event : json :=
  JObj [("hook_event_name", JStr "PreToolUse"); ("tool_name", JStr "Edit");
        ("cwd", JStr "/work"); ("session_id", JStr "s1")].

(** A home with an earlier status file. *)
Definition home_with_status : filesystem :=
  list_to_map [("/home/u", Dir); ("/home/u/.wtmux", Dir);
               ("/home/u/.wtmux/claude-status.json", File "old")].

(** ** The order of a script report *)

(** The categories in their fixed order. *)
Definition CATEGORIES : list string := ["devServer"; "build"; "test"; "lint"; "other"].

(** Entry [a] may stand before entry [b] in a report: the category of [a]
    comes earlier in the fixed order, or both have the same category and
    the name of [a] does not come after the name of [b] in the order of
    strings. *)
Definition in_report_order (a b : json) : Prop :=
  exists na ca nb cb i j,
    field "name" a = JStr na /\ field "category" a = JStr ca
    /\ field "name" b = JStr nb /\ field "category" b = JStr cb
    /\ nth_error CATEGORIES i = Some ca /\ nth_error CATEGORIES j = Some cb
    /\ ((i < j)%nat \/ (i = j /\ String.compare na nb <> Gt)).

(** The entry that stands for one script of the manifest. *)
Definition entry_of_script (run_prefix : string) (item : string * json) (entry : json)
  : Prop :=
  exists command c,
    snd item = JStr command /\ category (fst item) command c
    /\ entry = script_entry run_prefix (fst item) (JStr command) c.

(** ** The ignore file as stored *)

(** The content of the ignore file as it is stored; empty when there is no
    such file. *)
Definition gitignore_stored (fs : filesystem) (repo_path : string) : string :=
  match fs !! gitignore_path repo_path with
  | Some (File c) => c
  | _ => ""
  end.

(** A repository whose ignore file has the line ends CR LF. *)
Definition crlf_repo : filesystem :=
  list_to_map [("/repo", Dir); ("/repo/.git", Dir);
               ("/repo/.gitignore", File ("node_modules" +:+ String CR NL))].

(** ** The home directory of the hook *)

(** The directory the status directory is made in: the home directory
    without trailing separators, or [~] when no home is found. *)
Definition home_dir (userhome : option string) : string :=
  match userhome with
  | None => "~"
  | Some home => rstrip_sep home
  end.

(** The home directory is there: it is the root, or a directory of the
    file system. *)
Definition home_present (fs : filesystem) (userhome : option string) : Prop :=
  home_dir userhome = "" \/ isdir fs (home_dir userhome) = true.

(* ===================================================================== *)
(** * Facts about strings *)
(* ===================================================================== *)

#[local] Arguments String.append !s1 s2 : simpl nomatch.

Lemma append_nil_r (s : string) : s +:+ "" = s.
Proof. induction s as [|c s IH]; simpl; [reflexivity | now rewrite IH]. Qed.

Lemma append_assoc (a b c : string) : (a +:+ b) +:+ c = a +:+ (b +:+ c).
Proof. induction a as [|x a IH]; simpl; [reflexivity | now rewrite IH]. Qed.

Lemma length_append (a b : string) :
  String.length (a +:+ b) = (String.length a + String.length b)%nat.
Proof. induction a as [|x a IH]; simpl; [reflexivity | now rewrite IH]. Qed.

(** [startswith] is "has this prefix". *)
Lemma prefix_spec (p s : string) :
  String.prefix p s = true <-> exists r, s = p +:+ r.
Proof.
  revert s. induction p as [|c p IH]; intros s.
  - split; [intros _; now exists s | intros _; now destruct s].
  - destruct s as [|d s]; simpl.
    + split; [discriminate | intros [r Hr]; discriminate].
    + destruct (ascii_dec c d) as [->|Hne].
      * rewrite IH. split; intros [r Hr]; exists r; [now rewrite Hr | simpl in Hr; now inversion Hr].
      * split; [discriminate | intros [r Hr]; simpl in Hr; inversion Hr; congruence].
Qed.

Lemma str_in_unfold (p s : string) :
  str_in p s = if String.prefix p s then true
               else match s with
                    | EmptyString => false
                    | String _ s' => str_in p s'
                    end.
Proof. now destruct s. Qed.

(** [p in s] is "occurs as a contiguous substring". *)
Lemma str_in_spec (p s : string) :
  str_in p s = true <-> exists a b, s = a +:+ p +:+ b.
Proof.
  induction s as [|c s IH]; rewrite str_in_unfold.
  - destruct (String.prefix p "") eqn:E.
    + split; [intros _ | reflexivity].
      apply prefix_spec in E as [r Hr]. now exists "", r.
    + split; [discriminate |].
      intros (a & b & Hab). destruct a; simpl in Hab; [|discriminate].
      assert (String.prefix p "" = true) by (apply prefix_spec; now exists b).
      congruence.
  - destruct (String.prefix p (String c s)) eqn:E.
    + split; [intros _ | reflexivity].
      apply prefix_spec in E as [r Hr]. now exists "", r.
    + rewrite IH. split.
      * intros (a & b & ->). now exists (String c a), b.
      * intros (a & b & Hab). destruct a as [|x a]; simpl in Hab.
        -- assert (String.prefix p (String c s) = true)
             by (apply prefix_spec; now exists b).
           congruence.
        -- inversion Hab; subst. now exists a, b.
Qed.

(** [endswith] is "has this suffix". *)
Lemma endswith_unfold (s p : string) :
  endswith s p = if String.eqb s p then true
                 else match s with
                      | EmptyString => false
                      | String _ s' => endswith s' p
                      end.
Proof. now destruct s. Qed.

Lemma endswith_spec (s p : string) :
  endswith s p = true <-> exists a, s = a +:+ p.
Proof.
  induction s as [|c s IH]; rewrite endswith_unfold.
  - destruct (String.eqb_spec "" p) as [<-|Hne].
    + split; [now exists "" | reflexivity].
    + split; [discriminate |]. intros [a Ha].
      destruct a; simpl in Ha; [now subst | discriminate].
  - destruct (String.eqb_spec (String c s) p) as [<-|Hne].
    + split; [now exists "" | reflexivity].
    + rewrite IH. split.
      * intros [a ->]. now exists (String c a).
      * intros [a Ha]. destruct a as [|x a]; simpl in Ha; [now subst |].
        inversion Ha; subst. now exists a.
Qed.

Lemma mem_spec (x : string) (l : list string) : mem x l = true <-> In x l.
Proof.
  unfold mem. rewrite existsb_exists. split.
  - intros (y & Hy & E). apply String.eqb_eq in E. now subst.
  - intros Hx. exists x. split; [assumption | apply String.eqb_refl].
Qed.

Lemma append_longer (a b : string) : b <> "" -> a +:+ b <> a.
Proof.
  intros Hb E. apply (f_equal String.length) in E. rewrite length_append in E.
  destruct b; [congruence | simpl in E; lia].
Qed.

(** A relative name joined to a directory gives another path. *)
Lemma path_join_neq (a b : string) :
  b <> "" -> startswith b "/" = false -> path_join a b <> a.
Proof.
  intros Hb Hs. unfold path_join. rewrite Hs.
  destruct (String.eqb a "" || endswith a "/").
  - now apply append_longer.
  - apply append_longer. discriminate.
Qed.

(* ===================================================================== *)
(** * Facts about sorting *)
(* ===================================================================== *)

Section sort_facts.
Context {A : Type} (leb : A -> A -> bool).
Hypothesis leb_total : forall x y, leb x y = true \/ leb y x = true.
Hypothesis leb_trans : forall x y z, leb x y = true -> leb y z = true -> leb x z = true.

Lemma insert_sorted_perm (x : A) (l : list A) :
  Permutation (x :: l) (insert_sorted leb x l).
Proof.
  induction l as [|y l IH]; simpl; [reflexivity |].
  destruct (leb x y); [reflexivity |].
  rewrite perm_swap. now constructor.
Qed.

Lemma sort_perm (l : list A) : Permutation l (sort leb l).
Proof.
  induction l as [|x l IH]; simpl; [reflexivity |].
  etransitivity; [| apply insert_sorted_perm]. now constructor.
Qed.

Lemma insert_sorted_sorted (x : A) (l : list A) :
  StronglySorted (le_of leb) l -> StronglySorted (le_of leb) (insert_sorted leb x l).
Proof.
  induction 1 as [|y l Hs IH Hall]; simpl.
  - repeat constructor.
  - destruct (leb x y) eqn:E.
    + constructor; [now constructor |].
      constructor; [exact E |].
      eapply List.Forall_impl; [| exact Hall].
      intros z Hz. eapply leb_trans; eassumption.
    + constructor; [exact IH |].
      assert (Hyx : le_of leb y x) by (destruct (leb_total x y); [congruence | assumption]).
      eapply Permutation_Forall; [apply insert_sorted_perm |].
      now constructor.
Qed.

Lemma sort_sorted (l : list A) : StronglySorted (le_of leb) (sort leb l).
Proof.
  induction l as [|x l IH]; simpl; [constructor | now apply insert_sorted_sorted].
Qed.

Lemma sort_In (x : A) (l : list A) : In x (sort leb l) <-> In x l.
Proof.
  split; apply Permutation_in; [symmetry |]; apply sort_perm.
Qed.
End sort_facts.

Lemma ascii_compare_refl (c : ascii) : Ascii.compare c c = Eq.
Proof. unfold Ascii.compare. apply N.compare_refl. Qed.

Lemma String_leb_trans (s1 s2 s3 : string) :
  String.leb s1 s2 = true -> String.leb s2 s3 = true -> String.leb s1 s3 = true.
Proof.
  unfold String.leb. revert s2 s3.
  induction s1 as [|c1 s1 IH]; intros [|c2 s2] [|c3 s3]; simpl; try easy.
  unfold Ascii.compare.
  destruct (N.compare_spec (N_of_ascii c1) (N_of_ascii c2)) as [E12|L12|G12];
    destruct (N.compare_spec (N_of_ascii c2) (N_of_ascii c3)) as [E23|L23|G23];
    try easy.
  - rewrite E12, E23, N.compare_refl. apply IH.
  - intros _ _. rewrite E12. now apply N.compare_lt_iff in L23 as ->.
  - intros _ _. rewrite <- E23. now apply N.compare_lt_iff in L12 as ->.
  - intros _ _. assert (L : (N_of_ascii c1 < N_of_ascii c3)%N) by lia.
    now apply N.compare_lt_iff in L as ->.
Qed.

Lemma String_leb_refl (s : string) : String.leb s s = true.
Proof. destruct (String.leb_total s s); assumption. Qed.

(** The order of the sort keys [(rank, name)] is total and transitive. *)
Lemma key_leb_total (a b : nat * string) : key_leb a b = true \/ key_leb b a = true.
Proof.
  unfold key_leb. destruct a as [m s], b as [n t]; simpl.
  destruct (Nat.ltb_spec m n); [now left |].
  destruct (Nat.ltb_spec n m); [now right |].
  assert (m = n) by lia. subst. rewrite Nat.eqb_refl. simpl.
  apply String.leb_total.
Qed.

Lemma key_leb_trans (a b c : nat * string) :
  key_leb a b = true -> key_leb b c = true -> key_leb a c = true.
Proof.
  unfold key_leb. destruct a as [m s], b as [n t], c as [o u]; simpl.
  intros H1 H2.
  apply orb_true_iff in H1 as [H1|H1]; apply orb_true_iff in H2 as [H2|H2].
  - apply Nat.ltb_lt in H1, H2. apply orb_true_iff; left. apply Nat.ltb_lt. lia.
  - apply andb_true_iff in H2 as [H2 _]. apply Nat.eqb_eq in H2. subst.
    now rewrite H1.
  - apply andb_true_iff in H1 as [H1 _]. apply Nat.eqb_eq in H1. subst.
    now rewrite H2.
  - apply andb_true_iff in H1 as [H1 H1'], H2 as [H2 H2'].
    apply Nat.eqb_eq in H1, H2. subst. rewrite Nat.eqb_refl. simpl.
    apply orb_true_iff; right. eapply String_leb_trans; eassumption.
Qed.

(* ===================================================================== *)
(** * Package manager detection *)
(* ===================================================================== *)

Lemma detect_in_find (fs : filesystem) (repo_path : string)
      (table : list (string * option string * string * string)) :
  detect_in fs repo_path table =
    match find (candidate_satisfied fs repo_path) table with
    | Some c => candidate_result c
    | None => JNull
    end.
Proof.
  induction table as [|[[[manifest lock] name] cmd] rest IH]; [reflexivity |].
  simpl. destruct (isfile fs (path_join repo_path manifest)); simpl.
  - destruct lock as [lock|]; simpl; [| reflexivity].
    destruct (isfile fs (path_join repo_path lock)); simpl; [reflexivity | exact IH].
  - exact IH.
Qed.

(** C6. [detect_package_manager] returns what the first satisfied entry
    of the table reports, reading the table top to bottom, and nothing
    when no entry is satisfied. Hence: with [package.json] and one of the
    lock files of bun, pnpm or yarn the result is that manager and not npm;
    with [package.json] the result is a JS manager whatever other manifests
    are there; without any manifest of the table there is no result. *)
Theorem detect_package_manager_first_match (fs : filesystem) (repo_path : string) :
  let present f := isfile fs (path_join repo_path f) in
  let pm := detect_package_manager fs repo_path in
  (pm = match find (candidate_satisfied fs repo_path) PACKAGE_MANAGER_CANDIDATES with
        | Some c => candidate_result c
        | None => JNull
        end)
  /\ (forall before c after,
         PACKAGE_MANAGER_CANDIDATES = (before ++ c :: after)%list ->
         Forall (fun c' => candidate_satisfied fs repo_path c' = false) before ->
         candidate_satisfied fs repo_path c = true ->
         pm = candidate_result c)
  /\ (present "package.json" = true ->
      present "bun.lockb" || present "bun.lock" || present "pnpm-lock.yaml"
        || present "yarn.lock" = true ->
      exists name, manager_name pm = Some name /\ In name ["bun"; "pnpm"; "yarn"])
  /\ (present "package.json" = true ->
      exists name, manager_name pm = Some name /\ In name JS_MANAGERS)
  /\ ((forall c, In c PACKAGE_MANAGER_CANDIDATES -> present (candidate_manifest c) = false) ->
      pm = JNull).
Proof.
  intros present pm. subst pm. unfold detect_package_manager.
  split; [apply detect_in_find |].
  split.
  { intros before c after -> Hbefore Hc. rewrite detect_in_find.
    induction Hbefore as [|c' before Hc' _ IH]; simpl.
    - now rewrite Hc.
    - now rewrite Hc'. }
  split; [| split].
  - intros Hpkg Hlock. subst present. cbn beta in *.
    cbn [detect_in PACKAGE_MANAGER_CANDIDATES]. rewrite Hpkg. cbn [negb].
    destruct (isfile fs (path_join repo_path "bun.lockb")); cbn [negb];
      [exists "bun"; split; [reflexivity | cbv; tauto] |].
    destruct (isfile fs (path_join repo_path "bun.lock")); cbn [negb];
      [exists "bun"; split; [reflexivity | cbv; tauto] |].
    destruct (isfile fs (path_join repo_path "pnpm-lock.yaml")); cbn [negb];
      [exists "pnpm"; split; [reflexivity | cbv; tauto] |].
    destruct (isfile fs (path_join repo_path "yarn.lock")); cbn [negb];
      [exists "yarn"; split; [reflexivity | cbv; tauto] |].
    discriminate.
  - intros Hpkg. subst present. cbn beta in *.
    cbn [detect_in PACKAGE_MANAGER_CANDIDATES]. rewrite Hpkg. cbn [negb].
    destruct (isfile fs (path_join repo_path "bun.lockb")); cbn [negb];
      [exists "bun"; split; [reflexivity | cbv; tauto] |].
    destruct (isfile fs (path_join repo_path "bun.lock")); cbn [negb];
      [exists "bun"; split; [reflexivity | cbv; tauto] |].
    destruct (isfile fs (path_join repo_path "pnpm-lock.yaml")); cbn [negb];
      [exists "pnpm"; split; [reflexivity | cbv; tauto] |].
    destruct (isfile fs (path_join repo_path "yarn.lock")); cbn [negb];
      [exists "yarn"; split; [reflexivity | cbv; tauto] |].
    exists "npm"; split; [reflexivity | cbv; tauto].
  - intros Hnone. rewrite detect_in_find.
    destruct (find _ _) as [c|] eqn:E; [| reflexivity].
    apply find_some in E as [Hin Hsat].
    specialize (Hnone c Hin). destruct c as [[[manifest lock] name] cmd].
    unfold candidate_satisfied in Hsat. subst present. cbn in Hnone.
    rewrite Hnone in Hsat. discriminate.
Qed.

(* ===================================================================== *)
(** * Script categories *)
(* ===================================================================== *)

Lemma any_in_spec (tokens : list string) (s : string) :
  any_in tokens s = true <-> exists p, In p tokens /\ occurs p s.
Proof.
  unfold any_in, occurs. rewrite existsb_exists.
  split; intros (p & Hp & Hs); exists p; (split; [assumption |]);
    now apply str_in_spec.
Qed.

Lemma any_in_has_token (tokens : list string) (text : string) :
  any_in tokens (lower text) = true <-> has_token tokens text.
Proof. apply any_in_spec. Qed.

Lemma any_in_not_token (tokens : list string) (text : string) :
  any_in tokens (lower text) = false <-> ~ has_token tokens text.
Proof.
  rewrite <- any_in_has_token. destruct (any_in tokens (lower text)); split; congruence.
Qed.

Lemma dev_like_spec (name command : string) :
  any_in DEV_NAME_PATTERNS (lower name) || any_in DEV_CMD_PATTERNS (lower command) = true
  <-> dev_like name command.
Proof.
  unfold dev_like. rewrite orb_true_iff. now rewrite !any_in_has_token.
Qed.

Lemma categorize_script_category (name command : string) :
  exists c, categorize_script name (JStr command) = Ret c /\ category name command c.
Proof.
  unfold categorize_script.
  destruct (any_in DEV_NAME_PATTERNS (lower name)
            || any_in DEV_CMD_PATTERNS (lower command)) eqn:Edev.
  { eexists; split; [reflexivity |]. constructor. now apply dev_like_spec. }
  assert (Hdev : ~ dev_like name command)
    by (rewrite <- dev_like_spec; congruence).
  destruct (any_in BUILD_PATTERNS (lower name)) eqn:Ebuild.
  { eexists; split; [reflexivity |]. apply category_build; [assumption |].
    now apply any_in_has_token. }
  apply any_in_not_token in Ebuild.
  destruct (any_in TEST_PATTERNS (lower name)) eqn:Etest.
  { eexists; split; [reflexivity |]. apply category_test; try assumption.
    now apply any_in_has_token. }
  apply any_in_not_token in Etest.
  destruct (any_in LINT_PATTERNS (lower name)) eqn:Elint.
  { eexists; split; [reflexivity |]. apply category_lint; try assumption.
    now apply any_in_has_token. }
  apply any_in_not_token in Elint.
  eexists; split; [reflexivity |]. now apply category_other.
Qed.

Lemma category_functional (name command c1 c2 : string) :
  category name command c1 -> category name command c2 -> c1 = c2.
Proof. intros H1 H2. destruct H1, H2; try reflexivity; contradiction. Qed.

Lemma script_entries_spec (run_prefix : string) (items : list (string * json))
      (entries : list json) :
  script_entries run_prefix items = Ret entries ->
  Forall2 (fun item entry =>
             exists command c,
               snd item = JStr command /\ category (fst item) command c
               /\ entry = script_entry run_prefix (fst item) (JStr command) c)
          items entries.
Proof.
  revert entries. induction items as [|[name command] rest IH]; intros entries; simpl.
  - intros [= <-]. constructor.
  - destruct command as [| | | |command| |]; try discriminate.
    destruct (categorize_script_category name command) as (c & Ec & Hc).
    rewrite Ec. simpl.
    destruct (script_entries run_prefix rest) as [result|e]; simpl; [| discriminate].
    intros [= <-]. constructor; [| now apply IH].
    exists command, c. auto.
Qed.

Lemma parse_scripts_sorted (H : host) (fs : filesystem) (repo_path : string)
      (package_manager : json) (result : list json) :
  parse_scripts H fs repo_path package_manager = Ret result ->
  result = []
  \/ exists pm_name scripts entries,
       script_entries (run_prefix_of pm_name) scripts = Ret entries
       /\ result = sort script_leb entries.
Proof.
  unfold parse_scripts.
  destruct (truthy package_manager); simpl; [| intros [= <-]; now left].
  destruct (subscript_name package_manager) as [pm_name|]; simpl; [| discriminate].
  destruct (in_string_set pm_name JS_MANAGERS) as [[|]|]; simpl;
    [| intros [= <-]; now left | discriminate].
  destruct (read_text fs _) as [text|]; [| intros [= <-]; now left].
  destruct (json_loads H text) as [pkg|]; [| intros [= <-]; now left].
  destruct pkg as [| | | | | |kv]; try discriminate.
  destruct (dict_get kv "scripts" JNull) as [| | | | | |scripts];
    try (intros [= <-]; now left).
  destruct (script_entries _ scripts) as [entries|] eqn:E; simpl; [| discriminate].
  intros [= <-]. right. now exists pm_name, scripts, entries.
Qed.

(* ===================================================================== *)
(** * Env file scanner *)
(* ===================================================================== *)

Section scan_facts.
Variable fs : filesystem.
Variable cwd : string.
Variable repo_path : string.

Lemma isfile_not_isdir (p : string) : isfile fs p = true -> isdir fs p = false.
Proof. unfold isfile, isdir. now destruct (fs !! p) as [[]|]. Qed.

Lemma scan_entries_In (scan_sub : string -> list string -> list string)
      (depth : nat) (dirpath : string) :
  (forall d results x,
      In x (scan_sub d results) <->
      In x results \/ exists full, env_file_at fs (S depth) d full
                                   /\ x = relpath cwd full repo_path) ->
  forall entries results x,
    In x (fold_left (scan_entry fs cwd repo_path scan_sub dirpath) entries results) <->
    In x results \/ exists name, In name entries /\ adds fs cwd repo_path depth dirpath name x.
Proof.
  intros Hsub. induction entries as [|name entries IH]; intros results x; simpl.
  - split; [tauto | intros [?|(? & [] & _)]; assumption].
  - rewrite IH. unfold scan_entry, adds.
    destruct (isdir fs (path_join dirpath name)) eqn:Edir.
    + assert (Efile : isfile fs (path_join dirpath name) = false).
      { destruct (isfile fs _) eqn:E; [| reflexivity].
        apply isfile_not_isdir in E. congruence. }
      destruct (mem name SKIP_DIRS) eqn:Eskip; simpl.
      * apply mem_spec in Eskip. split.
        -- intros [?|(n & Hn & Hadd)]; [tauto |]. right. exists n. tauto.
        -- intros [?|(n & [<-|Hn] & Hadd)]; [tauto | | right; eauto].
           destruct Hadd as [(F & _)|(_ & Hno & _)]; [congruence | contradiction].
      * assert (Hskip : ~ In name SKIP_DIRS)
          by (rewrite <- mem_spec; congruence).
        destruct (startswith name ".") eqn:Edot; simpl.
        -- split.
           ++ intros [?|(n & Hn & Hadd)]; [tauto |]. right. exists n. tauto.
           ++ intros [?|(n & [<-|Hn] & Hadd)]; [tauto | | right; eauto].
              destruct Hadd as [(F & _)|(_ & _ & Hd & _)]; congruence.
        -- rewrite Hsub. split.
           ++ intros [[?|(full & Hfull & ->)]|(n & Hn & Hadd)]; [tauto | |].
              ** right. exists name. split; [now left |]. right. eauto 8.
              ** right. exists n. tauto.
           ++ intros [?|(n & [<-|Hn] & Hadd)]; [tauto | | right; eauto].
              destruct Hadd as [(F & _)|(_ & _ & _ & full & Hfull & ->)];
                [congruence |]. left. right. eauto.
    + destruct (isfile fs (path_join dirpath name)) eqn:Efile; simpl.
      * destruct (is_env_file name) eqn:Eenv; simpl.
        -- assert (Hin : forall l,
                      In x (if negb (mem (relpath cwd (path_join dirpath name) repo_path) l)
                            then (l ++ [relpath cwd (path_join dirpath name) repo_path])%list
                            else l)
                      <-> In x l \/ x = relpath cwd (path_join dirpath name) repo_path).
           { intros l. destruct (mem _ l) eqn:Em; simpl.
             - apply mem_spec in Em. split; [tauto | intros [?| ->]; assumption].
             - rewrite in_app_iff. simpl. split; [intros [?|[<-|[]]] | intros [?| ->]]; auto. }
           rewrite Hin. split.
           ++ intros [[?| ->]|(n & Hn & Hadd)]; [tauto | |].
              ** right. exists name. split; [now left |]. left. auto.
              ** right. exists n. tauto.
           ++ intros [?|(n & [<-|Hn] & Hadd)]; [tauto | | right; eauto].
              destruct Hadd as [(_ & _ & ->)|(F & _)]; [tauto | congruence].
        -- split.
           ++ intros [?|(n & Hn & Hadd)]; [tauto |]. right. exists n. tauto.
           ++ intros [?|(n & [<-|Hn] & Hadd)]; [tauto | | right; eauto].
              destruct Hadd as [(_ & F & _)|(F & _)]; congruence.
      * split.
        -- intros [?|(n & Hn & Hadd)]; [tauto |]. right. exists n. tauto.
        -- intros [?|(n & [<-|Hn] & Hadd)]; [tauto | | right; eauto].
           destruct Hadd as [(F & _)|(F & _)]; congruence.
Qed.

Lemma scan_dir_In (budget depth : nat) (dirpath : string) (results : list string)
      (x : string) :
  (budget + depth = S MAX_DEPTH)%nat ->
  In x (scan_dir fs cwd repo_path budget dirpath results) <->
  In x results \/ exists full, env_file_at fs depth dirpath full
                               /\ x = relpath cwd full repo_path.
Proof.
  revert depth dirpath results x.
  induction budget as [|budget IH]; intros depth dirpath results x Hsum; simpl.
  - split; [tauto |]. intros [?|(full & Hfull & _)]; [assumption |].
    exfalso. inversion Hfull; unfold MAX_DEPTH in *; lia.
  - destruct (listdir fs dirpath) as [entries|] eqn:Els.
    + rewrite (scan_entries_In _ depth).
      2:{ intros d r y. apply IH. lia. }
      assert (Hd : (depth <= MAX_DEPTH)%nat) by lia.
      split.
      * intros [?|(name & Hname & Hadd)]; [tauto |]. right.
        destruct Hadd as [(Hf & He & ->)|(Hdir & Hskip & Hdot & full & Hfull & ->)].
        -- eexists. split; [| reflexivity]. eapply env_file_here; eassumption.
        -- exists full. split; [| reflexivity]. eapply env_file_below; eassumption.
      * intros [?|(full & Hfull & ->)]; [tauto |]. right.
        inversion Hfull as [? ? es name ? Hls Hin Hf He
                           |? ? es name ? ? Hls Hin Hdir Hskip Hdot Hsub]; subst;
          rewrite Els in Hls; injection Hls as <-; exists name; (split; [assumption |]).
        -- left. auto.
        -- right. eauto 8.
    + split; [tauto |]. intros [?|(full & Hfull & _)]; [assumption |].
      exfalso. inversion Hfull; congruence.
Qed.

Lemma scan_entries_NoDup (scan_sub : string -> list string -> list string)
      (dirpath : string) :
  (forall d results, NoDup results -> NoDup (scan_sub d results)) ->
  forall entries results,
    NoDup results ->
    NoDup (fold_left (scan_entry fs cwd repo_path scan_sub dirpath) entries results).
Proof.
  intros Hsub. induction entries as [|name entries IH]; intros results Hnd; simpl;
    [assumption |].
  apply IH. unfold scan_entry.
  destruct (isdir fs _).
  - destruct (negb (mem name SKIP_DIRS) && negb (startswith name ".")); auto.
  - destruct (isfile fs _ && is_env_file name); [| assumption].
    destruct (mem _ results) eqn:Em; simpl; [assumption |].
    apply NoDup_app. split; [assumption |]. split.
    + intros y Hy [<-|[]]%list_elem_of_In.
      apply list_elem_of_In, mem_spec in Hy. congruence.
    + apply NoDup_singleton.
Qed.

Lemma scan_dir_NoDup (budget : nat) (dirpath : string) (results : list string) :
  NoDup results -> NoDup (scan_dir fs cwd repo_path budget dirpath results).
Proof.
  revert dirpath results. induction budget as [|budget IH]; intros dirpath results Hnd;
    simpl; [assumption |].
  destruct (listdir fs dirpath); [| assumption].
  apply scan_entries_NoDup; auto.
Qed.
End scan_facts.

(** C8. [scan_env_files] returns exactly the paths, relative to the
    repository root, of the regular files with a name that starts or ends
    with [.env] which the descent from the root reaches without entering a
    directory of the skip set or a dot-prefixed one and without listing a
    directory deeper than [MAX_DEPTH]; the result has no duplicates and is
    sorted in the order of strings. A root holding [.env], [.env.local],
    [config.env] and [notes.txt] gives [.env], [.env.local], [config.env],
    in that order. *)
Theorem scan_env_files_exact (fs : filesystem) (cwd repo_path : string) :
  let root := abspath cwd repo_path in
  let result := scan_env_files fs cwd repo_path in
  (forall rel,
      In rel result <->
      exists full, env_file_at fs 0 root full /\ rel = relpath cwd full root)
  /\ NoDup result
  /\ StronglySorted (fun a b => String.leb a b = true) result
  /\ scan_env_files four_files "/" "/repo" = [".env"; ".env.local"; "config.env"].
Proof.
  intros root result. subst result. unfold scan_env_files. fold root.
  split; [| split; [| split]].
  - intros rel. rewrite sort_In.
    rewrite (scan_dir_In fs cwd root (S MAX_DEPTH) 0) by lia.
    simpl. tauto.
  - rewrite <- (sort_perm String.leb).
    apply scan_dir_NoDup. constructor.
  - apply (sort_sorted String.leb).
    + apply String.leb_total.
    + apply String_leb_trans.
  - vm_compute. reflexivity.
Qed.

(* ===================================================================== *)
(** * Config service: the atomic write *)
(* ===================================================================== *)

Lemma run_app (a b : list fsop) (fs : filesystem) :
  run (a ++ b) fs =
    match run a fs with
    | (Ret _, fs') => run b fs'
    | (Raise e, fs') => (Raise e, fs')
    end.
Proof.
  revert fs. induction a as [|o a IH]; intros fs; simpl; [reflexivity |].
  unfold bind. destruct (exec o fs) as [[[]|e] fs']; [apply IH | reflexivity].
Qed.

(** A write leaves alone the paths it does not touch, whether it raises
    or not. *)
Lemma exec_frame (o : fsop) (fs : filesystem) (q : string) :
  ~ In q (touches o) -> snd (exec o fs) !! q = fs !! q.
Proof.
  intros Hq. destruct o as [p|p|p data|src dst]; simpl in *.
  - destruct (fs !! p) as [[]|]; simpl; try reflexivity.
    apply lookup_insert_ne. tauto.
  - destruct (fs !! p) as [[]|]; simpl; try reflexivity;
      apply lookup_insert_ne; tauto.
  - destruct (fs !! p) as [[]|]; simpl; try reflexivity.
    apply lookup_insert_ne. tauto.
  - destruct (fs !! src) as [[]|], (fs !! dst) as [[]|]; simpl; try reflexivity;
      (rewrite lookup_insert_ne by tauto; apply lookup_delete_ne; tauto).
Qed.

(** A write that raises has changed nothing. *)
Lemma exec_raise_same (o : fsop) (fs fs' : filesystem) (e : exn) :
  exec o fs = (Raise e, fs') -> fs' = fs.
Proof.
  destruct o as [p|p|p data|src dst]; simpl.
  - destruct (fs !! p) as [[]|]; congruence.
  - destruct (fs !! p) as [[]|]; congruence.
  - destruct (fs !! p) as [[]|]; congruence.
  - destruct (fs !! src) as [[]|], (fs !! dst) as [[]|]; congruence.
Qed.

Lemma run_frame (ops : list fsop) (fs : filesystem) (q : string) :
  Forall (fun o => ~ In q (touches o)) ops -> snd (run ops fs) !! q = fs !! q.
Proof.
  intros Hall. revert fs. induction Hall as [|o ops Ho _ IH]; intros fs; simpl;
    [reflexivity |].
  unfold bind. pose proof (exec_frame o fs q Ho) as Hf.
  destruct (exec o fs) as [[[]|e] fs']; simpl in *; [| exact Hf].
  now rewrite IH.
Qed.

Lemma write_chars_run (p text c : string) (fs : filesystem) :
  fs !! p = Some (File c) ->
  run (write_chars p text) fs = (Ret tt, <[p := File (c +:+ text)]> fs).
Proof.
  unfold write_chars. revert c fs.
  induction text as [|x text IH]; intros c fs Hp; simpl.
  - rewrite append_nil_r. unfold ret. f_equal. symmetry. now apply insert_id.
  - unfold bind. simpl. rewrite Hp.
    rewrite (IH (c +:+ String x "")) by apply lookup_insert_eq.
    rewrite insert_insert_eq. rewrite append_assoc. reflexivity.
Qed.

Lemma config_file_neq_dir (repo_path : string) :
  config_file_path repo_path <> config_dir_path repo_path.
Proof. apply path_join_neq; [discriminate | reflexivity]. Qed.

Lemma config_tmp_neq_file (repo_path : string) :
  config_tmp_path repo_path <> config_file_path repo_path.
Proof. apply append_longer. discriminate. Qed.

(** The temporary file is a sibling of the config file. *)
Lemma config_tmp_sibling (repo_path : string) :
  config_tmp_path repo_path = path_join (config_dir_path repo_path) "config.json.tmp"
  /\ config_file_path repo_path = path_join (config_dir_path repo_path) "config.json".
Proof.
  split; [| reflexivity].
  unfold config_tmp_path, config_file_path, path_join, CONFIG_FILE. simpl.
  destruct (_ || _); rewrite !append_assoc; reflexivity.
Qed.

Lemma write_config_ops_shape (repo_path : string) (config : json) :
  write_config_ops repo_path config =
    (([Makedirs (config_dir_path repo_path); OpenW (config_tmp_path repo_path)]
        ++ write_chars (config_tmp_path repo_path) (dumps_pretty config)
        ++ [WriteTo (config_tmp_path repo_path) NL])
       ++ [Replace (config_tmp_path repo_path) (config_file_path repo_path)])%list.
Proof.
  unfold write_config_ops, config_tmp_path, config_file_path, config_dir_path.
  cbn [app]. do 2 f_equal. rewrite <- app_assoc. reflexivity.
Qed.

Lemma before_replace_eq (repo_path : string) (config : json) :
  before_replace repo_path config =
    ([Makedirs (config_dir_path repo_path); OpenW (config_tmp_path repo_path)]
       ++ write_chars (config_tmp_path repo_path) (dumps_pretty config)
       ++ [WriteTo (config_tmp_path repo_path) NL])%list.
Proof.
  unfold before_replace. rewrite write_config_ops_shape. apply removelast_last.
Qed.

Lemma write_config_ops_split (repo_path : string) (config : json) :
  write_config_ops repo_path config =
    (before_replace repo_path config
       ++ [Replace (config_tmp_path repo_path) (config_file_path repo_path)])%list.
Proof. rewrite before_replace_eq. apply write_config_ops_shape. Qed.

Lemma before_replace_frame (repo_path : string) (config : json) :
  Forall (fun o => ~ In (config_file_path repo_path) (touches o))
         (before_replace repo_path config).
Proof.
  rewrite before_replace_eq.
  pose proof (config_file_neq_dir repo_path) as Hd.
  pose proof (config_tmp_neq_file repo_path) as Ht.
  assert (Hw : forall data,
             ~ In (config_file_path repo_path)
               (touches (WriteTo (config_tmp_path repo_path) data)))
    by (intros data [E|[]]; congruence).
  repeat constructor.
  - intros [E|[]]; congruence.
  - intros [E|[]]; congruence.
  - apply Forall_app. split.
    + unfold write_chars. apply Forall_map, Forall_forall. intros c _. apply Hw.
    + repeat constructor. apply Hw.
Qed.

(** When the steps before the replace have run, the temporary file holds
    the whole text. *)
Lemma before_replace_done (repo_path : string) (config : json) (fs fs' : filesystem) :
  run (before_replace repo_path config) fs = (Ret tt, fs') ->
  fs' !! config_tmp_path repo_path = Some (File (dumps_pretty config +:+ NL)).
Proof.
  rewrite before_replace_eq. cbn [app run]. unfold bind at 1. cbn [exec].
  destruct (fs !! config_dir_path repo_path) as [[]|]; [discriminate | |];
    (unfold bind at 1; cbn [exec];
     match goal with |- context [?m !! config_tmp_path repo_path] =>
       destruct (m !! config_tmp_path repo_path) as [[]|] eqn:Etmp end;
     [ | discriminate | ];
     (rewrite run_app, (write_chars_run _ _ "") by apply lookup_insert_eq;
      cbn [run]; unfold bind; cbn [exec];
      rewrite lookup_insert_eq; unfold ret; intros [= <-];
      apply lookup_insert_eq)).
Qed.

Lemma keys_sorted_arr (l : list json) :
  keys_sorted (JArr l) <-> Forall keys_sorted l.
Proof.
  simpl. induction l as [|x l IH].
  - split; [constructor | trivial].
  - rewrite IH. split.
    + intros [Hx Hl]. now constructor.
    + intros Hxl. inversion Hxl. now split.
Qed.

Lemma keys_sorted_obj (kv : list (string * json)) :
  keys_sorted (JObj kv) <->
  StronglySorted (fun p q => String.leb (fst p) (fst q) = true) kv
  /\ Forall (fun p => keys_sorted (snd p)) kv.
Proof.
  simpl. apply and_iff_compat_l. induction kv as [|p kv IH].
  - split; [constructor | trivial].
  - rewrite IH. split.
    + intros [Hx Hl]. now constructor.
    + intros Hxl. inversion Hxl. now split.
Qed.

(** [sort_keys=True] puts the keys of every object in order. *)
Lemma sort_keys_sorted (v : json) : keys_sorted (sort_keys v).
Proof.
  induction v as [| | | | |l IH|kv IH] using json_ind'; try exact I.
  - change (sort_keys (JArr l)) with (JArr (map sort_keys l)).
    apply keys_sorted_arr. apply Forall_map. exact IH.
  - change (sort_keys (JObj kv))
      with (JObj (sort_items (map (fun p => (fst p, sort_keys (snd p))) kv))).
    apply keys_sorted_obj. split.
    + apply (sort_sorted (fun p q : string * json => String.leb (fst p) (fst q))).
      * intros x y. apply String.leb_total.
      * intros x y z. apply String_leb_trans.
    + eapply Permutation_Forall; [apply sort_perm |].
      apply Forall_map. eapply List.Forall_impl; [| exact IH].
      intros p Hp. exact Hp.
Qed.

Lemma firstn_before (A : Type) (k : nat) (l : list A) (x : A) :
  (k < length (l ++ [x]))%nat -> firstn k (l ++ [x]) = firstn k l.
Proof.
  rewrite length_app. simpl. intros Hk.
  rewrite firstn_app. replace (k - length l)%nat with 0%nat by lia.
  simpl. apply app_nil_r.
Qed.

Lemma firstn_Forall (A : Type) (P : A -> Prop) (k : nat) (l : list A) :
  Forall P l -> Forall P (firstn k l).
Proof.
  intros Hl. rewrite <- (firstn_skipn k l) in Hl.
  now apply Forall_app in Hl as [Hl _].
Qed.

(* ===================================================================== *)
(** * Config service: the ignore file *)
(* ===================================================================== *)

Lemma split_cons (c : ascii) (s : string) : exists h t, split c s = h :: t.
Proof.
  induction s as [|a s (h & t & IH)]; simpl; [now exists "", [] |].
  destruct (Ascii.eqb a c); [now exists "", (split c s) |].
  rewrite IH. now exists (String a h), t.
Qed.

Lemma split_app (c : ascii) (a b : string) :
  split c (a +:+ String c b) = (split c a ++ split c b)%list.
Proof.
  induction a as [|x a IH]; simpl.
  - now rewrite Ascii.eqb_refl.
  - destruct (Ascii.eqb x c); [now rewrite IH |].
    rewrite IH. destruct (split_cons c a) as (h & t & ->). reflexivity.
Qed.

Lemma existsb_filter {A : Type} (f : A -> bool) (l : list A) :
  existsb f l = negb (Nat.eqb (length (List.filter f l)) 0).
Proof.
  induction l as [|x l IH]; [reflexivity |]. cbn [existsb List.filter].
  destruct (f x); [reflexivity | exact IH].
Qed.

Lemma filter_app_length {A : Type} (f : A -> bool) (l k : list A) :
  length (List.filter f (l ++ k)) = (length (List.filter f l) + length (List.filter f k))%nat.
Proof.
  induction l as [|x l IH]; [reflexivity |]. cbn [app List.filter].
  destruct (f x); simpl; now rewrite IH.
Qed.

(** Appending the entry adds exactly one entry line. *)
Lemma entry_count_with_entry (text : string) :
  entry_count (with_entry text) = S (entry_count text).
Proof.
  unfold entry_count, with_entry.
  destruct (endswith text NL) eqn:E.
  - apply endswith_spec in E as [a ->].
    assert (E1 : (a +:+ NL) +:+ "" +:+ ".wtmux" +:+ NL
                 = a +:+ String nl (".wtmux" +:+ NL))
      by (rewrite append_assoc; reflexivity).
    assert (E2 : a +:+ NL = a +:+ String nl "") by reflexivity.
    rewrite E1, E2, !split_app, !filter_app_length.
    change (length (List.filter is_entry (split nl (".wtmux" +:+ NL)))) with 1%nat.
    change (length (List.filter is_entry (split nl ""))) with 0%nat. lia.
  - assert (E1 : text +:+ NL +:+ ".wtmux" +:+ NL
                 = text +:+ String nl (".wtmux" +:+ NL)) by reflexivity.
    rewrite E1, split_app, filter_app_length.
    change (length (List.filter is_entry (split nl (".wtmux" +:+ NL)))) with 1%nat. lia.
Qed.

Lemma no_cr_cons (c : ascii) (s : string) :
  no_cr (String c s) <-> (code c =? 13) = false /\ no_cr s.
Proof.
  unfold no_cr, has_char. cbn [list_ascii_of_string existsb].
  rewrite orb_false_iff.
  assert (Ascii.eqb (chr 13) c = (code c =? 13)) as ->; [| tauto].
  destruct (Ascii.eqb_spec (chr 13) c) as [<-|Hne]; [reflexivity |].
  symmetry. apply Z.eqb_neq. intros Hc. apply Hne.
  unfold code in Hc. unfold chr.
  replace 13 with (Z.of_nat 13) in Hc by reflexivity.
  apply Nat2Z.inj in Hc. rewrite <- (ascii_nat_embedding c), Hc. reflexivity.
Qed.

Lemma no_cr_app (a b : string) : no_cr a -> no_cr b -> no_cr (a +:+ b).
Proof.
  induction a as [|c a IH]; simpl; [auto |].
  rewrite !no_cr_cons. intros [Hc Ha] Hb. auto.
Qed.

(** Text without carriage returns is read as it is. *)
Lemma universal_newlines_id (s : string) : no_cr s -> universal_newlines s = s.
Proof.
  induction s as [|c s IH]; [reflexivity |].
  rewrite no_cr_cons. intros [Hc Hs]. simpl. rewrite Hc. now rewrite IH.
Qed.

(** What is read has no carriage return. *)
Lemma universal_newlines_no_cr (s : string) : no_cr (universal_newlines s).
Proof.
  assert (H : forall n s, (String.length s <= n)%nat -> no_cr (universal_newlines s)).
  { clear s. induction n as [|n IH]; intros [|c s] Hlen; simpl in *;
      try reflexivity; try lia.
    destruct (code c =? 13) eqn:Ec.
    - apply no_cr_cons. split; [reflexivity |].
      destruct s as [|c2 s2]; [reflexivity |].
      destruct (code c2 =? 10); apply IH; simpl in *; lia.
    - apply no_cr_cons. split; [exact Ec |]. apply IH. lia. }
  now apply (H (String.length s)).
Qed.

Lemma with_entry_no_cr (text : string) : no_cr text -> no_cr (with_entry text).
Proof.
  intros Ht. unfold with_entry.
  repeat apply no_cr_app; try assumption; try reflexivity.
  now destruct (endswith text NL).
Qed.

Lemma gitignore_text_no_cr (fs : filesystem) (repo_path : string) :
  no_cr (gitignore_text fs repo_path).
Proof.
  unfold gitignore_text.
  destruct (fs !! gitignore_path repo_path) as [[c|]|]; try reflexivity.
  apply universal_newlines_no_cr.
Qed.

(** What [ensure_gitignore] does, by the text it reads. *)
Lemma ensure_gitignore_run (repo_path : string) (fs : filesystem) :
  isdir fs (gitignore_path repo_path) = false ->
  ensure_gitignore repo_path fs =
    if existsb is_entry (split nl (gitignore_text fs repo_path))
    then (Ret false, fs)
    else (Ret true,
          <[gitignore_path repo_path := File (with_entry (gitignore_text fs repo_path))]> fs).
Proof.
  intros Hdir. unfold ensure_gitignore, gitignore_text.
  fold (gitignore_path repo_path). remember (gitignore_path repo_path) as p eqn:Hp.
  unfold isfile, read_text, isdir in *.
  destruct (fs !! p) as [[c|]|] eqn:E; [| discriminate |];
    cbv beta iota delta [mbind M_mbind bind lift mret M_ret ret];
    (destruct (existsb is_entry (split nl _)); [reflexivity |]);
    cbv beta iota delta [run exec bind ret]; rewrite E, lookup_insert_eq;
    rewrite insert_insert_eq; reflexivity.
Qed.

(** The lines of the text after the entry was appended: the lines it had,
    then the entry, then the empty piece after the final line break. *)
Lemma with_entry_lines (text : string) :
  split nl (with_entry text) =
    ((if endswith text NL then removelast (split nl text) else split nl text)
       ++ [".wtmux"; ""])%list.
Proof.
  unfold with_entry. destruct (endswith text NL) eqn:E.
  - apply endswith_spec in E as [a ->].
    assert (E1 : (a +:+ NL) +:+ "" +:+ ".wtmux" +:+ NL
                 = a +:+ String nl (".wtmux" +:+ NL))
      by (rewrite append_assoc; reflexivity).
    assert (E2 : a +:+ NL = a +:+ String nl "") by reflexivity.
    rewrite E1, E2, !split_app.
    change (split nl "") with [""]. rewrite removelast_last. reflexivity.
  - assert (E1 : text +:+ NL +:+ ".wtmux" +:+ NL
                 = text +:+ String nl (".wtmux" +:+ NL)) by reflexivity.
    rewrite E1, split_app. reflexivity.
Qed.

(** C9, as the code has it. In a repository directory whose ignore path
    is not a directory, [ensure_gitignore] works on the text it reads, in
    which CR LF and CR stand as line breaks. If a line of that text, once
    trimmed, is [.wtmux] or [.wtmux/], it changes nothing and returns
    [False]. Otherwise it returns [True] and writes the file anew: the text
    read, a line break if the text did not end with one, and the line
    [.wtmux]; the lines that were there, then the one entry. When the
    stored content has no carriage return this is the stored content with
    the entry appended. A second call then changes nothing and returns
    [False], and the file has exactly one entry. *)
Theorem ensure_gitignore_idempotent (repo_path : string) (fs : filesystem) :
  isdir fs repo_path = true ->
  isdir fs (gitignore_path repo_path) = false ->
  let stored := gitignore_stored fs repo_path in
  let text := gitignore_text fs repo_path in
  text = universal_newlines stored
  /\ (no_cr stored -> text = stored)
  /\ (entry_count text <> 0%nat -> ensure_gitignore repo_path fs = (Ret false, fs))
  /\ (entry_count text = 0%nat ->
      exists fs',
        ensure_gitignore repo_path fs = (Ret true, fs')
        /\ fs' = <[gitignore_path repo_path := File (with_entry text)]> fs
        /\ gitignore_stored fs' repo_path = with_entry text
        /\ (no_cr stored ->
            gitignore_stored fs' repo_path
            = stored +:+ (if endswith stored NL then "" else NL) +:+ ".wtmux" +:+ NL)
        /\ gitignore_text fs' repo_path = with_entry text
        /\ split nl (with_entry text) =
             ((if endswith text NL then removelast (split nl text) else split nl text)
                ++ [".wtmux"; ""])%list
        /\ entry_count (gitignore_text fs' repo_path) = 1%nat
        /\ ensure_gitignore repo_path fs' = (Ret false, fs')).
Proof.
  intros _ Hdir stored text.
  pose proof (ensure_gitignore_run repo_path fs Hdir) as Hrun. fold text in Hrun.
  rewrite existsb_filter in Hrun. fold (entry_count text) in Hrun.
  assert (Hread : text = universal_newlines stored).
  { unfold text, stored, gitignore_text, gitignore_stored.
    destruct (fs !! gitignore_path repo_path) as [[c|]|]; reflexivity. }
  assert (Hsame : no_cr stored -> text = stored).
  { intros Hcr. rewrite Hread. now apply universal_newlines_id. }
  split; [exact Hread |]. split; [exact Hsame |].
  split.
  - intros Hn. rewrite Hrun. now apply Nat.eqb_neq in Hn as ->.
  - intros Hz. rewrite Hz in Hrun. cbn in Hrun.
    set (fs' := <[gitignore_path repo_path := File (with_entry text)]> fs) in *.
    assert (Hstored : gitignore_stored fs' repo_path = with_entry text).
    { unfold gitignore_stored, fs'. now rewrite lookup_insert_eq. }
    assert (Htext : gitignore_text fs' repo_path = with_entry text).
    { unfold gitignore_text, fs'. rewrite lookup_insert_eq.
      apply universal_newlines_id, with_entry_no_cr, gitignore_text_no_cr. }
    assert (Hone : entry_count (gitignore_text fs' repo_path) = 1%nat)
      by (rewrite Htext, entry_count_with_entry; lia).
    exists fs'.
    split; [exact Hrun |]. split; [reflexivity |]. split; [exact Hstored |].
    split; [intros Hcr; rewrite Hstored, (Hsame Hcr); reflexivity |].
    split; [exact Htext |]. split; [apply with_entry_lines |].
    split; [exact Hone |].
    rewrite ensure_gitignore_run.
    + rewrite existsb_filter. fold (entry_count (gitignore_text fs' repo_path)).
      now rewrite Hone.
    + unfold isdir, fs'. now rewrite lookup_insert_eq.
Qed.

(** An ignore file without the entry and without a final line break. *)
Lemma ensure_gitignore_idempotent_witness :
  let fs : filesystem :=
    list_to_map [("/repo", Dir); ("/repo/.gitignore", File "node_modules")] in
  isdir fs "/repo" = true
  /\ isdir fs (gitignore_path "/repo") = false
  /\ exists fs',
       ensure_gitignore "/repo" fs = (Ret true, fs')
       /\ fs' !! "/repo/.gitignore"
          = Some (File ("node_modules" +:+ NL +:+ ".wtmux" +:+ NL))
       /\ ensure_gitignore "/repo" fs' = (Ret false, fs').
Proof.
  intros fs. split; [reflexivity |]. split; [reflexivity |].
  destruct (ensure_gitignore_idempotent "/repo" fs eq_refl eq_refl) as (_ & _ & _ & Hadd).
  destruct (Hadd eq_refl) as (fs' & Hrun & Hfs & _ & _ & _ & _ & _ & Hagain).
  exists fs'. split; [exact Hrun |]. split; [| exact Hagain].
  rewrite Hfs. vm_compute. reflexivity.
Defined.

(** C9, as stated, fails on an ignore file with the line ends CR LF: the
    call does not append to what is stored, it writes the file anew from
    the text it read, in which every CR LF has become LF, so that what was
    stored is no longer the beginning of the file. *)
Lemma crlf_ignore_file_is_rewritten :
  let old := "node_modules" +:+ String CR NL in
  let new := "node_modules" +:+ NL +:+ ".wtmux" +:+ NL in
  isdir crlf_repo "/repo" = true
  /\ crlf_repo !! "/repo/.gitignore" = Some (File old)
  /\ entry_count (gitignore_text crlf_repo "/repo") = 0%nat
  /\ ensure_gitignore "/repo" crlf_repo
     = (Ret true, <["/repo/.gitignore" := File new]> crlf_repo)
  /\ String.prefix old new = false
  /\ has_char CR new = false.
Proof.
  intros old new.
  split; [reflexivity |]. split; [reflexivity |]. split; [reflexivity |].
  split; [vm_compute; reflexivity |]. split; reflexivity.
Qed.

(* ===================================================================== *)
(** * configure_project *)
(* ===================================================================== *)

Lemma entries_from_cons (i : nat) (rc : json) (items : list json) :
  entries_from i (rc :: items) =
    if kept rc then entry_of i rc :: entries_from (S i) items
    else entries_from (S i) items.
Proof.
  unfold entries_from. cbn [enumerate_from List.filter].
  unfold kept_indexed at 1. cbn [snd]. now destruct (kept rc).
Qed.

(** The loop over [runConfigurations]: it stops at the first kept element
    whose port is rejected, and otherwise collects the entries of the kept
    elements. *)
Lemma run_configs_loop_spec (items : list json) (i : nat) (acc : list json) :
  run_configs_loop i items acc =
    match find stops_indexed (enumerate_from i items) with
    | Some p =>
        Returned (error_result
                    (invalid_port_message (field "port" (snd p)) (field "name" (snd p))))
    | None => Completed (acc ++ entries_from i items)
    end.
Proof.
  revert i acc. induction items as [|rc items IH]; intros i acc.
  - simpl. now rewrite app_nil_r.
  - rewrite entries_from_cons.
    cbn [run_configs_loop enumerate_from find].
    unfold stops_indexed at 1. cbn [snd].
    destruct rc as [| | | | | |kv]; cbn [kept andb]; try apply IH.
    unfold port_stops. cbn [field].
    destruct (truthy (dict_get kv "name" JNull)); cbn [negb orb andb]; [| apply IH].
    destruct (truthy (dict_get kv "command" JNull)); cbn [negb orb andb]; [| apply IH].
    destruct (negb (is_null (dict_get kv "port" JNull))
              && port_rejected (dict_get kv "port" JNull)); [reflexivity |].
    rewrite IH. destruct (find stops_indexed _); [reflexivity |].
    cbn [entry_of]. now rewrite <- app_assoc.
Qed.

Lemma check_repo_path_accepted (fs : filesystem) (kv : list (string * json))
      (repo_path : string) :
  call_accepted fs kv repo_path -> check_repo_path (JObj kv) = Ret (inr repo_path).
Proof.
  intros (Hrepo & Habs & _). unfold check_repo_path, or_empty_dict.
  assert (Hget : get (if truthy (JObj kv) then JObj kv else JObj []) "repoPath" JNull
                 = Ret (JStr repo_path)).
  { destruct kv; [discriminate |]. cbn [truthy get]. unfold dict_get. now rewrite Hrepo. }
  rewrite Hget. cbn [mbind res_mbind res_bind truthy value_startswith].
  destruct repo_path as [|c r]; [discriminate |].
  cbn [String.eqb negb]. rewrite Habs. reflexivity.
Qed.

(** What a call that passes the checks does, step by step. *)
Lemma configure_project_run (fs : filesystem) (kv : list (string * json))
      (repo_path : string) (items : list json) :
  call_accepted fs kv repo_path ->
  iterate (dict_get kv "runConfigurations" (JArr [])) = Ret items ->
  handle_configure_project (JObj kv) fs =
    match run_configs_loop 0 items [] with
    | Returned err => (Ret err, fs)
    | Completed run_configs =>
        match write_config repo_path (config_of kv run_configs) fs with
        | (Raise (OSError m), fs1) =>
            (Ret (error_result ("Failed to write config: " +:+ m)), fs1)
        | (Raise e, fs1) => (Raise e, fs1)
        | (Ret _, fs1) =>
            match ensure_gitignore repo_path fs1 with
            | (Raise (OSError m), fs2) =>
                (Ret (error_result ("Failed to write config: " +:+ m)), fs2)
            | (Raise e, fs2) => (Raise e, fs2)
            | (Ret added, fs2) => (summary_of repo_path kv run_configs added, fs2)
            end
        end
    end.
Proof.
  intros Hcall Hitems. pose proof Hcall as (Hrepo & Habs & Hgit).
  unfold handle_configure_project.
  rewrite (check_repo_path_accepted fs kv repo_path Hcall).
  assert (Hargs : or_empty_dict (JObj kv) = JObj kv)
    by (unfold or_empty_dict; now destruct kv).
  rewrite Hargs.
  cbv beta iota delta [mbind M_mbind bind lift mret M_ret ret get].
  rewrite Hgit. cbn [negb]. rewrite Hitems.
  destruct (run_configs_loop 0 items []) as [err|run_configs]; [reflexivity |].
  unfold try_OSError. fold (config_of kv run_configs).
  destruct (write_config repo_path (config_of kv run_configs) fs) as [[[]|e] fs1].
  - destruct (ensure_gitignore repo_path fs1) as [[added|e] fs2].
    + reflexivity.
    + destruct e; reflexivity.
  - destruct e; reflexivity.
Qed.

Lemma path_join_length (a b : string) :
  startswith b "/" = false ->
  (String.length a + String.length b <= String.length (path_join a b)
   <= String.length a + String.length b + 1)%nat.
Proof.
  intros Hb. unfold path_join. rewrite Hb.
  destruct (_ || _); rewrite !length_append; simpl; lia.
Qed.

Lemma config_tmp_neq_dir (repo_path : string) :
  config_tmp_path repo_path <> config_dir_path repo_path.
Proof.
  destruct (config_tmp_sibling repo_path) as [-> _].
  apply path_join_neq; [discriminate | reflexivity].
Qed.

(** The ignore file is neither the config file nor its temporary sibling
    nor the config directory. *)
Lemma gitignore_path_apart (repo_path : string) :
  gitignore_path repo_path <> config_file_path repo_path
  /\ gitignore_path repo_path <> config_tmp_path repo_path.
Proof.
  pose proof (path_join_length repo_path ".gitignore" eq_refl) as Hg.
  pose proof (path_join_length repo_path ".wtmux" eq_refl) as Hd.
  pose proof (path_join_length (path_join repo_path ".wtmux") "config.json" eq_refl) as Hc.
  assert (Ht : String.length (config_tmp_path repo_path)
               = (String.length (config_file_path repo_path) + 4)%nat)
    by (unfold config_tmp_path; now rewrite length_append).
  unfold gitignore_path, config_file_path, config_dir_path, CONFIG_DIR, CONFIG_FILE in *.
  simpl String.length in *.
  split; intros E; apply (f_equal String.length) in E;
    unfold config_file_path, config_dir_path, CONFIG_DIR, CONFIG_FILE in *; lia.
Qed.

(** [ensure_gitignore] touches the ignore file only. *)
Lemma ensure_gitignore_frame (repo_path q : string) (fs : filesystem) :
  q <> gitignore_path repo_path ->
  snd (ensure_gitignore repo_path fs) !! q = fs !! q.
Proof.
  intros Hq. unfold ensure_gitignore. fold (gitignore_path repo_path).
  remember (gitignore_path repo_path) as p eqn:Hp.
  assert (Hrun : forall contents fs0,
             snd (run [OpenW p; WriteTo p contents] fs0) !! q = fs0 !! q).
  { intros contents fs0. apply run_frame.
    repeat constructor; intros [E|[]]; congruence. }
  cbv beta iota delta [mbind M_mbind bind lift mret M_ret ret].
  destruct (isfile fs p).
  - destruct (read_text fs p) as [contents|e]; [| reflexivity].
    destruct (existsb is_entry (split nl contents)); [reflexivity |].
    specialize (Hrun (contents +:+ (if endswith contents NL then "" else NL)
                               +:+ ".wtmux" +:+ NL) fs).
    destruct (run _ fs) as [[[]|e] fs1]; exact Hrun.
  - destruct (existsb is_entry (split nl "")); [reflexivity |].
    specialize (Hrun ("" +:+ (if endswith "" NL then "" else NL) +:+ ".wtmux" +:+ NL) fs).
    destruct (run _ fs) as [[[]|e] fs1]; exact Hrun.
Qed.

(** On a writable repository the write goes through. *)
Lemma write_config_succeeds (repo_path : string) (config : json) (fs : filesystem) :
  isfile fs (config_dir_path repo_path) = false ->
  isdir fs (config_tmp_path repo_path) = false ->
  isdir fs (config_file_path repo_path) = false ->
  exists fs1,
    write_config repo_path config fs = (Ret tt, fs1)
    /\ fs1 !! config_file_path repo_path = Some (File (dumps_pretty config +:+ NL)).
Proof.
  intros Hdir Htmp Hcfg.
  assert (Hbefore : exists fs1, run (before_replace repo_path config) fs = (Ret tt, fs1)).
  { rewrite before_replace_eq. cbn [app run]. unfold bind at 1. cbn [exec].
    pose proof (config_tmp_neq_dir repo_path) as Hne.
    unfold isfile in Hdir. unfold isdir in Htmp.
    destruct (fs !! config_dir_path repo_path) as [[]|] eqn:Ed; [discriminate | |];
      unfold bind at 1; cbn [exec].
    - destruct (fs !! config_tmp_path repo_path) as [[]|] eqn:Et; [| discriminate |];
        rewrite run_app, (write_chars_run _ _ "") by apply lookup_insert_eq;
        cbn [run]; unfold bind; cbn [exec]; rewrite lookup_insert_eq;
        eexists; reflexivity.
    - rewrite lookup_insert_ne by congruence.
      destruct (fs !! config_tmp_path repo_path) as [[]|] eqn:Et; [| discriminate |];
        rewrite run_app, (write_chars_run _ _ "") by apply lookup_insert_eq;
        cbn [run]; unfold bind; cbn [exec]; rewrite lookup_insert_eq;
        eexists; reflexivity. }
  destruct Hbefore as [fs1 Hrun].
  pose proof (before_replace_done _ _ _ _ Hrun) as Hfull.
  pose proof (run_frame _ fs _ (before_replace_frame repo_path config)) as Hfr.
  rewrite Hrun in Hfr. cbn [snd] in Hfr.
  unfold write_config. rewrite write_config_ops_split, run_app, Hrun.
  cbn [run]. unfold bind. cbn [exec]. rewrite Hfull, Hfr.
  unfold isdir in Hcfg.
  destruct (fs !! config_file_path repo_path) as [[]|]; [| discriminate |];
    eexists; (split; [reflexivity | apply lookup_insert_eq]).
Qed.

(** With the repository directory in place and nothing in the way, the
    steps before the replace all go through. *)
Lemma before_replace_succeeds (repo_path : string) (config : json) (fs : filesystem) :
  isfile fs (config_dir_path repo_path) = false ->
  isdir fs (config_tmp_path repo_path) = false ->
  exists fs1, run (before_replace repo_path config) fs = (Ret tt, fs1).
Proof.
  intros Hdir Htmp.
  rewrite before_replace_eq. cbn [app run]. unfold bind at 1. cbn [exec].
  pose proof (config_tmp_neq_dir repo_path) as Hne.
  unfold isfile in Hdir. unfold isdir in Htmp.
  destruct (fs !! config_dir_path repo_path) as [[]|] eqn:Ed; [discriminate | |];
    unfold bind at 1; cbn [exec].
  - destruct (fs !! config_tmp_path repo_path) as [[]|] eqn:Et; [| discriminate |];
      rewrite run_app, (write_chars_run _ _ "") by apply lookup_insert_eq;
      cbn [run]; unfold bind; cbn [exec]; rewrite lookup_insert_eq;
      eexists; reflexivity.
  - rewrite lookup_insert_ne by congruence.
    destruct (fs !! config_tmp_path repo_path) as [[]|] eqn:Et; [| discriminate |];
      rewrite run_app, (write_chars_run _ _ "") by apply lookup_insert_eq;
      cbn [run]; unfold bind; cbn [exec]; rewrite lookup_insert_eq;
      eexists; reflexivity.
Qed.

(** C3. [write_config] first brings the whole serialized configuration
    (keys in order, indented, with a final line break) into the file
    [config.json.tmp] next to the config file, and replaces the config file
    in the one last step. If the process is terminated after any number of
    steps before that last one, the config file, or its absence, is as it
    was; at no point does the path of the config file hold anything but
    what it held before or the whole new text. And the write does happen:
    in a repository directory where [.wtmux] is not a regular file and
    neither the temporary file nor the config file is a directory, the
    steps before the replace go through and leave the whole text in the
    temporary file with the config file still as it was, and the call then
    returns with the whole text in the config file and no temporary file
    left. *)
Theorem write_config_atomic (repo_path : string) (config : json) (fs : filesystem) :
  let ops := write_config_ops repo_path config in
  let cfg := config_file_path repo_path in
  let tmp := config_tmp_path repo_path in
  let text := dumps_pretty config +:+ NL in
  ops = (before_replace repo_path config ++ [Replace tmp cfg])%list
  /\ tmp = path_join (config_dir_path repo_path) "config.json.tmp"
  /\ cfg = path_join (config_dir_path repo_path) "config.json"
  /\ keys_sorted (sort_keys config)
  /\ (forall fs1, run (before_replace repo_path config) fs = (Ret tt, fs1) ->
                  fs1 !! tmp = Some (File text))
  /\ (forall k, (k < length ops)%nat -> terminated_after k ops fs !! cfg = fs !! cfg)
  /\ (forall k, terminated_after k ops fs !! cfg = fs !! cfg
                \/ terminated_after k ops fs !! cfg = Some (File text))
  /\ (forall fs', write_config repo_path config fs = (Ret tt, fs') ->
                  fs' !! cfg = Some (File text) /\ fs' !! tmp = None)
  /\ (isdir fs repo_path = true ->
      isfile fs (config_dir_path repo_path) = false ->
      isdir fs tmp = false ->
      isdir fs cfg = false ->
      exists fs1 fs',
        terminated_after (length ops - 1) ops fs = fs1
        /\ run (before_replace repo_path config) fs = (Ret tt, fs1)
        /\ fs1 !! tmp = Some (File text)
        /\ fs1 !! cfg = fs !! cfg
        /\ write_config repo_path config fs = (Ret tt, fs')
        /\ fs' !! cfg = Some (File text)
        /\ fs' !! tmp = None
        /\ fs' !! config_dir_path repo_path = Some Dir).
Proof.
  intros ops cfg tmp text.
  assert (Hsplit : ops = (before_replace repo_path config ++ [Replace tmp cfg])%list)
    by apply write_config_ops_split.
  assert (Hbefore : forall k,
             terminated_after k (before_replace repo_path config) fs !! cfg = fs !! cfg).
  { intros k. unfold terminated_after. apply run_frame.
    apply firstn_Forall, before_replace_frame. }
  assert (Hfull : forall fs',
             run ops fs = (Ret tt, fs') ->
             fs' !! cfg = Some (File text) /\ fs' !! tmp = None).
  { intros fs'. rewrite Hsplit, run_app.
    destruct (run (before_replace repo_path config) fs) as [[[]|e] fs1] eqn:E1;
      [| discriminate].
    apply before_replace_done in E1. fold tmp text in E1.
    cbn [run]. unfold bind. cbn [exec]. rewrite E1.
    destruct (fs1 !! cfg) as [[]|]; unfold ret; try discriminate;
      intros [= <-];
      (split; [apply lookup_insert_eq |];
       rewrite lookup_insert_ne by (symmetry; apply config_tmp_neq_file);
       apply lookup_delete_eq). }
  split; [exact Hsplit |].
  split; [apply config_tmp_sibling |].
  split; [apply config_tmp_sibling |].
  split; [apply sort_keys_sorted |].
  split; [intros fs1; apply before_replace_done |].
  split; [| split; [| split]].
  - intros k Hk. unfold terminated_after. rewrite Hsplit in Hk |- *.
    rewrite firstn_before by exact Hk. apply Hbefore.
  - intros k. destruct (Nat.lt_ge_cases k (length ops)) as [Hk|Hk].
    + left. unfold terminated_after. rewrite Hsplit in Hk |- *.
      rewrite firstn_before by exact Hk. apply Hbefore.
    + unfold terminated_after. rewrite firstn_all2 by exact Hk.
      destruct (run ops fs) as [[[]|e] fs'] eqn:E.
      * right. now apply Hfull.
      * left. simpl. rewrite Hsplit, run_app in E.
        pose proof (run_frame (before_replace repo_path config) fs cfg
                      (before_replace_frame repo_path config)) as Hfr.
        destruct (run (before_replace repo_path config) fs) as [[[]|e1] fs1] eqn:E1;
          simpl in Hfr.
        -- cbn [run] in E. unfold bind in E.
           destruct (exec (Replace tmp cfg) fs1) as [[[]|e2] fs2] eqn:E2;
             [discriminate |].
           apply exec_raise_same in E2 as ->. injection E as _ <-. exact Hfr.
        -- injection E as _ <-. exact Hfr.
  - exact Hfull.
  - intros _ Hdir Htmp Hcfg.
    destruct (before_replace_succeeds repo_path config fs Hdir Htmp) as [fs1 Hrun].
    pose proof (before_replace_done _ _ _ _ Hrun) as Htext. fold tmp text in Htext.
    pose proof (run_frame _ fs cfg (before_replace_frame repo_path config)) as Hfr.
    rewrite Hrun in Hfr. cbn [snd] in Hfr.
    assert (Hd1 : fs1 !! config_dir_path repo_path = Some Dir).
    { revert Hrun. rewrite before_replace_eq.
      change ([Makedirs (config_dir_path repo_path); OpenW (config_tmp_path repo_path)]
                ++ ?r)%list
        with (Makedirs (config_dir_path repo_path)
                :: ([OpenW (config_tmp_path repo_path)] ++ r))%list.
      cbn [run]. unfold bind at 1.
      destruct (exec (Makedirs (config_dir_path repo_path)) fs) as [[[]|e0] fs0] eqn:E0;
        [| discriminate].
      assert (Hd0 : fs0 !! config_dir_path repo_path = Some Dir).
      { revert E0. cbn [exec]. unfold isfile in Hdir.
        destruct (fs !! config_dir_path repo_path) as [[]|] eqn:Ed;
          try discriminate; intros [= <-]; [exact Ed | apply lookup_insert_eq]. }
      intros Hrest.
      pose proof (run_frame ([OpenW (config_tmp_path repo_path)]
                               ++ write_chars (config_tmp_path repo_path)
                                    (dumps_pretty config)
                               ++ [WriteTo (config_tmp_path repo_path) NL])%list
                            fs0 (config_dir_path repo_path)) as Hfr0.
      rewrite Hrest in Hfr0. cbn [snd] in Hfr0. rewrite Hfr0; [exact Hd0 |].
      pose proof (config_tmp_neq_dir repo_path) as Hne.
      assert (Hw : forall data,
                 ~ In (config_dir_path repo_path)
                   (touches (WriteTo (config_tmp_path repo_path) data)))
        by (intros data [E|[]]; congruence).
      cbn [app]. constructor; [intros [E|[]]; congruence |].
      apply Forall_app. split.
      - unfold write_chars. apply Forall_map, Forall_forall. intros c _. apply Hw.
      - repeat constructor. apply Hw. }
    assert (Hlast : exec (Replace tmp cfg) fs1
                    = (Ret tt, <[cfg := File text]> (delete tmp fs1))).
    { cbn [exec]. rewrite Htext, Hfr. unfold isdir in Hcfg.
      destruct (fs !! cfg) as [[]|]; [| discriminate |]; reflexivity. }
    exists fs1, (<[cfg := File text]> (delete tmp fs1)).
    split.
    { unfold terminated_after. rewrite Hsplit, length_app. cbn [length].
      replace (length (before_replace repo_path config) + 1 - 1)%nat
        with (length (before_replace repo_path config)) by lia.
      rewrite firstn_app, firstn_all, Nat.sub_diag. cbn [firstn].
      rewrite app_nil_r, Hrun. reflexivity. }
    split; [exact Hrun |]. split; [exact Htext |]. split; [exact Hfr |].
    split.
    { unfold write_config. fold ops. rewrite Hsplit, run_app, Hrun.
      cbn [run]. unfold bind. rewrite Hlast. reflexivity. }
    split; [apply lookup_insert_eq |].
    split.
    { rewrite lookup_insert_ne by (symmetry; apply config_tmp_neq_file).
      apply lookup_delete_eq. }
    rewrite lookup_insert_ne by apply config_file_neq_dir.
    rewrite lookup_delete_ne by apply config_tmp_neq_dir. exact Hd1.
Qed.

(** A repository that already has a config file: terminated right before
    the replace step, the file is the old one; run to its end, the write
    leaves the new text, with the key [a] before the key [b], two spaces
    of indentation and a final line break. *)
Lemma write_config_atomic_witness :
  let fs : filesystem :=
    list_to_map [("/repo", Dir); ("/repo/.wtmux", Dir);
                 ("/repo/.wtmux/config.json", File "old")] in
  let config := JObj [("b", JInt 1); ("a", JNull)] in
  let ops := write_config_ops "/repo" config in
  (length ops - 1 < length ops)%nat
  /\ terminated_after (length ops - 1) ops fs !! "/repo/.wtmux/config.json"
     = Some (File "old")
  /\ dumps_pretty config +:+ NL
     = "{" +:+ NL +:+ "  " +:+ json_string "a" +:+ ": null," +:+ NL
           +:+ "  " +:+ json_string "b" +:+ ": 1" +:+ NL +:+ "}" +:+ NL
  /\ exists fs',
       write_config "/repo" config fs = (Ret tt, fs')
       /\ fs' !! "/repo/.wtmux/config.json" = Some (File (dumps_pretty config +:+ NL))
       /\ fs' !! "/repo/.wtmux/config.json.tmp" = None.
Proof.
  intros fs config ops.
  pose proof (write_config_atomic "/repo" config fs)
    as (_ & _ & _ & _ & _ & Hk & _ & _ & Hwrite).
  split; [vm_compute; lia |].
  split.
  - etransitivity; [apply (Hk (length ops - 1)%nat); vm_compute; lia |].
    vm_compute. reflexivity.
  - split; [vm_compute; reflexivity |].
    destruct (Hwrite eq_refl eq_refl eq_refl eq_refl)
      as (fs1 & fs' & _ & _ & _ & _ & Hrun & Hcfg & Htmp & _).
    exists fs'. split; [exact Hrun |]. split; [exact Hcfg | exact Htmp].
Defined.

(** A call that passes the checks, stops at no port and meets no obstacle
    leaves the configuration built from the kept elements in the config
    file. This holds whatever becomes of the summary afterwards. *)
Lemma configure_project_persists (fs : filesystem) (kv : list (string * json))
      (repo_path : string) (items : list json) :
  call_accepted fs kv repo_path ->
  iterate (dict_get kv "runConfigurations" (JArr [])) = Ret items ->
  find stops_indexed (enumerate_from 0 items) = None ->
  writable fs repo_path ->
  snd (handle_configure_project (JObj kv) fs) !! config_file_path repo_path
  = Some (File (dumps_pretty (config_of kv (entries_from 0 items)) +:+ NL)).
Proof.
  intros Hcall Hitems Hnone (Hdir & Htmp & Hcfg & Hgi).
  rewrite (configure_project_run fs kv repo_path items Hcall Hitems).
  rewrite run_configs_loop_spec, Hnone. cbn [app].
  destruct (write_config_succeeds repo_path (config_of kv (entries_from 0 items)) fs
              Hdir Htmp Hcfg) as (fs1 & -> & Hfile).
  pose proof (ensure_gitignore_frame repo_path (config_file_path repo_path) fs1) as Hfr.
  destruct (ensure_gitignore repo_path fs1) as [[added|e] fs2]; cbn [snd] in *.
  - rewrite Hfr; [exact Hfile |]. intros E. symmetry in E.
    now apply gitignore_path_apart in E.
  - destruct e; cbn [snd]; (rewrite Hfr; [exact Hfile |]); intros E; symmetry in E;
      now apply gitignore_path_apart in E.
Qed.

(** A call that passes the checks and meets a kept element with a rejected
    port returns the error that names the port and the element, and writes
    nothing. *)
Lemma configure_project_rejects (fs : filesystem) (kv : list (string * json))
      (repo_path : string) (items : list json) (p : nat * json) :
  call_accepted fs kv repo_path ->
  iterate (dict_get kv "runConfigurations" (JArr [])) = Ret items ->
  find stops_indexed (enumerate_from 0 items) = Some p ->
  handle_configure_project (JObj kv) fs =
    (Ret (error_result ("Invalid port " +:+ py_str (field "port" (snd p))
                          +:+ " for '" +:+ py_str (field "name" (snd p))
                          +:+ "'. Must be 1-65535.")), fs).
Proof.
  intros Hcall Hitems Hfind.
  rewrite (configure_project_run fs kv repo_path items Hcall Hitems).
  now rewrite run_configs_loop_spec, Hfind.
Qed.

Lemma kept_spec (rc : json) :
  kept rc = true <->
  exists kv, rc = JObj kv
             /\ truthy (field "name" rc) = true /\ truthy (field "command" rc) = true.
Proof.
  destruct rc as [| | | | | |kv]; cbn [kept];
    try (split; [discriminate | intros (kv' & E & _); discriminate]).
  rewrite andb_true_iff. cbn [field]. split.
  - intros [Hn Hc]. now exists kv.
  - intros (_ & _ & Hn & Hc). now split.
Qed.

(** C10. An element of [runConfigurations] that is not an object, or
    whose name or command is missing or empty, is passed over by the loop:
    no error, no entry, and the index moves on. The entries are those of
    the kept elements, and a kept element without an [order] field gets its
    position in the caller's list as order. When the call passes the checks
    on the path, no kept element has a rejected port and nothing stands in
    the way of the write, the config file holds the configuration made of
    exactly these entries. *)
Theorem skipped_elements_keep_positions (fs : filesystem) (kv : list (string * json))
        (repo_path : string) (items : list json) :
  (forall rc, kept rc = true <->
              exists fields, rc = JObj fields
                             /\ truthy (field "name" rc) = true
                             /\ truthy (field "command" rc) = true)
  /\ (forall i rc rest acc,
         kept rc = false ->
         run_configs_loop i (rc :: rest) acc = run_configs_loop (S i) rest acc)
  /\ (forall i rc rest,
         entries_from i (rc :: rest) =
           if kept rc then entry_of i rc :: entries_from (S i) rest
           else entries_from (S i) rest)
  /\ (forall i rc,
         kept rc = true -> has_field "order" rc = false ->
         field "order" (entry_of i rc) = JInt (Z.of_nat i))
  /\ (call_accepted fs kv repo_path ->
      iterate (dict_get kv "runConfigurations" (JArr [])) = Ret items ->
      find stops_indexed (enumerate_from 0 items) = None ->
      writable fs repo_path ->
      snd (handle_configure_project (JObj kv) fs) !! config_file_path repo_path
      = Some (File (dumps_pretty (config_of kv (entries_from 0 items)) +:+ NL))).
Proof.
  split; [exact kept_spec |].
  split.
  { intros i rc rest acc Hk. rewrite !run_configs_loop_spec.
    cbn [enumerate_from find]. unfold stops_indexed at 1. cbn [snd].
    rewrite Hk. cbn [andb]. rewrite entries_from_cons, Hk. reflexivity. }
  split; [exact entries_from_cons |].
  split.
  { intros i rc Hk Ho. destruct rc as [| | | | | |fields]; try discriminate.
    cbn [has_field] in Ho. cbn [entry_of field]. unfold dict_get at 1.
    cbn [lookup_field String.eqb Ascii.eqb Bool.eqb]. unfold dict_get.
    now destruct (lookup_field "order" fields). }
  apply configure_project_persists.
Qed.

(** A call whose first element is stray: the runner that follows it is
    persisted with order 1, its position in the caller's list. *)
Lemma skipped_elements_keep_positions_witness :
  call_accepted bare_repo call_with_stray_element "/repo"
  /\ writable bare_repo "/repo"
  /\ snd (handle_configure_project (JObj call_with_stray_element) bare_repo)
       !! "/repo/.wtmux/config.json"
     = Some (File (dumps_pretty
                     (JObj [("envFilesToCopy", JArr []);
                            ("setupCommands", JArr []);
                            ("runConfigurations",
                             JArr [JObj [("name", JStr "web");
                                         ("command", JStr "npm run dev");
                                         ("port", JNull);
                                         ("autoStart", JBool false);
                                         ("order", JInt 1)]])])
                   +:+ NL)).
Proof.
  assert (Hcall : call_accepted bare_repo call_with_stray_element "/repo")
    by (repeat split; reflexivity).
  assert (Hw : writable bare_repo "/repo") by (repeat split; reflexivity).
  split; [exact Hcall |]. split; [exact Hw |].
  destruct (skipped_elements_keep_positions bare_repo call_with_stray_element "/repo"
              [JInt 3; web_runner]) as (_ & _ & _ & _ & Hpersist).
  exact (Hpersist Hcall eq_refl eq_refl Hw).
Defined.

Lemma find_none_forall {A : Type} (f : A -> bool) (l : list A) :
  find f l = None -> forall x, In x l -> f x = false.
Proof. intros Hf x Hx. eapply find_none; eassumption. Qed.

Lemma In_entries_from (e : json) (i : nat) (items : list json) :
  In e (entries_from i items) ->
  exists j rc, In (j, rc) (enumerate_from i items) /\ kept rc = true /\ e = entry_of j rc.
Proof.
  unfold entries_from. rewrite in_map_iff. intros ([j rc] & <- & Hin).
  apply filter_In in Hin as [Hin Hk]. exists j, rc. auto.
Qed.

Lemma In_enumerate_from {A : Type} (j : nat) (x : A) (i : nat) (l : list A) :
  In (j, x) (enumerate_from i l) -> In x l.
Proof.
  revert i. induction l as [|y l IH]; intros i; simpl; [tauto |].
  intros [[= _ ->]|H]; [now left | right; eauto].
Qed.

(** A port that is not a boolean and that the check lets through is an
    integer from 1 to 65535. *)
Lemma port_let_through (port : json) :
  is_boolean port = false -> port_rejected port = false -> integer_port port.
Proof.
  unfold port_rejected, integer_port.
  destruct port as [|b|z|r|s|l|kv]; cbn [as_int is_boolean]; try discriminate.
  intros _ Hz. apply orb_false_iff in Hz as [H1 H2].
  exists z. split; [reflexivity | lia].
Qed.

(** C5, as the code has it. In a config file persisted by a call in which
    no port is a JSON boolean, every entry of [runConfigurations] has a
    [port] member, which is an integer from 1 to 65535 or null; it is null
    when the caller's element had no port or a null one. *)
Theorem persisted_port_integer_or_null (fs : filesystem) (kv : list (string * json))
        (repo_path : string) (items run_configs : list json) :
  call_accepted fs kv repo_path ->
  iterate (dict_get kv "runConfigurations" (JArr [])) = Ret items ->
  writable fs repo_path ->
  Forall (fun rc => is_boolean (field "port" rc) = false) items ->
  run_configs_loop 0 items [] = Completed run_configs ->
  snd (handle_configure_project (JObj kv) fs) !! config_file_path repo_path
  = Some (File (dumps_pretty (config_of kv run_configs) +:+ NL))
  /\ forall e, In e run_configs ->
       exists j rc fields,
         In (j, rc) (enumerate_from 0 items)
         /\ e = JObj fields
         /\ lookup_field "port" fields = Some (field "port" rc)
         /\ (field "port" rc = JNull \/ integer_port (field "port" rc))
         /\ (has_field "port" rc = false -> lookup_field "port" fields = Some JNull).
Proof.
  intros Hcall Hitems Hw Hbool Hloop.
  rewrite run_configs_loop_spec in Hloop.
  destruct (find stops_indexed (enumerate_from 0 items)) eqn:Hfind; [discriminate |].
  injection Hloop as <-. cbn [app].
  split; [now apply configure_project_persists |].
  intros e He. apply In_entries_from in He as (j & rc & Hin & Hk & ->).
  pose proof (find_none_forall _ _ Hfind _ Hin) as Hstop.
  unfold stops_indexed in Hstop. cbn [snd] in Hstop. rewrite Hk in Hstop.
  cbn [andb] in Hstop. unfold port_stops in Hstop.
  rewrite List.Forall_forall in Hbool.
  specialize (Hbool rc (In_enumerate_from _ _ _ _ Hin)).
  destruct rc as [| | | | | |fields]; try discriminate.
  exists j, (JObj fields). eexists. split; [exact Hin |]. split; [reflexivity |].
  cbn [field] in *. split; [reflexivity |]. split.
  - destruct (dict_get fields "port" JNull) eqn:Ep; cbn [is_null negb andb] in Hstop;
      try (right; apply port_let_through; [exact Hbool | exact Hstop]).
    now left.
  - cbn [has_field]. unfold dict_get. cbn [lookup_field String.eqb Ascii.eqb Bool.eqb].
    now destruct (lookup_field "port" fields).
Qed.

(** A call with two runners, one with port 3000 and one without port. *)
Lemma persisted_port_integer_or_null_witness :
  let with_port := JObj [("name", JStr "api"); ("command", JStr "make run");
                         ("port", JInt 3000)] in
  let kv := [("repoPath", JStr "/repo");
             ("runConfigurations", JArr [with_port; web_runner])] in
  call_accepted bare_repo kv "/repo"
  /\ writable bare_repo "/repo"
  /\ Forall (fun rc => is_boolean (field "port" rc) = false) [with_port; web_runner]
  /\ Forall (fun e => exists fields port,
                        e = JObj fields /\ lookup_field "port" fields = Some port
                        /\ (port = JNull \/ integer_port port))
            (entries_from 0 [with_port; web_runner]).
Proof.
  intros with_port kv.
  assert (Hcall : call_accepted bare_repo kv "/repo") by (repeat split; reflexivity).
  assert (Hw : writable bare_repo "/repo") by (repeat split; reflexivity).
  assert (Hbool : Forall (fun rc => is_boolean (field "port" rc) = false)
                         [with_port; web_runner])
    by (repeat constructor).
  destruct (persisted_port_integer_or_null bare_repo kv "/repo"
              [with_port; web_runner] (entries_from 0 [with_port; web_runner])
              Hcall eq_refl Hw Hbool eq_refl) as [_ Hall].
  split; [exact Hcall |]. split; [exact Hw |]. split; [exact Hbool |].
  apply List.Forall_forall. intros e He.
  destruct (Hall e He) as (j & rc & fields & _ & -> & Hp & Hr & _).
  exists fields, (field "port" rc). auto.
Defined.

(** C5, as stated, fails: for a runner given without port the persisted
    entry does carry a [port] member, with the value null. *)
Lemma persisted_entry_carries_null_port :
  has_field "port" web_runner = false
  /\ (exists fields,
         run_configs_loop 0 [web_runner] [] = Completed [JObj fields]
         /\ lookup_field "port" fields = Some JNull
         /\ lookup_field "port" fields <> None)
  /\ snd (handle_configure_project (JObj call_without_port) bare_repo)
       !! "/repo/.wtmux/config.json"
     = Some (File (dumps_pretty
                     (JObj [("envFilesToCopy", JArr []);
                            ("setupCommands", JArr []);
                            ("runConfigurations",
                             JArr [JObj [("name", JStr "web");
                                         ("command", JStr "npm run dev");
                                         ("port", JNull);
                                         ("autoStart", JBool false);
                                         ("order", JInt 0)]])])
                   +:+ NL))
  /\ (forall text,
         snd (handle_configure_project (JObj call_without_port) bare_repo)
           !! "/repo/.wtmux/config.json" = Some (File text) ->
         str_in (json_string "port" +:+ ": null") text = true).
Proof.
  split; [reflexivity |]. split; [| split].
  - eexists. split; [reflexivity |]. split; [reflexivity | discriminate].
  - vm_compute. reflexivity.
  - intros text Htext.
    assert (E : snd (handle_configure_project (JObj call_without_port) bare_repo)
                  !! "/repo/.wtmux/config.json"
                = Some (File (dumps_pretty
                     (JObj [("envFilesToCopy", JArr []);
                            ("setupCommands", JArr []);
                            ("runConfigurations",
                             JArr [JObj [("name", JStr "web");
                                         ("command", JStr "npm run dev");
                                         ("port", JNull);
                                         ("autoStart", JBool false);
                                         ("order", JInt 0)]])])
                   +:+ NL))) by (vm_compute; reflexivity).
    rewrite E in Htext. injection Htext as <-. vm_compute. reflexivity.
Qed.

(** C4, at a port that is the JSON value [true]: the value is no integer,
    yet the call succeeds, writes the config file with that port, and adds
    the ignore file. *)
Theorem boolean_port_is_written :
  ~ integer_port (JBool true)
  /\ bare_repo !! "/repo/.wtmux/config.json" = None
  /\ bare_repo !! "/repo/.gitignore" = None
  /\ (exists summary,
         fst (handle_configure_project (JObj call_with_boolean_port) bare_repo)
         = Ret (text_result summary))
  /\ snd (handle_configure_project (JObj call_with_boolean_port) bare_repo)
       !! "/repo/.wtmux/config.json"
     = Some (File (dumps_pretty
                     (JObj [("envFilesToCopy", JArr []);
                            ("setupCommands", JArr []);
                            ("runConfigurations",
                             JArr [JObj [("name", JStr "web");
                                         ("command", JStr "npm run dev");
                                         ("port", JBool true);
                                         ("autoStart", JBool false);
                                         ("order", JInt 0)]])])
                   +:+ NL))
  /\ snd (handle_configure_project (JObj call_with_boolean_port) bare_repo)
       !! "/repo/.gitignore"
     = Some (File (NL +:+ ".wtmux" +:+ NL)).
Proof.
  split; [intros (z & Hz & _); discriminate |].
  split; [reflexivity |]. split; [reflexivity |].
  split; [eexists; vm_compute; reflexivity |].
  split; vm_compute; reflexivity.
Qed.

(* ===================================================================== *)
(** * One response, one line *)
(* ===================================================================== *)

Lemma has_char_app (c : ascii) (a b : string) :
  has_char c (a +:+ b) = has_char c a || has_char c b.
Proof.
  unfold has_char. induction a as [|x a IH]; simpl; [reflexivity |].
  now rewrite IH, orb_assoc.
Qed.

Lemma one_line_app (a b : string) : one_line a -> one_line b -> one_line (a +:+ b).
Proof. unfold one_line. rewrite has_char_app. now intros -> ->. Qed.

Lemma one_line_join (sep : string) (l : list string) :
  one_line sep -> Forall one_line l -> one_line (join sep l).
Proof.
  intros Hsep Hl. unfold join. induction Hl as [|x l Hx Hl IH]; [reflexivity |].
  cbn [String.concat]. destruct l as [|y l]; [exact Hx |].
  repeat apply one_line_app; assumption.
Qed.

Lemma escape_char_one_line (c : ascii) : one_line (escape_char c).
Proof.
  destruct c as [[] [] [] [] [] [] [] []]; vm_compute; reflexivity.
Qed.

Lemma escape_one_line (s : string) : one_line (escape s).
Proof.
  induction s as [|c s IH]; [reflexivity |].
  cbn [escape]. apply one_line_app; [apply escape_char_one_line | exact IH].
Qed.

Lemma json_string_one_line (s : string) : one_line (json_string s).
Proof.
  unfold json_string.
  change (String (chr 34) (escape s +:+ String (chr 34) ""))
    with (String (chr 34) "" +:+ (escape s +:+ String (chr 34) "")).
  repeat apply one_line_app; try reflexivity. apply escape_one_line.
Qed.

Lemma string_of_uint_one_line (d : Decimal.uint) : one_line (NilEmpty.string_of_uint d).
Proof. induction d; simpl; try reflexivity; exact IHd. Qed.

Lemma str_of_int_one_line (z : Z) : one_line (str_of_int z).
Proof.
  unfold str_of_int, NilZero.string_of_int, NilZero.string_of_uint.
  destruct (Z.to_int z) as [d|d]; destruct d; try reflexivity;
    try apply (string_of_uint_one_line (_ d));
    apply (one_line_app "-" _ eq_refl), (string_of_uint_one_line (_ d)).
Qed.

Lemma json_float_one_line (r : string) : one_line r -> one_line (json_float r).
Proof.
  intros Hr. unfold json_float.
  repeat (match goal with |- context [String.eqb r ?s] => destruct (String.eqb r s) end;
          [reflexivity |]).
  exact Hr.
Qed.

Lemma plain_arr (l : list json) : plain (JArr l) <-> Forall plain l.
Proof.
  simpl. induction l as [|x l IH].
  - split; [constructor | trivial].
  - rewrite IH. split; [intros [Hx Hl]; now constructor |].
    intros Hxl. inversion Hxl. now split.
Qed.

Lemma plain_obj (kv : list (string * json)) :
  plain (JObj kv) <-> Forall (fun p => plain (snd p)) kv.
Proof.
  simpl. induction kv as [|p kv IH].
  - split; [constructor | trivial].
  - rewrite IH. split; [intros [Hx Hl]; now constructor |].
    intros Hxl. inversion Hxl. now split.
Qed.

(** The compact text of a document has no line break in it. *)
Lemma dumps_compact_one_line (v : json) : plain v -> one_line (dumps_compact v).
Proof.
  induction v as [|b|z|r|s|l IH|kv IH] using json_ind'; intros Hp.
  - reflexivity.
  - now destruct b.
  - apply str_of_int_one_line.
  - now apply json_float_one_line.
  - apply json_string_one_line.
  - cbn [dumps_compact]. apply plain_arr in Hp.
    repeat apply one_line_app; try reflexivity.
    apply one_line_join; [reflexivity |]. apply Forall_map.
    induction IH as [|x l Hx _ IHl]; [constructor |].
    inversion Hp; subst. constructor; auto.
  - cbn [dumps_compact]. apply plain_obj in Hp.
    repeat apply one_line_app; try reflexivity.
    apply one_line_join; [reflexivity |]. apply Forall_map.
    induction IH as [|p kv Hx _ IHl]; [constructor |].
    inversion Hp; subst. constructor; [| auto].
    apply one_line_app; [apply json_string_one_line |].
    apply one_line_app; [reflexivity | auto].
Qed.

Lemma plain_dict_get (kv : list (string * json)) (k : string) (default : json) :
  plain (JObj kv) -> plain default -> plain (dict_get kv k default).
Proof.
  intros Hkv Hd. apply plain_obj in Hkv. unfold dict_get.
  induction Hkv as [|[k' v] kv Hv _ IH]; cbn [lookup_field]; [exact Hd |].
  destruct (String.eqb k k'); [exact Hv | exact IH].
Qed.

Lemma tool_result_plain (r : json) : tool_result r -> plain r.
Proof. intros [text [-> | ->]]; cbn; tauto. Qed.

(* ===================================================================== *)
(** * What the handlers return *)
(* ===================================================================== *)

Lemma error_result_tool (text : string) : tool_result (error_result text).
Proof. exists text. now right. Qed.

Lemma text_result_tool (text : string) : tool_result (text_result text).
Proof. exists text. now left. Qed.

Create HintDb tool.
#[local] Hint Resolve error_result_tool text_result_tool : tool.

(** One step through the code of a handler: case analysis on what the
    next test or call gives. *)
Ltac handler_step :=
  match goal with
  | |- (Ret _, _) = (Ret _, _) -> _ => intros [= <- <-] || intros [= <-]
  | |- (Raise _, _) = (Ret _, _) -> _ => discriminate
  | |- Ret _ = Ret _ -> _ => intros [= <-]
  | |- Raise _ = Ret _ -> _ => discriminate
  | |- context [match ?x with _ => _ end] => destruct x eqn:?
  end.

Lemma build_summary_shape (repo_path : string) (env_files setup_commands : json)
      (run_configs : list json) (terminal_start_command : json) (added : bool) (r : json) :
  build_summary repo_path env_files setup_commands run_configs terminal_start_command added
  = Ret r ->
  tool_result r.
Proof.
  unfold build_summary.
  cbv beta iota delta [mbind res_mbind res_bind mret res_ret].
  repeat handler_step; auto with tool.
Qed.

Lemma check_repo_path_shape (arguments err : json) :
  check_repo_path arguments = Ret (inl err) -> tool_result err.
Proof.
  unfold check_repo_path.
  cbv beta iota delta [mbind res_mbind res_bind mret res_ret].
  repeat handler_step; auto with tool; try discriminate.
Qed.

Lemma run_configs_loop_shape (items : list json) (i : nat) (acc : list json) (err : json) :
  run_configs_loop i items acc = Returned err -> tool_result err.
Proof.
  rewrite run_configs_loop_spec. destruct (find _ _); [| discriminate].
  intros [= <-]. auto with tool.
Qed.

(** [get_project_config] returns tool content and writes nothing. *)
Lemma handle_get_project_config_shape (H : host) (arguments r : json)
      (fs fs' : filesystem) :
  handle_get_project_config H arguments fs = (Ret r, fs') -> tool_result r /\ fs' = fs.
Proof.
  unfold handle_get_project_config.
  cbv beta iota delta [mbind M_mbind bind lift mret M_ret ret].
  destruct (check_repo_path arguments) as [[err|repo_path]|e] eqn:Ec; [| | discriminate].
  - intros [= <- <-]. split; [| reflexivity]. eapply check_repo_path_shape; eassumption.
  - destruct (is_null _); intros [= <- <-]; auto with tool.
Qed.

(** [analyze_project] returns tool content and writes nothing. *)
Lemma handle_analyze_project_shape (H : host) (arguments r : json)
      (fs fs' : filesystem) :
  handle_analyze_project H arguments fs = (Ret r, fs') -> tool_result r /\ fs' = fs.
Proof.
  unfold handle_analyze_project.
  cbv beta iota delta [mbind M_mbind bind lift mret M_ret ret].
  destruct (check_repo_path arguments) as [[err|repo_path]|e] eqn:Ec; [| | discriminate].
  - intros [= <- <-]. split; [| reflexivity]. eapply check_repo_path_shape; eassumption.
  - destruct (negb _); [intros [= <- <-]; auto with tool |].
    destruct (parse_scripts H fs repo_path _); [| discriminate].
    intros [= <- <-]. auto with tool.
Qed.

(** [configure_project] returns tool content. *)
Lemma handle_configure_project_shape (arguments r : json) (fs fs' : filesystem) :
  handle_configure_project arguments fs = (Ret r, fs') -> tool_result r.
Proof.
  unfold handle_configure_project.
  cbv beta iota delta [mbind M_mbind bind lift mret M_ret ret try_OSError].
  destruct (check_repo_path arguments) as [[err|repo_path]|e] eqn:Ec; [| | discriminate].
  - intros [= <- <-]. eapply check_repo_path_shape; eassumption.
  - destruct (negb _); [intros [= <- <-]; auto with tool |].
    repeat (match goal with
            | |- context [get ?a ?k ?d] => destruct (get a k d); [| discriminate]
            end).
    destruct (iterate _) as [items|]; [| discriminate].
    destruct (run_configs_loop 0 items []) as [err|run_configs] eqn:El.
    + intros [= <- <-]. eapply run_configs_loop_shape; eassumption.
    + destruct (write_config _ _ fs) as [[[]|[]] fs1]; try discriminate.
      * destruct (ensure_gitignore _ fs1) as [[added|[]] fs2]; try discriminate.
        -- destruct (build_summary _ _ _ _ _ _) eqn:Es; [| discriminate].
           intros [= <- <-]. eapply build_summary_shape; eassumption.
        -- intros [= <- <-]. auto with tool.
      * intros [= <- <-]. auto with tool.
Qed.

(* ===================================================================== *)
(** * The server loop *)
(* ===================================================================== *)

Lemma tool_call_shape (H : host) (handler : json -> M json) (tool_name arguments r : json)
      (fs fs' : filesystem) :
  TOOL_HANDLERS H tool_name = Ret (Some handler) ->
  handler arguments fs = (Ret r, fs') ->
  tool_result r.
Proof.
  unfold TOOL_HANDLERS. destruct tool_name as [| | | |s| |]; try discriminate.
  repeat (match goal with |- context [String.eqb s ?t] => destruct (String.eqb s t) end);
    intros [= <-] Hr; try discriminate.
  - now apply handle_analyze_project_shape in Hr.
  - now apply handle_configure_project_shape in Hr.
  - now apply handle_get_project_config_shape in Hr.
Qed.

Lemma plain_response (msg_id result : json) :
  plain msg_id -> plain result -> plain (response msg_id result).
Proof. intros Hi Hr. cbn. tauto. Qed.

Lemma eq_str_true (v : json) (s : string) : eq_str v s = true -> v = JStr s.
Proof.
  destruct v; try discriminate. cbn. intros E. apply String.eqb_eq in E. now subst.
Qed.

(** What [handle_request] makes of a message that is an object, when it
    returns. *)
Lemma handle_request_outcome (H : host) (kv : list (string * json)) (fs fs' : filesystem)
      (r : option json) :
  handle_request H (JObj kv) fs = (Ret r, fs') ->
  is_some r = answered kv
  /\ forall resp, r = Some resp ->
       field "jsonrpc" resp = JStr "2.0"
       /\ field "id" resp = id_of kv
       /\ (plain (id_of kv) -> plain (TOOL_DEFINITIONS H) -> plain resp).
Proof.
  unfold handle_request, answered, request_method.
  cbv beta iota delta [mbind M_mbind bind lift mret M_ret ret get].
  fold (method_of kv) (id_of kv).
  destruct (eq_str (method_of kv) "initialize") eqn:E1.
  { intros [= <- <-]. split; [reflexivity |]. intros resp [= <-].
    split; [reflexivity | split; [reflexivity |]]. intros Hi _. apply plain_response; [exact Hi | cbn; tauto]. }
  destruct (eq_str (method_of kv) "notifications/initialized") eqn:E2.
  { intros [= <- <-]. apply eq_str_true in E2. rewrite E2. split; [reflexivity |].
    intros resp [=]. }
  destruct (eq_str (method_of kv) "tools/list") eqn:E3.
  { intros [= <- <-]. split; [reflexivity |]. intros resp [= <-].
    split; [reflexivity | split; [reflexivity |]]. intros Hi Ht. apply plain_response; [exact Hi | cbn; tauto]. }
  destruct (eq_str (method_of kv) "tools/call") eqn:E4.
  { destruct (dict_get kv "params" (JObj [])) as [| | | | | |params]; try discriminate.
    destruct (TOOL_HANDLERS H (dict_get params "name" (JStr ""))) as [[handler|]|] eqn:Eh;
      [| | discriminate].
    - destruct (handler (dict_get params "arguments" (JObj [])) fs) as [[result|e] fs1] eqn:Er;
        [| discriminate].
      intros [= <- <-]. split; [reflexivity |]. intros resp [= <-].
      split; [reflexivity | split; [reflexivity |]]. intros Hi _. apply plain_response; [exact Hi |].
      apply tool_result_plain. eapply tool_call_shape; eassumption.
    - intros [= <- <-]. split; [reflexivity |]. intros resp [= <-].
      split; [reflexivity | split; [reflexivity |]]. intros Hi _. apply plain_response; [exact Hi | cbn; tauto]. }
  destruct (eq_str (method_of kv) "ping") eqn:E5.
  { intros [= <- <-]. split; [reflexivity |]. intros resp [= <-].
    split; [reflexivity | split; [reflexivity |]]. intros Hi _. apply plain_response; [exact Hi | cbn; tauto]. }
  cbn [orb andb negb].
  destruct (is_null (id_of kv)) eqn:Ei; cbn [negb]; intros [= <- <-].
  - split; [reflexivity |]. intros resp [=].
  - split; [reflexivity |]. intros resp [= <-].
    split; [reflexivity | split; [reflexivity |]]. intros Hi _. cbn. tauto.
Qed.

(** Apart from [tools/call], every message that is an object is handled
    without an exception and without a write. *)
Lemma handle_request_returns (H : host) (kv : list (string * json)) (fs : filesystem) :
  eq_str (method_of kv) "tools/call" = false ->
  exists r, handle_request H (JObj kv) fs = (Ret r, fs).
Proof.
  intros E4. unfold handle_request.
  cbv beta iota delta [mbind M_mbind bind lift mret M_ret ret get].
  fold (method_of kv) (id_of kv). rewrite E4.
  repeat (match goal with
          | |- context [eq_str (method_of kv) ?s] => destruct (eq_str (method_of kv) s)
          | |- context [negb (is_null ?v)] => destruct (negb (is_null v))
          end; try (eexists; reflexivity)).
Qed.

Lemma serve_step (H : host) (line : string) (rest : list string) (fs fs' : filesystem)
      (out : list string) (msg : json) (r : option json) :
  strip line <> "" ->
  json_loads H (strip line) = Some msg ->
  handle_request H msg fs = (Ret r, fs') ->
  serve H (line :: rest) fs out = serve H rest fs' (out ++ written r).
Proof.
  intros Hne Hmsg Hr. cbn [serve].
  apply String.eqb_neq in Hne. rewrite Hne, Hmsg, Hr.
  destruct r; cbn [written]; [reflexivity | now rewrite app_nil_r].
Qed.

(** Blank lines and lines that do not decode are passed over. *)
Lemma serve_skip (H : host) (line : string) (rest : list string) (fs : filesystem)
      (out : list string) :
  strip line = "" \/ json_loads H (strip line) = None ->
  serve H (line :: rest) fs out = serve H rest fs out.
Proof.
  intros [He|Hn]; cbn [serve].
  - now rewrite He.
  - rewrite Hn. now destruct (String.eqb (strip line) "").
Qed.

(** An exception that leaves [handle_request] ends the run: nothing is
    written for the message, and the lines after it are not read. *)
Lemma serve_uncaught (H : host) (line : string) (rest : list string) (fs fs' : filesystem)
      (out : list string) (msg : json) (e : exn) :
  strip line <> "" ->
  json_loads H (strip line) = Some msg ->
  handle_request H msg fs = (Raise e, fs') ->
  serve H (line :: rest) fs out = {| ending := Uncaught e; files := fs'; stdout := out |}.
Proof.
  intros Hne Hmsg Hr. cbn [serve].
  apply String.eqb_neq in Hne. now rewrite Hne, Hmsg, Hr.
Qed.

(** What was written stays, and what is written is put after it. *)
Lemma serve_stdout_extends (H : host) (stdin : list string) (fs : filesystem)
      (out : list string) :
  exists more, stdout (serve H stdin fs out) = (out ++ more)%list.
Proof.
  revert fs out. induction stdin as [|line rest IH]; intros fs out; cbn [serve].
  - exists []. cbn. now rewrite app_nil_r.
  - destruct (String.eqb (strip line) ""); [apply IH |].
    destruct (json_loads H (strip line)) as [msg|]; [| apply IH].
    destruct (handle_request H msg fs) as [[[resp|]|e] fs'].
    + destruct (IH fs' (out ++ [send_response resp])%list) as [more ->].
      exists (send_response resp :: more). now rewrite <- app_assoc.
    + apply IH.
    + exists []. cbn. now rewrite app_nil_r.
Qed.

(** The dispatch, line by line. For a line that decodes to an object and
    whose handling returns: one compact line is written, and nothing else,
    when the method is [initialize], [tools/list], [tools/call] or [ping],
    with or without an id, or when the method is any other but
    [notifications/initialized] and the id is there and not null; nothing
    is written otherwise. The line written carries the id of the message,
    null when there is none; it is put after what was written before, and
    only then is the next line read, so responses come in the order of
    arrival. Every message that is an object and not a [tools/call] is
    handled without an exception. *)
Theorem responses_by_method_in_order (H : host) :
  (forall line rest fs out kv r fs',
      strip line <> "" ->
      json_loads H (strip line) = Some (JObj kv) ->
      handle_request H (JObj kv) fs = (Ret r, fs') ->
      is_some r = answered kv
      /\ serve H (line :: rest) fs out = serve H rest fs' (out ++ written r)
      /\ (forall resp, r = Some resp ->
            written r = [dumps_compact resp +:+ NL]
            /\ field "jsonrpc" resp = JStr "2.0"
            /\ field "id" resp = id_of kv
            /\ (plain (id_of kv) -> plain (TOOL_DEFINITIONS H) ->
                one_line (dumps_compact resp))))
  /\ (forall stdin fs out, exists more, stdout (serve H stdin fs out) = (out ++ more)%list)
  /\ (forall kv fs,
         eq_str (method_of kv) "tools/call" = false ->
         exists r, handle_request H (JObj kv) fs = (Ret r, fs)).
Proof.
  split; [| split].
  - intros line rest fs out kv r fs' Hne Hmsg Hr.
    destruct (handle_request_outcome H kv fs fs' r Hr) as [Hans Hresp].
    split; [exact Hans |].
    split; [now apply (serve_step H line rest fs fs' out (JObj kv)) |].
    intros resp ->. destruct (Hresp resp eq_refl) as (Hv & Hi & Hp).
    split; [reflexivity |]. split; [exact Hv |]. split; [exact Hi |].
    intros Hpi Hpt. apply dumps_compact_one_line. now apply Hp.
  - apply serve_stdout_extends.
  - apply handle_request_returns.
Qed.

(** A [ping] with id 2 on a line of its own. *)
Lemma responses_by_method_in_order_witness :
  let H := sample_host [ping_request] in
  let line := dumps_compact ping_request +:+ NL in
  strip line <> ""
  /\ json_loads H (strip line) = Some ping_request
  /\ stdout (serve H [line] bare_repo [])
     = [dumps_compact (response (JInt 2) (JObj [])) +:+ NL].
Proof.
  intros H line.
  assert (Hne : strip line <> "") by (vm_compute; discriminate).
  assert (Hmsg : json_loads H (strip line) = Some ping_request) by reflexivity.
  split; [exact Hne |]. split; [exact Hmsg |].
  destruct (responses_by_method_in_order H) as [Hstep _].
  destruct (Hstep line [] bare_repo [] _ (Some (response (JInt 2) (JObj []))) bare_repo
              Hne Hmsg eq_refl) as (_ & -> & _).
  reflexivity.
Defined.

(** C2, at a [ping] that carries no id: the message is a notification,
    and still the server answers it, with a response whose id is null;
    [handle_request] looks at the id only once none of the method names
    matched. The other way round, a [notifications/initialized] that
    carries an id gets no response. *)
Lemma ping_notification_is_answered :
  has_field "id" ping_notification = false
  /\ stdout (main (sample_host [ping_notification])
               [dumps_compact ping_notification +:+ NL] bare_repo)
     = [dumps_compact (response JNull (JObj [])) +:+ NL]
  /\ has_field "id" initialized_with_id = true
  /\ main (sample_host [initialized_with_id])
          [dumps_compact initialized_with_id +:+ NL] bare_repo
     = {| ending := EndOfInput; files := bare_repo; stdout := [] |}.
Proof.
  split; [reflexivity |]. split; [vm_compute; reflexivity |].
  split; [reflexivity |]. vm_compute. reflexivity.
Qed.

(** C1, at a tool call whose [repoPath] is a number, and at a line that is
    JSON but not an object: the exception is caught nowhere, the process
    ends, nothing is written, and the request on the next line is never
    served. *)
Theorem numeric_path_ends_the_process :
  let H := sample_host [call_with_numeric_path; ping_request] in
  let stdin := [dumps_compact call_with_numeric_path +:+ NL;
                dumps_compact ping_request +:+ NL] in
  json_loads H (strip (dumps_compact call_with_numeric_path +:+ NL))
  = Some call_with_numeric_path
  /\ handle_get_project_config H (JObj [("repoPath", JInt 42)]) bare_repo
     = (Raise AttributeError, bare_repo)
  /\ main H stdin bare_repo
     = {| ending := Uncaught AttributeError; files := bare_repo; stdout := [] |}
  /\ main (sample_host [ping_request]) [dumps_compact ping_request +:+ NL] bare_repo
     = {| ending := EndOfInput; files := bare_repo;
          stdout := [dumps_compact (response (JInt 2) (JObj [])) +:+ NL] |}
  /\ main (sample_host [JInt 42; ping_request])
          ["42"; dumps_compact ping_request +:+ NL] bare_repo
     = {| ending := Uncaught AttributeError; files := bare_repo; stdout := [] |}.
Proof.
  intros H stdin. repeat split; vm_compute; reflexivity.
Qed.

(* ===================================================================== *)
(** * Further properties: the server loop *)
(* ===================================================================== *)

(** Serving a stream is serving its first part and then, if the process
    is still there, its second part from the state the first part left:
    the file system and what was written carry over. *)
Theorem serve_app (H : host) (l1 l2 : list string) (fs : filesystem) (out : list string) :
  serve H (l1 ++ l2) fs out =
    if running (serve H l1 fs out)
    then serve H l2 (files (serve H l1 fs out)) (stdout (serve H l1 fs out))
    else serve H l1 fs out.
Proof.
  revert fs out. induction l1 as [|line l1 IH]; intros fs out; [reflexivity |].
  cbn [app serve].
  destruct (String.eqb (strip line) ""); [apply IH |].
  destruct (json_loads H (strip line)) as [msg|]; [| apply IH].
  destruct (handle_request H msg fs) as [[[resp|]|e] fs']; [apply IH | apply IH |].
  reflexivity.
Qed.

(** Blank lines and lines that do not decode leave no trace: the run is
    the run on the stream without them. *)
Theorem serve_ignores_undecodable (H : host) (stdin : list string) (fs : filesystem)
        (out : list string) :
  serve H stdin fs out = serve H (List.filter (decodable H) stdin) fs out.
Proof.
  revert fs out. induction stdin as [|line rest IH]; intros fs out; [reflexivity |].
  cbn [List.filter]. unfold decodable at 1.
  destruct (String.eqb (strip line) "") eqn:Eb; cbn [negb andb].
  - cbn [serve]. rewrite Eb. apply IH.
  - destruct (json_loads H (strip line)) as [msg|] eqn:Em; cbn [is_some].
    + cbn [serve]. rewrite Eb, Em.
      destruct (handle_request H msg fs) as [[[resp|]|e] fs']; [apply IH | apply IH |].
      reflexivity.
    + cbn [serve]. rewrite Eb, Em. apply IH.
Qed.

(** At most one response is written per decodable line, and none for the
    other lines. *)
Theorem serve_at_most_one_response_per_line (H : host) (stdin : list string)
        (fs : filesystem) (out : list string) :
  (length (stdout (serve H stdin fs out))
   <= length out + length (List.filter (decodable H) stdin))%nat.
Proof.
  revert fs out. induction stdin as [|line rest IH]; intros fs out.
  - cbn. lia.
  - cbn [List.filter serve]. unfold decodable at 1.
    destruct (String.eqb (strip line) "") eqn:Eb; cbn [negb andb]; [apply IH |].
    destruct (json_loads H (strip line)) as [msg|] eqn:Em; cbn [is_some]; [| apply IH].
    destruct (handle_request H msg fs) as [[[resp|]|e] fs'].
    + specialize (IH fs' (out ++ [send_response resp])%list).
      rewrite length_app in IH. cbn [length] in *. lia.
    + specialize (IH fs' out). cbn [length]. lia.
    + cbn. lia.
Qed.

(* ===================================================================== *)
(** * Further properties: the handlers *)
(* ===================================================================== *)

Lemma get_project_config_reads_only (H : host) (arguments : json) (fs : filesystem) :
  snd (handle_get_project_config H arguments fs) = fs.
Proof.
  unfold handle_get_project_config.
  cbv beta iota delta [mbind M_mbind bind lift mret M_ret ret].
  destruct (check_repo_path arguments) as [[err|repo_path]|e]; try reflexivity.
  now destruct (is_null _).
Qed.

Lemma analyze_project_reads_only (H : host) (arguments : json) (fs : filesystem) :
  snd (handle_analyze_project H arguments fs) = fs.
Proof.
  unfold handle_analyze_project.
  cbv beta iota delta [mbind M_mbind bind lift mret M_ret ret].
  destruct (check_repo_path arguments) as [[err|repo_path]|e]; try reflexivity.
  destruct (negb _); [reflexivity |].
  now destruct (parse_scripts H fs repo_path _).
Qed.

(** Whatever the message and whatever the outcome, [handle_request]
    changes the file system only when the message is a call of the tool
    [configure_project]: the two other tools, and every other method, read
    at most. *)
Theorem only_configure_project_writes (H : host) (msg : json) (fs : filesystem) :
  snd (handle_request H msg fs) <> fs -> configure_call msg.
Proof.
  unfold handle_request.
  cbv beta iota delta [mbind M_mbind bind lift mret M_ret ret].
  destruct msg as [| | | | | |kv]; try (intros Hne; now contradiction Hne).
  cbv beta iota delta [get]. fold (method_of kv) (id_of kv).
  destruct (eq_str (method_of kv) "initialize"); [intros Hne; now contradiction Hne |].
  destruct (eq_str (method_of kv) "notifications/initialized");
    [intros Hne; now contradiction Hne |].
  destruct (eq_str (method_of kv) "tools/list"); [intros Hne; now contradiction Hne |].
  destruct (eq_str (method_of kv) "tools/call") eqn:Ecall.
  - apply eq_str_true in Ecall.
    destruct (dict_get kv "params" (JObj [])) as [| | | | | |params] eqn:Ep;
      try (intros Hne; now contradiction Hne).
    unfold TOOL_HANDLERS.
    destruct (dict_get params "name" (JStr "")) as [| | | |name| |] eqn:En;
      try (intros Hne; now contradiction Hne).
    destruct (String.eqb name "analyze_project").
    { pose proof (analyze_project_reads_only H (dict_get params "arguments" (JObj [])) fs)
        as Hro.
      destruct (handle_analyze_project H _ fs) as [[r|e] fs']; cbn [snd] in *;
        intros Hne; now contradiction Hne. }
    destruct (String.eqb_spec name "configure_project") as [->|_].
    { intros _. now exists kv, params. }
    destruct (String.eqb name "get_project_config").
    { pose proof (get_project_config_reads_only H (dict_get params "arguments" (JObj [])) fs)
        as Hro.
      destruct (handle_get_project_config H _ fs) as [[r|e] fs']; cbn [snd] in *;
        intros Hne; now contradiction Hne. }
    intros Hne; now contradiction Hne.
  - destruct (eq_str (method_of kv) "ping"); [intros Hne; now contradiction Hne |].
    destruct (negb (is_null (id_of kv))); intros Hne; now contradiction Hne.
Qed.

(** A call of [configure_project] that does change the file system. *)
Lemma only_configure_project_writes_witness :
  snd (handle_request (sample_host []) configure_message bare_repo) <> bare_repo
  /\ configure_call configure_message.
Proof.
  assert (Hne : snd (handle_request (sample_host []) configure_message bare_repo)
                <> bare_repo).
  { intros E. apply (f_equal (fun m : filesystem => m !! "/repo/.gitignore")) in E.
    vm_compute in E. discriminate E. }
  split; [exact Hne |].
  exact (only_configure_project_writes (sample_host []) configure_message bare_repo Hne).
Defined.

(** A [tools/call] whose tool name is none of the three, be it another
    string, a number, a boolean or absent, is answered with the tool error
    [Unknown tool: ...] under the id of the message, and changes nothing. *)
Theorem unknown_tool_is_reported (H : host) (kv params : list (string * json))
        (fs : filesystem) :
  method_of kv = JStr "tools/call" ->
  dict_get kv "params" (JObj []) = JObj params ->
  hashable (dict_get params "name" (JStr "")) = true ->
  known_tool (dict_get params "name" (JStr "")) = false ->
  handle_request H (JObj kv) fs =
    (Ret (Some (response (id_of kv)
                  (error_result ("Unknown tool: "
                                   +:+ py_str (dict_get params "name" (JStr "")))))),
     fs).
Proof.
  intros Hm Hp Hh Hk. unfold handle_request.
  cbv beta iota delta [mbind M_mbind bind lift mret M_ret ret get].
  fold (method_of kv) (id_of kv). rewrite Hm, Hp. cbn [eq_str String.eqb Ascii.eqb Bool.eqb].
  unfold known_tool in Hk. unfold TOOL_HANDLERS.
  destruct (dict_get params "name" (JStr "")) as [| | | |name| |]; try discriminate;
    try reflexivity.
  cbn [eq_str] in Hk. apply orb_false_iff in Hk as [Hk H3].
  apply orb_false_iff in Hk as [H1 H2]. now rewrite H1, H2, H3.
Qed.

(** A call of the tool [deploy], which does not exist. *)
Lemma unknown_tool_is_reported_witness :
  let params := [("name", JStr "deploy")] in
  let kv := [("id", JInt 3); ("method", JStr "tools/call"); ("params", JObj params)] in
  handle_request (sample_host []) (JObj kv) bare_repo =
    (Ret (Some (response (JInt 3) (error_result "Unknown tool: deploy"))), bare_repo).
Proof.
  intros params kv.
  exact (unknown_tool_is_reported (sample_host []) kv params bare_repo
           eq_refl eq_refl eq_refl eq_refl).
Defined.

(** A message with a non-null id whose method is none of the five the
    server knows (another string, or no string at all) is answered with the
    JSON-RPC error -32601 that names the method; nothing is changed. *)
Theorem unknown_method_is_reported (H : host) (kv : list (string * json))
        (fs : filesystem) :
  request_method (method_of kv) = false ->
  eq_str (method_of kv) "notifications/initialized" = false ->
  is_null (id_of kv) = false ->
  handle_request H (JObj kv) fs =
    (Ret (Some (JObj [("jsonrpc", JStr "2.0");
                      ("id", id_of kv);
                      ("error",
                       JObj [("code", JInt (-32601));
                             ("message",
                              JStr ("Method not found: " +:+ py_str (method_of kv)))])])),
     fs).
Proof.
  intros Hr Hn Hi. unfold handle_request.
  cbv beta iota delta [mbind M_mbind bind lift mret M_ret ret get].
  fold (method_of kv) (id_of kv).
  unfold request_method in Hr.
  apply orb_false_iff in Hr as [Hr H4]. apply orb_false_iff in Hr as [Hr H3].
  apply orb_false_iff in Hr as [H1 H2].
  now rewrite H1, Hn, H2, H3, H4, Hi.
Qed.

(** A request for the method [resources/list], which the server does not
    have. *)
Lemma unknown_method_is_reported_witness :
  let kv := [("jsonrpc", JStr "2.0"); ("id", JInt 9); ("method", JStr "resources/list")] in
  handle_request (sample_host []) (JObj kv) bare_repo =
    (Ret (Some (JObj [("jsonrpc", JStr "2.0");
                      ("id", JInt 9);
                      ("error",
                       JObj [("code", JInt (-32601));
                             ("message", JStr "Method not found: resources/list")])])),
     bare_repo).
Proof.
  intros kv.
  exact (unknown_method_is_reported (sample_host []) kv bare_repo eq_refl eq_refl eq_refl).
Defined.

Lemma check_repo_path_missing (arguments : json) :
  dict_like arguments = true ->
  truthy (repo_path_of arguments) = false ->
  check_repo_path arguments = Ret (inl (error_result "Missing required parameter: repoPath")).
Proof.
  unfold dict_like, repo_path_of, check_repo_path.
  destruct (or_empty_dict arguments) as [| | | | | |kv]; try discriminate.
  intros _ Hf. cbn [get mbind res_mbind res_bind]. now rewrite Hf.
Qed.

Lemma check_repo_path_relative (arguments : json) (p : string) :
  repo_path_of arguments = JStr p ->
  p <> "" ->
  startswith p "/" = false ->
  check_repo_path arguments = Ret (inl (error_result "repoPath must be an absolute path")).
Proof.
  unfold repo_path_of, check_repo_path.
  destruct (or_empty_dict arguments) as [| | | | | |kv]; try discriminate.
  intros Hp Hne Hrel. cbn [get mbind res_mbind res_bind]. rewrite Hp.
  cbn [truthy value_startswith]. apply String.eqb_neq in Hne. rewrite Hne, Hrel.
  reflexivity.
Qed.

Lemma check_repo_path_absolute (arguments : json) (p : string) :
  repo_path_of arguments = JStr p ->
  startswith p "/" = true ->
  check_repo_path arguments = Ret (inr p).
Proof.
  unfold repo_path_of, check_repo_path.
  destruct (or_empty_dict arguments) as [| | | | | |kv]; try discriminate.
  intros Hp Habs. cbn [get mbind res_mbind res_bind]. rewrite Hp.
  cbn [truthy value_startswith].
  destruct p as [|c p]; [discriminate |]. cbn [String.eqb negb]. now rewrite Habs.
Qed.

(** All three tools answer arguments without a usable [repoPath] (no
    arguments at all, an empty object, a null, empty or otherwise false
    [repoPath]) with the tool error [Missing required parameter: repoPath],
    and a [repoPath] that is a non-empty string not starting with [/] with
    the tool error [repoPath must be an absolute path]; in both cases the
    file system is not touched. *)
Theorem bad_repo_path_is_reported (H : host) (arguments : json) (fs : filesystem) :
  (dict_like arguments = true ->
   truthy (repo_path_of arguments) = false ->
   let missing := (Ret (error_result "Missing required parameter: repoPath"), fs) in
   handle_analyze_project H arguments fs = missing
   /\ handle_configure_project arguments fs = missing
   /\ handle_get_project_config H arguments fs = missing)
  /\ (forall p,
         repo_path_of arguments = JStr p ->
         p <> "" ->
         startswith p "/" = false ->
         let relative := (Ret (error_result "repoPath must be an absolute path"), fs) in
         handle_analyze_project H arguments fs = relative
         /\ handle_configure_project arguments fs = relative
         /\ handle_get_project_config H arguments fs = relative).
Proof.
  split.
  - intros Hd Hf missing. subst missing.
    unfold handle_analyze_project, handle_configure_project, handle_get_project_config.
    rewrite (check_repo_path_missing arguments Hd Hf). repeat split.
  - intros p Hp Hne Hrel relative. subst relative.
    unfold handle_analyze_project, handle_configure_project, handle_get_project_config.
    rewrite (check_repo_path_relative arguments p Hp Hne Hrel). repeat split.
Qed.

(** A call without arguments, and a call with a relative path. *)
Lemma bad_repo_path_is_reported_witness :
  handle_configure_project JNull bare_repo
  = (Ret (error_result "Missing required parameter: repoPath"), bare_repo)
  /\ handle_get_project_config (sample_host []) (JObj [("repoPath", JStr "repo")]) bare_repo
     = (Ret (error_result "repoPath must be an absolute path"), bare_repo).
Proof.
  split.
  - destruct (bad_repo_path_is_reported (sample_host []) JNull bare_repo) as [Hm _].
    exact (proj1 (proj2 (Hm eq_refl eq_refl))).
  - destruct (bad_repo_path_is_reported (sample_host [])
                (JObj [("repoPath", JStr "repo")]) bare_repo) as [_ Hr].
    assert (Hne : "repo" <> "") by discriminate.
    exact (proj2 (proj2 (Hr "repo" eq_refl Hne eq_refl))).
Defined.





(* ===================================================================== *)
(** * Further properties: the config store *)
(* ===================================================================== *)

(** What [write_config] does, case by case. *)
Lemma write_config_outcome (repo_path : string) (config : json) (fs : filesystem) :
  write_config repo_path config fs =
    if isfile fs (config_dir_path repo_path)
    then (Raise (os_error 17 "File exists" (repr_str (config_dir_path repo_path))), fs)
    else if isdir fs (config_tmp_path repo_path)
    then (Raise (os_error 21 "Is a directory" (repr_str (config_tmp_path repo_path))),
          <[config_dir_path repo_path := Dir]> fs)
    else if isdir fs (config_file_path repo_path)
    then (Raise (os_error 21 "Is a directory"
                   (repr_str (config_tmp_path repo_path) +:+ " -> "
                      +:+ repr_str (config_file_path repo_path))),
          staged repo_path config fs)
    else (Ret tt, written_config repo_path config fs).
Proof.
  pose proof (config_tmp_neq_dir repo_path) as Htd.
  pose proof (config_tmp_neq_file repo_path) as Htc.
  pose proof (config_file_neq_dir repo_path) as Hcd.
  unfold write_config. rewrite write_config_ops_shape.
  cbn [app run]. unfold bind at 1. cbn [exec]. unfold isfile, isdir.
  assert (Hrest : forall fs0 : filesystem,
             (bind (exec (OpenW (config_tmp_path repo_path)))
                (fun _ => run ((write_chars (config_tmp_path repo_path) (dumps_pretty config)
                                  ++ [WriteTo (config_tmp_path repo_path) NL])
                                 ++ [Replace (config_tmp_path repo_path)
                                       (config_file_path repo_path)]))) fs0
             = match fs0 !! config_tmp_path repo_path with
               | Some Dir =>
                   (Raise (os_error 21 "Is a directory"
                             (repr_str (config_tmp_path repo_path))), fs0)
               | _ =>
                   match fs0 !! config_file_path repo_path with
                   | Some Dir =>
                       (Raise (os_error 21 "Is a directory"
                                 (repr_str (config_tmp_path repo_path) +:+ " -> "
                                    +:+ repr_str (config_file_path repo_path))),
                        <[config_tmp_path repo_path := File (config_text config)]> fs0)
                   | _ =>
                       (Ret tt,
                        <[config_file_path repo_path := File (config_text config)]>
                          (delete (config_tmp_path repo_path) fs0))
                   end
               end).
  { intros fs0. unfold bind at 1. cbn [exec].
    assert (Hgo : run ((write_chars (config_tmp_path repo_path) (dumps_pretty config)
                          ++ [WriteTo (config_tmp_path repo_path) NL])
                         ++ [Replace (config_tmp_path repo_path)
                               (config_file_path repo_path)])
                      (<[config_tmp_path repo_path := File ""]> fs0)
                  = match fs0 !! config_file_path repo_path with
                    | Some Dir =>
                        (Raise (os_error 21 "Is a directory"
                                  (repr_str (config_tmp_path repo_path) +:+ " -> "
                                     +:+ repr_str (config_file_path repo_path))),
                         <[config_tmp_path repo_path := File (config_text config)]> fs0)
                    | _ =>
                        (Ret tt,
                         <[config_file_path repo_path := File (config_text config)]>
                           (delete (config_tmp_path repo_path) fs0))
                    end).
    { rewrite !run_app, (write_chars_run _ _ "") by apply lookup_insert_eq.
      cbn [run]. unfold bind. cbn [exec]. rewrite insert_insert_eq, lookup_insert_eq.
      unfold ret. rewrite insert_insert_eq, lookup_insert_eq.
      rewrite lookup_insert_ne by congruence.
      fold (config_text config). change ("" +:+ dumps_pretty config +:+ NL)
        with (config_text config).
      destruct (fs0 !! config_file_path repo_path) as [[]|];
        try rewrite delete_insert_eq; reflexivity. }
    destruct (fs0 !! config_tmp_path repo_path) as [[]|]; [exact Hgo | reflexivity | exact Hgo]. }
  destruct (fs !! config_dir_path repo_path) as [[]|] eqn:Ed.
  - reflexivity.
  - rewrite Hrest. unfold staged, written_config.
    rewrite (insert_id fs _ _ Ed).
    destruct (fs !! config_tmp_path repo_path) as [[]|];
      destruct (fs !! config_file_path repo_path) as [[]|]; reflexivity.
  - rewrite Hrest. unfold staged, written_config.
    rewrite !lookup_insert_ne by congruence.
    destruct (fs !! config_tmp_path repo_path) as [[]|];
      destruct (fs !! config_file_path repo_path) as [[]|]; reflexivity.
Qed.

(** The three ways [write_config] fails, and what each leaves behind: a
    config directory that is a regular file stops it before anything is
    changed; a temporary path that is a directory stops it once the config
    directory is made; a config path that is a directory makes the replace
    fail, and then the temporary file stays, with the whole text, and is
    not cleaned up. *)
Theorem write_config_failures (repo_path : string) (config : json) (fs : filesystem) :
  (isfile fs (config_dir_path repo_path) = true ->
   write_config repo_path config fs
   = (Raise (os_error 17 "File exists" (repr_str (config_dir_path repo_path))), fs))
  /\ (isfile fs (config_dir_path repo_path) = false ->
      isdir fs (config_tmp_path repo_path) = true ->
      write_config repo_path config fs
      = (Raise (os_error 21 "Is a directory" (repr_str (config_tmp_path repo_path))),
         <[config_dir_path repo_path := Dir]> fs))
  /\ (isfile fs (config_dir_path repo_path) = false ->
      isdir fs (config_tmp_path repo_path) = false ->
      isdir fs (config_file_path repo_path) = true ->
      write_config repo_path config fs
      = (Raise (os_error 21 "Is a directory"
                  (repr_str (config_tmp_path repo_path) +:+ " -> "
                     +:+ repr_str (config_file_path repo_path))),
         staged repo_path config fs)
      /\ staged repo_path config fs !! config_tmp_path repo_path
         = Some (File (dumps_pretty config +:+ NL))
      /\ staged repo_path config fs !! config_file_path repo_path = Some Dir).
Proof.
  split; [| split].
  - intros Hd. now rewrite write_config_outcome, Hd.
  - intros Hd Ht. now rewrite write_config_outcome, Hd, Ht.
  - intros Hd Ht Hc. rewrite write_config_outcome, Hd, Ht, Hc.
    split; [reflexivity |]. unfold staged. split; [apply lookup_insert_eq |].
    rewrite lookup_insert_ne by apply config_tmp_neq_file.
    rewrite lookup_insert_ne
      by (intros E; symmetry in E; now apply config_file_neq_dir in E).
    unfold isdir in Hc. now destruct (fs !! config_file_path repo_path) as [[]|].
Qed.

(** A config path that is a directory: the write raises and the temporary
    file is left behind. *)
Lemma write_config_failures_witness :
  fst (write_config "/repo" (JObj []) odd_config_repo)
  = Raise (os_error 21 "Is a directory"
             (repr_str "/repo/.wtmux/config.json.tmp" +:+ " -> "
                +:+ repr_str "/repo/.wtmux/config.json"))
  /\ snd (write_config "/repo" (JObj []) odd_config_repo) !! "/repo/.wtmux/config.json.tmp"
     = Some (File (dumps_pretty (JObj []) +:+ NL)).
Proof.
  destruct (write_config_failures "/repo" (JObj []) odd_config_repo) as (_ & _ & H3).
  destruct (H3 eq_refl eq_refl eq_refl) as (Hrun & Htmp & _).
  rewrite Hrun. split; [reflexivity | exact Htmp].
Defined.

(** In a repository directory, [write_config] changes nothing but the
    config directory, the config file and its temporary sibling, whether
    it goes through or fails. *)
Theorem write_config_touches_three_paths (repo_path : string) (config : json)
        (fs : filesystem) (q : string) :
  isdir fs repo_path = true ->
  q <> config_dir_path repo_path ->
  q <> config_tmp_path repo_path ->
  q <> config_file_path repo_path ->
  snd (write_config repo_path config fs) !! q = fs !! q.
Proof.
  intros _ Hd Ht Hc. rewrite write_config_outcome.
  unfold staged, written_config.
  destruct (isfile fs _); [reflexivity |].
  destruct (isdir fs (config_tmp_path repo_path)); cbn [snd];
    [now rewrite lookup_insert_ne by congruence |].
  destruct (isdir fs (config_file_path repo_path)); cbn [snd].
  - now rewrite !lookup_insert_ne by congruence.
  - rewrite lookup_insert_ne by congruence. rewrite lookup_delete_ne by congruence.
    now rewrite lookup_insert_ne by congruence.
Qed.

(** The ignore file of a repository survives a config write. *)
Lemma write_config_touches_three_paths_witness :
  let fs : filesystem :=
    list_to_map [("/repo", Dir); ("/repo/.gitignore", File "dist")] in
  isdir fs "/repo" = true
  /\ snd (write_config "/repo" (JObj []) fs) !! "/repo/.gitignore" = Some (File "dist").
Proof.
  intros fs. split; [reflexivity |].
  assert (H1 : "/repo/.gitignore" <> config_dir_path "/repo") by (vm_compute; discriminate).
  assert (H2 : "/repo/.gitignore" <> config_tmp_path "/repo") by (vm_compute; discriminate).
  assert (H3 : "/repo/.gitignore" <> config_file_path "/repo") by (vm_compute; discriminate).
  rewrite (write_config_touches_three_paths "/repo" (JObj []) fs "/repo/.gitignore"
             eq_refl H1 H2 H3).
  reflexivity.
Defined.

(** A [write_config] that went through can be repeated: the second write
    goes through as well and leaves the file system as the first left it.
    After it the config file holds the text and there is no temporary
    file. *)
Theorem write_config_idempotent (repo_path : string) (config : json)
        (fs fs1 : filesystem) :
  write_config repo_path config fs = (Ret tt, fs1) ->
  write_config repo_path config fs1 = (Ret tt, fs1)
  /\ fs1 !! config_file_path repo_path = Some (File (dumps_pretty config +:+ NL))
  /\ fs1 !! config_tmp_path repo_path = None
  /\ fs1 !! config_dir_path repo_path = Some Dir.
Proof.
  pose proof (config_tmp_neq_dir repo_path) as Htd.
  pose proof (config_tmp_neq_file repo_path) as Htc.
  pose proof (config_file_neq_dir repo_path) as Hcd.
  rewrite write_config_outcome.
  destruct (isfile fs _); [discriminate |].
  destruct (isdir fs (config_tmp_path repo_path)); [discriminate |].
  destruct (isdir fs (config_file_path repo_path)); [discriminate |].
  intros [= <-].
  assert (Hc : written_config repo_path config fs !! config_file_path repo_path
               = Some (File (config_text config)))
    by (unfold written_config; apply lookup_insert_eq).
  assert (Ht : written_config repo_path config fs !! config_tmp_path repo_path = None).
  { unfold written_config. rewrite lookup_insert_ne by congruence.
    apply lookup_delete_eq. }
  assert (Hd : written_config repo_path config fs !! config_dir_path repo_path = Some Dir).
  { unfold written_config. rewrite lookup_insert_ne by congruence.
    rewrite lookup_delete_ne by congruence. apply lookup_insert_eq. }
  split; [| auto].
  rewrite write_config_outcome. unfold isfile, isdir. rewrite Hc, Ht, Hd.
  f_equal. apply map_eq. intros q.
  unfold written_config at 1.
  destruct (decide (q = config_file_path repo_path)) as [->|Hq1];
    [now rewrite lookup_insert_eq |].
  rewrite lookup_insert_ne by congruence.
  destruct (decide (q = config_tmp_path repo_path)) as [->|Hq2];
    [now rewrite lookup_delete_eq |].
  rewrite lookup_delete_ne by congruence.
  destruct (decide (q = config_dir_path repo_path)) as [->|Hq3];
    [now rewrite lookup_insert_eq |].
  now rewrite lookup_insert_ne by congruence.
Qed.

(** Writing a config into a fresh repository, twice. *)
Lemma write_config_idempotent_witness :
  exists fs1,
    write_config "/repo" (JObj [("setupCommands", JArr [])]) bare_repo = (Ret tt, fs1)
    /\ write_config "/repo" (JObj [("setupCommands", JArr [])]) fs1 = (Ret tt, fs1).
Proof.
  eexists. split; [vm_compute; reflexivity |].
  refine (proj1 (write_config_idempotent "/repo" (JObj [("setupCommands", JArr [])])
                   bare_repo _ _)).
  vm_compute. reflexivity.
Defined.

(* ===================================================================== *)
(** * Further properties: configure_project *)
(* ===================================================================== *)

Lemma gitignore_neq_config_dir (repo_path : string) :
  gitignore_path repo_path <> config_dir_path repo_path.
Proof.
  pose proof (path_join_length repo_path ".gitignore" eq_refl) as Hg.
  pose proof (path_join_length repo_path ".wtmux" eq_refl) as Hd.
  unfold gitignore_path, config_dir_path, CONFIG_DIR. simpl String.length in *.
  intros E. apply (f_equal String.length) in E. lia.
Qed.

(** An ignore path that is a directory makes [ensure_gitignore] raise,
    with nothing changed. *)
Lemma ensure_gitignore_on_directory (repo_path : string) (fs : filesystem) :
  isdir fs (gitignore_path repo_path) = true ->
  ensure_gitignore repo_path fs
  = (Raise (os_error 21 "Is a directory" (repr_str (gitignore_path repo_path))), fs).
Proof.
  intros Hd. unfold ensure_gitignore. fold (gitignore_path repo_path).
  remember (gitignore_path repo_path) as p eqn:Hp.
  unfold isfile, isdir in *.
  destruct (fs !! p) as [[c|]|] eqn:E; try discriminate.
  cbv beta iota delta [mbind M_mbind bind lift mret M_ret ret].
  destruct (existsb is_entry (split nl "")) eqn:Ex; [discriminate Ex |].
  cbv beta iota delta [run exec bind ret]. now rewrite E.
Qed.

(** When the config directory cannot be made because [.wtmux] is a
    regular file, a call that passed all checks returns the tool error
    [Failed to write config: ...] with the text of the [OSError], and the
    file system is as it was. *)
Theorem configure_project_reports_write_error (fs : filesystem)
        (kv : list (string * json)) (repo_path : string) (items : list json) :
  call_accepted fs kv repo_path ->
  iterate (dict_get kv "runConfigurations" (JArr [])) = Ret items ->
  find stops_indexed (enumerate_from 0 items) = None ->
  isfile fs (config_dir_path repo_path) = true ->
  handle_configure_project (JObj kv) fs
  = (Ret (error_result ("Failed to write config: [Errno 17] File exists: "
                          +:+ repr_str (config_dir_path repo_path))), fs).
Proof.
  intros Hcall Hitems Hnone Hd.
  rewrite (configure_project_run fs kv repo_path items Hcall Hitems).
  rewrite run_configs_loop_spec, Hnone. cbn [app].
  rewrite write_config_outcome, Hd. reflexivity.
Qed.

(** [.wtmux] is a regular file. *)
Lemma configure_project_reports_write_error_witness :
  handle_configure_project (JObj call_without_port) blocked_repo
  = (Ret (error_result "Failed to write config: [Errno 17] File exists: '/repo/.wtmux'"),
     blocked_repo).
Proof.
  assert (Hcall : call_accepted blocked_repo call_without_port "/repo")
    by (repeat split; reflexivity).
  exact (configure_project_reports_write_error blocked_repo call_without_port "/repo"
           [web_runner] Hcall eq_refl eq_refl eq_refl).
Defined.

(** When the ignore file cannot be written because [.gitignore] is a
    directory, a call that passed all checks returns the tool error
    [Failed to write config: ...] although the config file has been
    written: the error comes after the replace, and nothing is undone. *)
Theorem configure_project_ignore_error_after_write (fs : filesystem)
        (kv : list (string * json)) (repo_path : string) (items : list json) :
  call_accepted fs kv repo_path ->
  iterate (dict_get kv "runConfigurations" (JArr [])) = Ret items ->
  find stops_indexed (enumerate_from 0 items) = None ->
  isfile fs (config_dir_path repo_path) = false ->
  isdir fs (config_tmp_path repo_path) = false ->
  isdir fs (config_file_path repo_path) = false ->
  isdir fs (gitignore_path repo_path) = true ->
  exists fs',
    handle_configure_project (JObj kv) fs
    = (Ret (error_result ("Failed to write config: [Errno 21] Is a directory: "
                            +:+ repr_str (gitignore_path repo_path))), fs')
    /\ fs' !! config_file_path repo_path
       = Some (File (dumps_pretty (config_of kv (entries_from 0 items)) +:+ NL)).
Proof.
  intros Hcall Hitems Hnone Hd Ht Hc Hg.
  rewrite (configure_project_run fs kv repo_path items Hcall Hitems).
  rewrite run_configs_loop_spec, Hnone. cbn [app].
  rewrite write_config_outcome, Hd, Ht, Hc.
  set (fs1 := written_config repo_path (config_of kv (entries_from 0 items)) fs).
  assert (Hg1 : isdir fs1 (gitignore_path repo_path) = true).
  { unfold isdir, fs1, written_config.
    destruct (gitignore_path_apart repo_path) as [Hgc Hgt].
    pose proof (gitignore_neq_config_dir repo_path) as Hgd.
    rewrite lookup_insert_ne by congruence. rewrite lookup_delete_ne by congruence.
    rewrite lookup_insert_ne by congruence. exact Hg. }
  rewrite (ensure_gitignore_on_directory repo_path fs1 Hg1).
  exists fs1. split; [reflexivity |].
  unfold fs1, written_config. apply lookup_insert_eq.
Qed.

(** [.gitignore] is a directory. *)
Lemma configure_project_ignore_error_after_write_witness :
  exists fs',
    handle_configure_project (JObj call_without_port) odd_ignore_repo
    = (Ret (error_result
              "Failed to write config: [Errno 21] Is a directory: '/repo/.gitignore'"),
       fs')
    /\ is_some (fs' !! "/repo/.wtmux/config.json") = true.
Proof.
  assert (Hcall : call_accepted odd_ignore_repo call_without_port "/repo")
    by (repeat split; reflexivity).
  destruct (configure_project_ignore_error_after_write odd_ignore_repo call_without_port
              "/repo" [web_runner] Hcall eq_refl eq_refl eq_refl eq_refl eq_refl eq_refl)
    as (fs' & Hrun & Hfile).
  exists fs'. split; [exact Hrun |].
  change "/repo/.wtmux/config.json" with (config_file_path "/repo").
  now rewrite Hfile.
Defined.

Lemma is_null_true (v : json) : is_null v = true -> v = JNull.
Proof. now destruct v. Qed.

Lemma truthy_not_null (v : json) : truthy v = true -> is_null v = false.
Proof. now destruct v. Qed.

(** The members of the configuration [build_config] makes. *)
Lemma build_config_fields (e s : json) (rcs : list json) (t p d w : json) :
  let c := build_config e s rcs t p d w in
  field "envFilesToCopy" c = e
  /\ field "setupCommands" c = s
  /\ field "runConfigurations" c = JArr rcs
  /\ (has_field "terminalStartCommand" c = negb (is_null t)
      /\ field "terminalStartCommand" c = t)
  /\ (has_field "projectName" c = negb (is_null p) /\ field "projectName" c = p)
  /\ (has_field "defaultBranch" c = negb (is_null d) /\ field "defaultBranch" c = d)
  /\ (has_field "worktreeBasePath" c = negb (is_null w) /\ field "worktreeBasePath" c = w).
Proof.
  unfold build_config, set_if_not_none.
  destruct (is_null t) eqn:Et; [apply is_null_true in Et as ->|];
    (destruct (is_null p) eqn:Ep; [apply is_null_true in Ep as ->|]);
    (destruct (is_null d) eqn:Ed; [apply is_null_true in Ed as ->|]);
    (destruct (is_null w) eqn:Ew; [apply is_null_true in Ew as ->|]);
    cbn; repeat split.
Qed.

(** What the persisted configuration holds. For a call that passes the
    checks, stops at no port and meets no obstacle, the config file is the
    pretty text of a configuration that is built from the arguments alone,
    so nothing of an earlier config file survives. In it
    [terminalStartCommand] is [claude] whenever [startClaudeInTerminals] is
    true, whatever command the caller named, and otherwise the caller's
    command if that is a true value, and absent if not; [projectName],
    [defaultBranch] and [worktreeBasePath] are members exactly when the
    caller gave them a value that is not null; [envFilesToCopy] and
    [setupCommands] are the caller's, or empty lists. *)
Theorem configure_project_config_content (fs : filesystem) (kv : list (string * json))
        (repo_path : string) (items : list json) :
  call_accepted fs kv repo_path ->
  iterate (dict_get kv "runConfigurations" (JArr [])) = Ret items ->
  find stops_indexed (enumerate_from 0 items) = None ->
  writable fs repo_path ->
  let config := config_of kv (entries_from 0 items) in
  snd (handle_configure_project (JObj kv) fs) !! config_file_path repo_path
  = Some (File (dumps_pretty config +:+ NL))
  /\ (truthy (dict_get kv "startClaudeInTerminals" JNull) = true ->
      field "terminalStartCommand" config = JStr "claude")
  /\ (truthy (dict_get kv "startClaudeInTerminals" JNull) = false ->
      has_field "terminalStartCommand" config
      = truthy (dict_get kv "terminalStartCommand" JNull)
      /\ (truthy (dict_get kv "terminalStartCommand" JNull) = true ->
          field "terminalStartCommand" config = dict_get kv "terminalStartCommand" JNull))
  /\ (forall k, In k ["projectName"; "defaultBranch"; "worktreeBasePath"] ->
                has_field k config = negb (is_null (dict_get kv k JNull))
                /\ field k config = dict_get kv k JNull)
  /\ field "envFilesToCopy" config = dict_get kv "envFilesToCopy" (JArr [])
  /\ field "setupCommands" config = dict_get kv "setupCommands" (JArr [])
  /\ field "runConfigurations" config = JArr (entries_from 0 items).
Proof.
  intros Hcall Hitems Hnone Hw config.
  split; [now apply configure_project_persists |].
  subst config. unfold config_of.
  match goal with
  | |- context [build_config ?e ?s ?rcs ?t ?p ?d ?w] =>
      destruct (build_config_fields e s rcs t p d w)
        as (He & Hs & Hr & [Hht Hft] & Hp & Hd & Hwt)
  end.
  split; [| split; [| split; [| split; [| split]]]].
  - intros Hc. rewrite Hft, Hc. reflexivity.
  - intros Hc. rewrite Hht, Hft, Hc.
    destruct (truthy (dict_get kv "terminalStartCommand" JNull)) eqn:Et.
    + split; [| reflexivity]. now rewrite (truthy_not_null _ Et).
    + split; [reflexivity | discriminate].
  - intros k [<-|[<-|[<-|[]]]]; assumption.
  - exact He.
  - exact Hs.
  - exact Hr.
Qed.

(** A call that names [zsh] as terminal command and asks for Claude in
    terminals: the persisted command is [claude]. *)
Lemma configure_project_config_content_witness :
  call_accepted bare_repo call_with_claude "/repo"
  /\ writable bare_repo "/repo"
  /\ snd (handle_configure_project (JObj call_with_claude) bare_repo)
       !! "/repo/.wtmux/config.json"
     = Some (File (dumps_pretty
                     (JObj [("envFilesToCopy", JArr []);
                            ("setupCommands", JArr []);
                            ("runConfigurations", JArr []);
                            ("terminalStartCommand", JStr "claude");
                            ("projectName", JStr "demo")])
                   +:+ NL)).
Proof.
  assert (Hcall : call_accepted bare_repo call_with_claude "/repo")
    by (repeat split; reflexivity).
  assert (Hw : writable bare_repo "/repo") by (repeat split; reflexivity).
  split; [exact Hcall |]. split; [exact Hw |].
  exact (proj1 (configure_project_config_content bare_repo call_with_claude "/repo" []
                  Hcall eq_refl eq_refl Hw)).
Defined.

Lemma entries_from_members (i : nat) (items : list json) :
  length (entries_from i items) = length (List.filter kept items)
  /\ Forall (fun e => keys e = run_config_keys) (entries_from i items)
  /\ map (field "name") (entries_from i items)
     = map (field "name") (List.filter kept items)
  /\ map (field "command") (entries_from i items)
     = map (field "command") (List.filter kept items)
  /\ map (field "autoStart") (entries_from i items)
     = map (fun rc => if has_field "autoStart" rc then field "autoStart" rc
                      else JBool false)
           (List.filter kept items).
Proof.
  revert i. induction items as [|rc items IH]; intros i.
  - repeat split; constructor.
  - rewrite entries_from_cons. cbn [List.filter].
    destruct (IH (S i)) as (IH1 & IH2 & IH3 & IH4 & IH5).
    destruct (kept rc) eqn:Hk; [| now repeat split].
    destruct rc as [| | | | | |kv]; try discriminate.
    cbn [length map]. rewrite IH1, IH3, IH4, IH5.
    split; [reflexivity |]. split; [constructor; [reflexivity | exact IH2] |].
    split; [reflexivity |]. split; [reflexivity |].
    f_equal. cbn [entry_of field has_field]. unfold dict_get.
    cbn [lookup_field String.eqb Ascii.eqb Bool.eqb].
    now destruct (lookup_field "autoStart" kv).
Qed.

(** What a completed loop over [runConfigurations] has collected: one
    entry for each kept element, in the caller's order, each with exactly
    the five members name, command, port, autoStart and order; name and
    command are the caller's, autoStart is false unless the caller gave
    it, and any other member of the caller's element is dropped. *)
Theorem persisted_entries_have_five_members (items run_configs : list json) :
  run_configs_loop 0 items [] = Completed run_configs ->
  length run_configs = length (List.filter kept items)
  /\ Forall (fun e => keys e = run_config_keys) run_configs
  /\ map (field "name") run_configs = map (field "name") (List.filter kept items)
  /\ map (field "command") run_configs = map (field "command") (List.filter kept items)
  /\ map (field "autoStart") run_configs
     = map (fun rc => if has_field "autoStart" rc then field "autoStart" rc
                      else JBool false)
           (List.filter kept items).
Proof.
  rewrite run_configs_loop_spec.
  destruct (find stops_indexed (enumerate_from 0 items)); [discriminate |].
  intros [= <-]. cbn [app]. apply entries_from_members.
Qed.

(** A runner with a stray member [cwd] between two elements that are
    skipped. *)
Lemma persisted_entries_have_five_members_witness :
  let runner := JObj [("cwd", JStr "app"); ("name", JStr "web");
                      ("command", JStr "npm run dev")] in
  exists e,
    run_configs_loop 0 [JNull; runner; JObj [("name", JStr "x")]] [] = Completed [e]
    /\ keys e = ["name"; "command"; "port"; "autoStart"; "order"]
    /\ field "autoStart" e = JBool false.
Proof.
  intros runner. eexists. split; [reflexivity |].
  destruct (persisted_entries_have_five_members
              [JNull; runner; JObj [("name", JStr "x")]] _ eq_refl)
    as (_ & Hkeys & _ & _ & Hauto).
  split; [now inversion Hkeys |].
  exact (f_equal (fun l => List.hd JNull l) Hauto).
Defined.

Lemma port_rejected_spec (port : json) :
  port_rejected port = true <-> ~ (integer_port port \/ port = JBool true).
Proof.
  unfold port_rejected, integer_port. split.
  - intros Hr [(z & -> & Hz) | ->]; cbn [as_int] in Hr; [| discriminate].
    apply orb_true_iff in Hr as [H1|H1]; lia.
  - intros Hn. destruct port as [|b|z|r|s|l|kv]; [| destruct b | | | | |];
      cbn [as_int]; try reflexivity.
    + exfalso. apply Hn. now right.
    + destruct (z <? 1) eqn:E1; [reflexivity |].
      destruct (z >? 65535) eqn:E2; [reflexivity |].
      exfalso. apply Hn. left. exists z. split; [reflexivity | lia].
Qed.

Lemma find_stops_first (before after : list json) (rc : json) (i : nat) :
  Forall (fun x => stops_indexed (0%nat, x) = false) before ->
  stops_indexed (0%nat, rc) = true ->
  find stops_indexed (enumerate_from i (before ++ rc :: after))
  = Some ((i + length before)%nat, rc).
Proof.
  intros Hb Hrc. revert i. induction Hb as [|x before Hx _ IH]; intros i.
  - cbn [app enumerate_from find length]. unfold stops_indexed in *. cbn [snd] in *.
    rewrite Hrc. f_equal. f_equal. lia.
  - cbn [app enumerate_from find length]. unfold stops_indexed in *. cbn [snd] in *.
    rewrite Hx, IH. f_equal. f_equal. lia.
Qed.

(** A port that is given, is no integer from 1 to 65535 and is not the
    boolean [true] stops the call, when it belongs to a kept element and no
    kept element before it has such a port: the call returns the tool error
    that names this port and this element, and the file system is as it
    was, whatever valid elements came first. *)
Theorem invalid_port_is_rejected (fs : filesystem) (kv : list (string * json))
        (repo_path : string) (before after : list json) (rc : json) :
  call_accepted fs kv repo_path ->
  iterate (dict_get kv "runConfigurations" (JArr [])) = Ret (before ++ rc :: after)%list ->
  Forall (fun x => kept x = true ->
                   field "port" x = JNull \/ integer_port (field "port" x)) before ->
  kept rc = true ->
  field "port" rc <> JNull ->
  ~ integer_port (field "port" rc) ->
  field "port" rc <> JBool true ->
  handle_configure_project (JObj kv) fs
  = (Ret (error_result ("Invalid port " +:+ py_str (field "port" rc)
                          +:+ " for '" +:+ py_str (field "name" rc)
                          +:+ "'. Must be 1-65535.")), fs).
Proof.
  intros Hcall Hitems Hbefore Hk Hnn Hni Hnt.
  assert (Hb : Forall (fun x => stops_indexed (0%nat, x) = false) before).
  { eapply List.Forall_impl; [| exact Hbefore]. intros x Hx.
    unfold stops_indexed, port_stops. cbn [snd].
    cbv beta in Hx. destruct (kept x); [| reflexivity]. cbn [andb].
    destruct (Hx eq_refl) as [-> | Hi]; [reflexivity |].
    destruct (port_rejected (field "port" x)) eqn:Er; [| apply andb_false_r].
    apply port_rejected_spec in Er. exfalso. apply Er. now left. }
  assert (Hrc : stops_indexed (0%nat, rc) = true).
  { unfold stops_indexed, port_stops. cbn [snd]. rewrite Hk. cbn [andb].
    apply andb_true_iff. split.
    - destruct (field "port" rc); try reflexivity. now contradiction Hnn.
    - apply port_rejected_spec. tauto. }
  rewrite (configure_project_rejects fs kv repo_path _ _ Hcall Hitems
             (find_stops_first before after rc 0 Hb Hrc)).
  reflexivity.
Qed.

(** Port 70000 on the second runner, after a runner with port 8080. *)
Lemma invalid_port_is_rejected_witness :
  handle_configure_project (JObj call_with_port_70000) bare_repo
  = (Ret (error_result "Invalid port 70000 for 'web'. Must be 1-65535."), bare_repo).
Proof.
  assert (Hcall : call_accepted bare_repo call_with_port_70000 "/repo")
    by (repeat split; reflexivity).
  refine (invalid_port_is_rejected bare_repo call_with_port_70000 "/repo"
            [JObj [("name", JStr "api"); ("command", JStr "make run"); ("port", JInt 8080)]]
            []
            (JObj [("name", JStr "web"); ("command", JStr "npm run dev");
                   ("port", JInt 70000)])
            Hcall eq_refl _ eq_refl _ _ _).
  - constructor; [| constructor]. intros _. right. exists 8080. split; [reflexivity | lia].
  - discriminate.
  - intros (z & Hz & Hr). cbn in Hz. injection Hz as <-. lia.
  - discriminate.
Defined.

Lemma all_str_raises (l : list json) :
  Exists (fun v => forall s, v <> JStr s) l -> all_str l = Raise TypeError.
Proof.
  induction l as [|v l IH]; intros He; [inversion He |].
  apply List.Exists_cons in He as [Hv|Hl].
  - destruct v; try reflexivity. now contradiction (Hv s).
  - destruct v; try reflexivity. cbn [all_str]. now rewrite (IH Hl).
Qed.

Lemma build_summary_join_raises (repo_path : string) (files : list json)
      (setup_commands : json) (run_configs : list json) (terminal : json) (added : bool) :
  Exists (fun v => forall s, v <> JStr s) files ->
  build_summary repo_path (JArr files) setup_commands run_configs terminal added
  = Raise TypeError.
Proof.
  intros He. unfold build_summary, value_join.
  assert (Ht : truthy (JArr files) = true) by (destruct files; [inversion He | reflexivity]).
  rewrite Ht. cbn [iterate mbind res_mbind res_bind].
  now rewrite (all_str_raises files He).
Qed.

(** Two [TypeError]s that nothing catches. A [runConfigurations] that is
    null, a boolean or a number cannot be iterated: the call raises before
    anything is written. A list [envFilesToCopy] with an element that is
    not a string passes every check and is written to the config file; the
    exception comes afterwards, when the summary joins the names, so the
    call raises with the config file already written. *)
Theorem configure_project_type_errors (fs : filesystem) (kv : list (string * json))
        (repo_path : string) :
  call_accepted fs kv repo_path ->
  (forall v, lookup_field "runConfigurations" kv = Some v ->
             not_iterable v = true ->
             handle_configure_project (JObj kv) fs = (Raise TypeError, fs))
  /\ (forall items files,
         iterate (dict_get kv "runConfigurations" (JArr [])) = Ret items ->
         find stops_indexed (enumerate_from 0 items) = None ->
         writable fs repo_path ->
         lookup_field "envFilesToCopy" kv = Some (JArr files) ->
         Exists (fun v => forall s, v <> JStr s) files ->
         exists fs',
           handle_configure_project (JObj kv) fs = (Raise TypeError, fs')
           /\ fs' !! config_file_path repo_path
              = Some (File (dumps_pretty (config_of kv (entries_from 0 items)) +:+ NL))).
Proof.
  intros Hcall. split.
  - intros v Hv Hni. pose proof Hcall as (Hrepo & Habs & Hgit).
    unfold handle_configure_project.
    rewrite (check_repo_path_accepted fs kv repo_path Hcall).
    assert (Hargs : or_empty_dict (JObj kv) = JObj kv)
      by (unfold or_empty_dict; now destruct kv).
    rewrite Hargs.
    cbv beta iota delta [mbind M_mbind bind lift mret M_ret ret get].
    rewrite Hgit. cbn [negb].
    assert (Hdg : dict_get kv "runConfigurations" (JArr []) = v)
      by (unfold dict_get; now rewrite Hv).
    rewrite Hdg. now destruct v.
  - intros items files Hitems Hnone (Hd & Ht & Hc & Hg) Hfiles He.
    rewrite (configure_project_run fs kv repo_path items Hcall Hitems).
    rewrite run_configs_loop_spec, Hnone. cbn [app].
    rewrite write_config_outcome, Hd, Ht, Hc.
    set (fs1 := written_config repo_path (config_of kv (entries_from 0 items)) fs).
    assert (Hf1 : fs1 !! config_file_path repo_path
                  = Some (File (dumps_pretty (config_of kv (entries_from 0 items)) +:+ NL)))
      by (unfold fs1, written_config; apply lookup_insert_eq).
    pose proof (ensure_gitignore_frame repo_path (config_file_path repo_path) fs1) as Hfr.
    assert (Hsum : forall added,
               summary_of repo_path kv (entries_from 0 items) added = Raise TypeError).
    { intros added. unfold summary_of.
      assert (Hdg : dict_get kv "envFilesToCopy" (JArr []) = JArr files)
        by (unfold dict_get; now rewrite Hfiles).
      rewrite Hdg. now apply build_summary_join_raises. }
    assert (Hg1 : isdir fs1 (gitignore_path repo_path) = false).
    { unfold isdir, fs1, written_config.
      destruct (gitignore_path_apart repo_path) as [Hgc Hgt].
      pose proof (gitignore_neq_config_dir repo_path) as Hgd.
      rewrite lookup_insert_ne by congruence. rewrite lookup_delete_ne by congruence.
      rewrite lookup_insert_ne by congruence. exact Hg. }
    rewrite (ensure_gitignore_run repo_path fs1 Hg1) in *.
    destruct (existsb is_entry _); rewrite Hsum; cbn [snd] in Hfr.
    + exists fs1. split; [reflexivity | exact Hf1].
    + eexists. split; [reflexivity |]. rewrite Hfr; [exact Hf1 |].
      intros E. symmetry in E. now apply gitignore_path_apart in E.
Qed.

(** A null [runConfigurations], and a number among the env files. *)
Lemma configure_project_type_errors_witness :
  handle_configure_project (JObj call_with_null_runners) bare_repo
  = (Raise TypeError, bare_repo)
  /\ exists fs',
       handle_configure_project (JObj call_with_numeric_env_file) bare_repo
       = (Raise TypeError, fs')
       /\ is_some (fs' !! "/repo/.wtmux/config.json") = true.
Proof.
  split.
  - assert (Hcall : call_accepted bare_repo call_with_null_runners "/repo")
      by (repeat split; reflexivity).
    exact (proj1 (configure_project_type_errors bare_repo call_with_null_runners "/repo"
                    Hcall) JNull eq_refl eq_refl).
  - assert (Hcall : call_accepted bare_repo call_with_numeric_env_file "/repo")
      by (repeat split; reflexivity).
    assert (Hw : writable bare_repo "/repo") by (repeat split; reflexivity).
    assert (He : Exists (fun v : json => forall s, v <> JStr s) [JInt 1])
      by (constructor; discriminate).
    destruct (proj2 (configure_project_type_errors bare_repo call_with_numeric_env_file
                       "/repo" Hcall) [] [JInt 1] eq_refl eq_refl Hw eq_refl He)
      as (fs' & Hrun & Hfile).
    exists fs'. split; [exact Hrun |].
    change "/repo/.wtmux/config.json" with (config_file_path "/repo").
    now rewrite Hfile.
Defined.

(* ===================================================================== *)
(** * Further properties: the analyzer *)
(* ===================================================================== *)

Lemma split_once_first (c : ascii) (a b : string) :
  has_char c a = false -> split_once c (a +:+ String c b) = Some (a, b).
Proof.
  unfold has_char. induction a as [|x a IH]; cbn [String.append split_once].
  - now rewrite Ascii.eqb_refl.
  - cbn [list_ascii_of_string existsb]. intros Hx.
    apply orb_false_iff in Hx as [Hx Ha]. rewrite Ascii.eqb_sym, Hx.
    now rewrite (IH Ha).
Qed.

Lemma split_once_none (c : ascii) (s : string) :
  has_char c s = false -> split_once c s = None.
Proof.
  unfold has_char. induction s as [|x s IH]; [reflexivity |].
  cbn [list_ascii_of_string existsb split_once]. intros Hx.
  apply orb_false_iff in Hx as [Hx Hs]. rewrite Ascii.eqb_sym, Hx.
  now rewrite (IH Hs).
Qed.

(** From the symbolic reference of the remote HEAD only the remote's name
    is taken off, up to the first slash: a branch name with slashes in it
    is kept whole. An output without any slash is the result as it is. *)
Theorem default_branch_strips_remote_name (H : host) (repo_path : string) :
  (forall remote branch,
      has_char sep remote = false ->
      origin_head H repo_path = Some (remote +:+ "/" +:+ branch) ->
      detect_default_branch H repo_path = JStr branch)
  /\ (forall output,
         output <> "" ->
         has_char sep output = false ->
         origin_head H repo_path = Some output ->
         detect_default_branch H repo_path = JStr output).
Proof.
  unfold detect_default_branch, origin_head. split.
  - intros remote branch Hr ->.
    change (remote +:+ "/" +:+ branch) with (remote +:+ String sep branch).
    rewrite (split_once_first sep remote branch Hr).
    now destruct (remote +:+ String sep branch) eqn:E; [destruct remote |].
  - intros output Hne Hs ->. destruct output; [now contradiction Hne |].
    now rewrite (split_once_none sep _ Hs).
Qed.

(** The remote HEAD points to [origin/feature/login]. *)
Lemma default_branch_strips_remote_name_witness :
  detect_default_branch (host_with_origin_head "origin/feature/login") "/repo"
  = JStr "feature/login".
Proof.
  exact (proj1 (default_branch_strips_remote_name
                  (host_with_origin_head "origin/feature/login") "/repo")
           "origin" "feature/login" eq_refl eq_refl).
Defined.

(** When the symbolic reference gives nothing (the probe fails or prints
    nothing), the local branch [main] is the answer if it exists, whether
    or not [master] exists too; [master] is the answer if only it exists;
    and there is no answer exactly when both are missing. *)
Theorem default_branch_falls_back_to_main_then_master (H : host) (repo_path : string) :
  no_origin_head H repo_path = true ->
  (has_main H repo_path = true -> detect_default_branch H repo_path = JStr "main")
  /\ (has_main H repo_path = false -> has_master H repo_path = true ->
      detect_default_branch H repo_path = JStr "master")
  /\ (detect_default_branch H repo_path = JNull
      <-> has_main H repo_path = false /\ has_master H repo_path = false).
Proof.
  unfold no_origin_head, origin_head, has_main, has_master, detect_default_branch.
  destruct (run_git H ["symbolic-ref"; "--short"; "refs/remotes/origin/HEAD"] repo_path)
    as [[|c s]|]; try discriminate; intros _;
    (destruct (is_some (run_git H ["rev-parse"; "--verify"; "main"] repo_path));
     destruct (is_some (run_git H ["rev-parse"; "--verify"; "master"] repo_path));
     repeat split; try discriminate; try reflexivity;
     try (intros [? ?]; discriminate); try (intros _; reflexivity)).
Qed.

(** No origin, both local branches. *)
Lemma default_branch_falls_back_to_main_then_master_witness :
  no_origin_head host_with_local_branches "/repo" = true
  /\ has_master host_with_local_branches "/repo" = true
  /\ detect_default_branch host_with_local_branches "/repo" = JStr "main".
Proof.
  split; [reflexivity |]. split; [reflexivity |].
  exact (proj1 (default_branch_falls_back_to_main_then_master host_with_local_branches
                  "/repo" eq_refl) eq_refl).
Defined.

(** [parse_scripts] gives the empty list, and raises nothing, when there
    is no package manager, when the manager is not one of the JS family
    (the manifest is then not even opened), and for a JS manager when
    [package.json] is not a regular file, when its text does not decode, or
    when it decodes to an object whose [scripts] member is missing or
    not an object. *)
Theorem parse_scripts_degrades_to_empty (H : host) (fs : filesystem) (repo_path : string)
        (pm : list (string * json)) (manager : string) :
  parse_scripts H fs repo_path JNull = Ret []
  /\ (lookup_field "name" pm = Some (JStr manager) ->
      (~ In manager JS_MANAGERS -> parse_scripts H fs repo_path (JObj pm) = Ret [])
      /\ (isfile fs (path_join repo_path "package.json") = false ->
          parse_scripts H fs repo_path (JObj pm) = Ret [])
      /\ (forall text,
             read_text fs (path_join repo_path "package.json") = Ret text ->
             json_loads H text = None ->
             parse_scripts H fs repo_path (JObj pm) = Ret [])
      /\ (forall text pkg,
             read_text fs (path_join repo_path "package.json") = Ret text ->
             json_loads H text = Some (JObj pkg) ->
             (forall scripts, dict_get pkg "scripts" JNull <> JObj scripts) ->
             parse_scripts H fs repo_path (JObj pm) = Ret [])).
Proof.
  split; [reflexivity |]. intros Hname.
  assert (Hpm : truthy (JObj pm) = true) by (destruct pm; [discriminate | reflexivity]).
  unfold parse_scripts. rewrite Hpm. cbn [negb subscript_name]. rewrite Hname.
  cbn [mbind res_mbind res_bind in_string_set].
  destruct (mem manager JS_MANAGERS) eqn:Em.
  - cbn [negb]. split; [intros Hn; apply mem_spec in Em; contradiction |].
    split; [| split].
    + intros Hf. unfold read_text, isfile in *.
      now destruct (fs !! path_join repo_path "package.json") as [[]|].
    + intros text -> ->. reflexivity.
    + intros text pkg -> -> Hs.
      destruct (dict_get pkg "scripts" JNull) as [| | | | | |scripts]; try reflexivity.
      now contradiction (Hs scripts).
  - cbn [negb]. repeat split.
Qed.

(** A Ruby project, and a JS project whose manifest does not decode. *)
Lemma parse_scripts_degrades_to_empty_witness :
  parse_scripts (sample_host []) yarn_repo "/repo"
                (JObj [("name", JStr "bundler"); ("setupCommand", JStr "bundle install");
                       ("lockFile", JNull)]) = Ret []
  /\ parse_scripts (sample_host []) yarn_repo "/repo"
                   (detect_package_manager yarn_repo "/repo") = Ret [].
Proof.
  split.
  - refine (proj1 (proj2 (parse_scripts_degrades_to_empty (sample_host []) yarn_repo "/repo"
                            [("name", JStr "bundler");
                             ("setupCommand", JStr "bundle install");
                             ("lockFile", JNull)] "bundler") eq_refl) _).
    cbv. intuition discriminate.
  - exact (proj1 (proj2 (proj2 (proj2 (parse_scripts_degrades_to_empty (sample_host [])
                                         yarn_repo "/repo"
                                         [("name", JStr "yarn");
                                          ("setupCommand", JStr "yarn install");
                                          ("lockFile", JStr "yarn.lock")] "yarn") eq_refl)))
             "MANIFEST" eq_refl eq_refl).
Defined.

Lemma run_prefix_of_js (manager : string) :
  In manager JS_MANAGERS -> run_prefix_of (JStr manager) = run_words manager.
Proof.
  intros [<-|[<-|[<-|[<-|[]]]]]; reflexivity.
Qed.

Lemma script_entries_total (run_prefix : string) (scripts : list (string * json)) :
  Forall (fun item => exists command, snd item = JStr command) scripts ->
  exists entries, script_entries run_prefix scripts = Ret entries.
Proof.
  induction 1 as [|[name v] scripts [command Hc] _ [entries IH]].
  - now exists [].
  - cbn [snd] in Hc. subst v. cbn [script_entries].
    destruct (categorize_script_category name command) as (c & -> & _).
    cbn [mbind res_mbind res_bind]. rewrite IH. eexists. reflexivity.
Qed.

Lemma category_in_order (name command c : string) :
  category name command c -> nth_error CATEGORIES (CATEGORY_ORDER c) = Some c.
Proof. intros Hc. destruct Hc; reflexivity. Qed.

Lemma StronglySorted_on {A : Type} (P : A -> Prop) (R R' : A -> A -> Prop) (l : list A) :
  (forall a b, P a -> P b -> R a b -> R' a b) ->
  Forall P l -> StronglySorted R l -> StronglySorted R' l.
Proof.
  intros Himp HP Hs. induction Hs as [|a l Hs IH Ha]; [constructor |].
  apply List.Forall_cons_iff in HP as [Pa Pl].
  constructor; [now apply IH |].
  rewrite List.Forall_forall in Ha, Pl |- *.
  intros b Hb. apply Himp; auto.
Qed.

Lemma entries_in_report_order (run_prefix : string) (x y : string * json) (a b : json) :
  entry_of_script run_prefix x a ->
  entry_of_script run_prefix y b ->
  by_rank_then_name a b -> in_report_order a b.
Proof.
  intros (cmda & ca & _ & Hca & ->) (cmdb & cb & _ & Hcb & ->) Hle.
  exists (fst x), ca, (fst y), cb, (CATEGORY_ORDER ca), (CATEGORY_ORDER cb).
  repeat (split; [reflexivity |]).
  split; [eapply category_in_order; eassumption |].
  split; [eapply category_in_order; eassumption |].
  unfold by_rank_then_name, key_leb, script_entry, script_key in Hle.
  cbn [dict_get lookup_field String.eqb Ascii.eqb Bool.eqb py_str fst snd] in Hle.
  apply orb_true_iff in Hle as [Hlt | Heq].
  - left. now apply Nat.ltb_lt.
  - right. apply andb_true_iff in Heq as [He Hn]. apply Nat.eqb_eq in He.
    split; [exact He |]. unfold String.leb in Hn.
    destruct (String.compare (fst x) (fst y)); congruence.
Qed.

(** For a JS manager and a readable manifest, [parse_scripts] is the sort
    of the entries of the loop. *)
Lemma parse_scripts_of_manifest (H : host) (fs : filesystem) (repo_path : string)
      (pm : list (string * json)) (manager : string) (scripts : list (string * json))
      (entries : list json) :
  lookup_field "name" pm = Some (JStr manager) ->
  In manager JS_MANAGERS ->
  manifest_scripts H fs repo_path scripts ->
  script_entries (run_words manager) scripts = Ret entries ->
  parse_scripts H fs repo_path (JObj pm) = Ret (sort script_leb entries).
Proof.
  intros Hname Hjs (text & pkg & Hread & Hload & Hscripts) Hent.
  assert (Hpm : truthy (JObj pm) = true) by (destruct pm; [discriminate | reflexivity]).
  unfold parse_scripts. rewrite Hpm. cbn [negb subscript_name]. rewrite Hname.
  cbn [mbind res_mbind res_bind in_string_set].
  apply mem_spec in Hjs as Hmem. rewrite Hmem. cbn [negb].
  rewrite Hread, Hload, Hscripts, (run_prefix_of_js manager Hjs), Hent.
  reflexivity.
Qed.

(** C7. For a script whose command is a string, [categorize_script]
    returns exactly the first satisfied category in the order devServer,
    build, test, lint, other, a category being satisfied when one of its
    tokens occurs in the lower-cased name (for devServer also: when a known
    dev-tool invocation occurs in the lower-cased command). The script
    [build:dev-assets] is a devServer script whatever its command. For a
    JS package manager and a manifest whose scripts have string commands,
    [parse_scripts] returns a report: it holds one entry for each script
    of the manifest, with the script's name, command and category, and no
    other entry, and its entries stand in the order of (category rank,
    script name): an entry of an earlier category comes first, and within
    a category the names are in the order of strings. Whatever
    [parse_scripts] returns is in that order. *)
Theorem categorize_script_first_satisfied :
  (forall name command c,
      categorize_script name (JStr command) = Ret c <-> category name command c)
  /\ (forall command,
         categorize_script "build:dev-assets" (JStr command) = Ret "devServer")
  /\ (forall H fs repo_path package_manager result,
         parse_scripts H fs repo_path package_manager = Ret result ->
         StronglySorted by_rank_then_name result
         /\ (result = []
             \/ exists pm_name scripts entries,
                  script_entries (run_prefix_of pm_name) scripts = Ret entries
                  /\ Permutation entries result))
  /\ (forall run_prefix items entries,
         script_entries run_prefix items = Ret entries ->
         Forall2 (fun item entry =>
                    exists command c,
                      snd item = JStr command /\ category (fst item) command c
                      /\ entry = script_entry run_prefix (fst item) (JStr command) c)
                 items entries)
  /\ (forall H fs repo_path pm manager scripts,
         lookup_field "name" pm = Some (JStr manager) ->
         In manager JS_MANAGERS ->
         manifest_scripts H fs repo_path scripts ->
         Forall (fun item => exists command, snd item = JStr command) scripts ->
         exists entries result,
           parse_scripts H fs repo_path (JObj pm) = Ret result
           /\ Forall2 (entry_of_script (run_words manager)) scripts entries
           /\ Permutation entries result
           /\ length result = length scripts
           /\ StronglySorted in_report_order result).
Proof.
  split; [| split; [| split; [| split]]].
  - intros name command c.
    destruct (categorize_script_category name command) as (c' & Ec & Hc).
    rewrite Ec. split.
    + intros [= <-]. exact Hc.
    + intros Hc2. f_equal. eapply category_functional; eassumption.
  - intros command. reflexivity.
  - intros H fs repo_path package_manager result Hres.
    apply parse_scripts_sorted in Hres as [-> | (pm & scripts & entries & Hent & ->)].
    + split; [constructor | now left].
    + split.
      * unfold by_rank_then_name. apply (sort_sorted script_leb).
        -- intros x y. apply key_leb_total.
        -- intros x y z. apply key_leb_trans.
      * right. exists pm, scripts, entries. split; [exact Hent | apply sort_perm].
  - intros run_prefix items entries Hent. now apply script_entries_spec.
  - intros H fs repo_path pm manager scripts Hname Hjs Hman Hstr.
    destruct (script_entries_total (run_words manager) scripts Hstr) as [entries Hent].
    pose proof (script_entries_spec _ _ _ Hent) as Hspec.
    exists entries, (sort script_leb entries).
    split; [now apply (parse_scripts_of_manifest H fs repo_path pm manager scripts) |].
    split; [exact Hspec |].
    split; [apply sort_perm |].
    split.
    { rewrite <- (Permutation_length (sort_perm script_leb entries)).
      symmetry. eapply Forall2_length. exact Hspec. }
    assert (Hall : Forall (fun e => exists item, entry_of_script (run_words manager) item e)
                          (sort script_leb entries)).
    { eapply Permutation_Forall; [apply sort_perm |].
      clear -Hspec. induction Hspec as [|item e items entries He _ IH];
        constructor; [now exists item | exact IH]. }
    eapply (StronglySorted_on
              (fun e => exists item, entry_of_script (run_words manager) item e)
              by_rank_then_name in_report_order);
      [| exact Hall |].
    + intros a b (x & Hx) (y & Hy).
      now apply (entries_in_report_order (run_words manager) x y).
    + unfold by_rank_then_name. apply (sort_sorted script_leb).
      * intros x y. apply key_leb_total.
      * intros x y z. apply key_leb_trans.
Qed.

(** A yarn project whose manifest lists [test] before [dev]: the report
    has the two entries, [dev] first. *)
Lemma categorize_script_first_satisfied_witness :
  exists result,
    parse_scripts (host_decoding "MANIFEST" yarn_manifest) yarn_repo "/repo"
                  (detect_package_manager yarn_repo "/repo") = Ret result
    /\ map (field "name") result = [JStr "dev"; JStr "test"]
    /\ map (field "category") result = [JStr "devServer"; JStr "test"]
    /\ StronglySorted in_report_order result.
Proof.
  assert (Hm : manifest_scripts (host_decoding "MANIFEST" yarn_manifest) yarn_repo "/repo"
                 [("test", JStr "jest"); ("dev", JStr "vite")]).
  { exists "MANIFEST". eexists. repeat split; reflexivity. }
  assert (Hs : Forall (fun item : string * json => exists command, snd item = JStr command)
                      [("test", JStr "jest"); ("dev", JStr "vite")])
    by (repeat constructor; eexists; reflexivity).
  assert (Hjs : In "yarn" JS_MANAGERS) by (cbv; tauto).
  destruct categorize_script_first_satisfied as (_ & _ & _ & _ & Hreport).
  destruct (Hreport (host_decoding "MANIFEST" yarn_manifest) yarn_repo "/repo"
              [("name", JStr "yarn"); ("setupCommand", JStr "yarn install");
               ("lockFile", JStr "yarn.lock")]
              "yarn" _ eq_refl Hjs Hm Hs)
    as (entries & result & Hrun & _ & _ & _ & Hsorted).
  exists result. split; [exact Hrun |].
  vm_compute in Hrun. injection Hrun as <-.
  split; [reflexivity |]. split; [reflexivity | exact Hsorted].
Defined.

(** For a JS manager and a manifest whose scripts all have string
    commands, [parse_scripts] returns one entry per script, and the run
    command of each entry is the manager's run words followed by the
    script's name: [npm run], [pnpm run], [bun run], and plain [yarn]. *)
Theorem parse_scripts_run_commands (H : host) (fs : filesystem) (repo_path : string)
        (pm : list (string * json)) (manager : string) (scripts : list (string * json)) :
  lookup_field "name" pm = Some (JStr manager) ->
  In manager JS_MANAGERS ->
  manifest_scripts H fs repo_path scripts ->
  Forall (fun item => exists command, snd item = JStr command) scripts ->
  exists result,
    parse_scripts H fs repo_path (JObj pm) = Ret result
    /\ length result = length scripts
    /\ Forall (fun e => exists name,
                   In name (map fst scripts)
                   /\ field "name" e = JStr name
                   /\ field "runCommand" e = JStr (run_words manager +:+ " " +:+ name))
              result.
Proof.
  intros Hname Hjs (text & pkg & Hread & Hload & Hscripts) Hstr.
  assert (Hpm : truthy (JObj pm) = true) by (destruct pm; [discriminate | reflexivity]).
  destruct (script_entries_total (run_words manager) scripts Hstr) as [entries Hent].
  exists (sort script_leb entries).
  split; [| split].
  - unfold parse_scripts. rewrite Hpm. cbn [negb subscript_name]. rewrite Hname.
    cbn [mbind res_mbind res_bind in_string_set].
    apply mem_spec in Hjs as Hmem. rewrite Hmem. cbn [negb].
    rewrite Hread, Hload, Hscripts, (run_prefix_of_js manager Hjs), Hent.
    reflexivity.
  - rewrite <- (Permutation_length (sort_perm script_leb entries)).
    apply script_entries_spec in Hent.
    symmetry. eapply Forall2_length. exact Hent.
  - eapply Permutation_Forall; [apply sort_perm |].
    apply script_entries_spec in Hent.
    clear -Hent. induction Hent as [|item e items entries (command & c & _ & _ & ->) _ IH].
    + constructor.
    + constructor.
      * exists (fst item). split; [now left |]. split; reflexivity.
      * eapply List.Forall_impl; [| exact IH].
        intros e (name & Hin & Hn & Hr). exists name. split; [now right | auto].
Qed.

(** A yarn project with the scripts [test] and [dev]. *)
Lemma parse_scripts_run_commands_witness :
  exists result,
    parse_scripts (host_decoding "MANIFEST" yarn_manifest) yarn_repo "/repo"
                  (detect_package_manager yarn_repo "/repo") = Ret result
    /\ map (field "runCommand") result = [JStr "yarn dev"; JStr "yarn test"].
Proof.
  assert (Hm : manifest_scripts (host_decoding "MANIFEST" yarn_manifest) yarn_repo "/repo"
                 [("test", JStr "jest"); ("dev", JStr "vite")]).
  { exists "MANIFEST". eexists. repeat split; reflexivity. }
  assert (Hs : Forall (fun item : string * json => exists command, snd item = JStr command)
                      [("test", JStr "jest"); ("dev", JStr "vite")])
    by (repeat constructor; eexists; reflexivity).
  assert (Hjs : In "yarn" JS_MANAGERS) by (cbv; tauto).
  destruct (parse_scripts_run_commands (host_decoding "MANIFEST" yarn_manifest) yarn_repo
              "/repo"
              [("name", JStr "yarn"); ("setupCommand", JStr "yarn install");
               ("lockFile", JStr "yarn.lock")]
              "yarn" _ eq_refl Hjs Hm Hs)
    as (result & Hrun & _).
  exists result. split; [exact Hrun |].
  vm_compute in Hrun. injection Hrun as <-. reflexivity.
Defined.

Lemma detect_js_manager (fs : filesystem) (repo_path : string) :
  isfile fs (path_join repo_path "package.json") = true ->
  exists pm manager,
    detect_package_manager fs repo_path = JObj pm
    /\ lookup_field "name" pm = Some (JStr manager)
    /\ In manager JS_MANAGERS.
Proof.
  intros Hpkg. unfold detect_package_manager.
  cbn [detect_in PACKAGE_MANAGER_CANDIDATES]. rewrite Hpkg. cbn [negb].
  repeat (match goal with
          | |- context [isfile fs ?p] => destruct (isfile fs p); cbn [negb]
          end;
          try (eexists; eexists; split; [reflexivity |]; split; [reflexivity |];
               cbv; tauto)).
Qed.

Lemma script_entries_raises (run_prefix : string) (scripts : list (string * json)) :
  Exists (fun item => forall command, snd item <> JStr command) scripts ->
  script_entries run_prefix scripts = Raise AttributeError.
Proof.
  induction scripts as [|[name v] scripts IH]; intros He; [inversion He |].
  apply List.Exists_cons in He as [Hv|Hs]; cbn [script_entries snd] in *.
  - destruct v; try reflexivity. now contradiction (Hv s).
  - destruct v; try reflexivity.
    destruct (categorize_script_category name s) as (c & -> & _).
    cbn [mbind res_mbind res_bind]. now rewrite (IH Hs).
Qed.

(** [analyze_project] on a repository with a [package.json] raises
    [AttributeError], which nothing catches, when the manifest decodes to
    something that is not an object (a list, a string, a number, null),
    and when one of its scripts has a command that is not a string. *)
Theorem analyze_project_raises_on_odd_manifest (H : host) (arguments : json) (p : string)
        (fs : filesystem) (text : string) :
  repo_path_of arguments = JStr p ->
  startswith p "/" = true ->
  isdir fs (path_join p ".git") = true ->
  read_text fs (path_join p "package.json") = Ret text ->
  (forall doc, json_loads H text = Some doc -> (forall pkg, doc <> JObj pkg) ->
               handle_analyze_project H arguments fs = (Raise AttributeError, fs))
  /\ (forall pkg scripts,
         json_loads H text = Some (JObj pkg) ->
         dict_get pkg "scripts" JNull = JObj scripts ->
         Exists (fun item => forall command, snd item <> JStr command) scripts ->
         handle_analyze_project H arguments fs = (Raise AttributeError, fs)).
Proof.
  intros Hp Habs Hgit Hread.
  assert (Hpkg : isfile fs (path_join p "package.json") = true).
  { unfold read_text, isfile in *.
    now destruct (fs !! path_join p "package.json") as [[]|]. }
  destruct (detect_js_manager fs p Hpkg) as (pm & manager & Hdet & Hname & Hjs).
  assert (Hpm : truthy (JObj pm) = true) by (destruct pm; [discriminate | reflexivity]).
  assert (Hstart : forall r,
             parse_scripts H fs p (JObj pm) = Raise r ->
             handle_analyze_project H arguments fs = (Raise r, fs)).
  { intros r Hr. unfold handle_analyze_project.
    rewrite (check_repo_path_absolute arguments p Hp Habs).
    cbv beta iota delta [mbind M_mbind bind lift mret M_ret ret].
    rewrite Hgit. cbn [negb]. now rewrite Hdet, Hr. }
  assert (Hparse : parse_scripts H fs p (JObj pm)
                   = match json_loads H text with
                     | None => Ret []
                     | Some (JObj kv) =>
                         match dict_get kv "scripts" JNull with
                         | JObj scripts =>
                             res_bind (script_entries (run_prefix_of (JStr manager)) scripts)
                                      (fun result => Ret (sort script_leb result))
                         | _ => Ret []
                         end
                     | Some _ => Raise AttributeError
                     end).
  { unfold parse_scripts. rewrite Hpm. cbn [negb subscript_name]. rewrite Hname.
    cbn [mbind res_mbind res_bind in_string_set].
    apply mem_spec in Hjs. rewrite Hjs. cbn [negb]. rewrite Hread. reflexivity. }
  split.
  - intros doc Hdoc Hno. apply Hstart. rewrite Hparse, Hdoc.
    destruct doc; try reflexivity. now contradiction (Hno fields).
  - intros pkg scripts Hdoc Hs He. apply Hstart. rewrite Hparse, Hdoc, Hs.
    now rewrite (script_entries_raises _ scripts He).
Qed.

(** A manifest that decodes to a list. *)
Lemma analyze_project_raises_on_odd_manifest_witness :
  handle_analyze_project (host_decoding "LIST" (JArr [])) (JObj [("repoPath", JStr "/repo")])
                         list_manifest_repo
  = (Raise AttributeError, list_manifest_repo).
Proof.
  refine (proj1 (analyze_project_raises_on_odd_manifest (host_decoding "LIST" (JArr []))
                   (JObj [("repoPath", JStr "/repo")]) "/repo" list_manifest_repo "LIST"
                   eq_refl eq_refl eq_refl eq_refl) (JArr []) eq_refl _).
  discriminate.
Defined.

(* ===================================================================== *)
(** * Further properties: reading back what was written *)
(* ===================================================================== *)

Lemma insert_sorted_head {A : Type} (leb : A -> A -> bool) (x : A) (l : list A) :
  Forall (fun y => leb x y = true) l -> insert_sorted leb x l = x :: l.
Proof. intros Hl. destruct Hl as [|y l Hy _]; cbn; [reflexivity | now rewrite Hy]. Qed.

(** Sorting a sorted list changes nothing. *)
Lemma sort_sorted_id {A : Type} (leb : A -> A -> bool) (l : list A) :
  StronglySorted (le_of leb) l -> sort leb l = l.
Proof.
  induction 1 as [|x l Hs IH Hx]; [reflexivity |].
  cbn [sort fold_right]. fold (sort leb l). rewrite IH.
  now apply insert_sorted_head.
Qed.

Lemma insert_sorted_map {A : Type} (leb : A -> A -> bool) (f : A -> A) (x : A) (l : list A) :
  (forall a b, leb (f a) (f b) = leb a b) ->
  map f (insert_sorted leb x l) = insert_sorted leb (f x) (map f l).
Proof.
  intros Hf. induction l as [|y l IH]; [reflexivity |].
  cbn [insert_sorted map]. rewrite Hf. destruct (leb x y); [reflexivity |].
  cbn [map]. now rewrite IH.
Qed.

Lemma sort_map {A : Type} (leb : A -> A -> bool) (f : A -> A) (l : list A) :
  (forall a b, leb (f a) (f b) = leb a b) ->
  map f (sort leb l) = sort leb (map f l).
Proof.
  intros Hf. induction l as [|x l IH]; [reflexivity |].
  cbn [sort fold_right map]. fold (sort leb l) (sort leb (map f l)).
  now rewrite insert_sorted_map, IH.
Qed.

Lemma item_leb_total (p q : string * json) : item_leb p q = true \/ item_leb q p = true.
Proof. apply String.leb_total. Qed.

Lemma item_leb_trans (p q r : string * json) :
  item_leb p q = true -> item_leb q r = true -> item_leb p r = true.
Proof. apply String_leb_trans. Qed.

Lemma sort_keys_obj (kv : list (string * json)) :
  sort_keys (JObj kv) = JObj (sort item_leb (map sort_member kv)).
Proof. reflexivity. Qed.

(** Sorting the keys of a document twice is sorting them once. *)
Lemma sort_keys_idempotent (v : json) : sort_keys (sort_keys v) = sort_keys v.
Proof.
  induction v as [| | | | |l IH|kv IH] using json_ind'; try reflexivity.
  - change (sort_keys (JArr l)) with (JArr (map sort_keys l)).
    change (sort_keys (JArr (map sort_keys l)))
      with (JArr (map sort_keys (map sort_keys l))).
    f_equal. rewrite map_map. apply map_ext_Forall. exact IH.
  - rewrite !sort_keys_obj. f_equal.
    rewrite (sort_map item_leb sort_member) by reflexivity.
    rewrite map_map.
    assert (Hm : map (fun p => sort_member (sort_member p)) kv = map sort_member kv).
    { apply map_ext_Forall. eapply List.Forall_impl; [| exact IH].
      intros [k x] Hx. unfold sort_member. cbn [fst snd] in *. now rewrite Hx. }
    rewrite Hm. apply sort_sorted_id.
    apply (sort_sorted item_leb); [exact item_leb_total | exact item_leb_trans].
Qed.

Lemma floats_avoid_arr (c : ascii) (l : list json) :
  floats_avoid c (JArr l) <-> Forall (floats_avoid c) l.
Proof.
  simpl. induction l as [|x l IH].
  - split; [constructor | trivial].
  - rewrite IH. split; [intros [Hx Hl]; now constructor |].
    intros Hxl. inversion Hxl. now split.
Qed.

Lemma floats_avoid_obj (c : ascii) (kv : list (string * json)) :
  floats_avoid c (JObj kv) <-> Forall (fun p => floats_avoid c (snd p)) kv.
Proof.
  simpl. induction kv as [|p kv IH].
  - split; [constructor | trivial].
  - rewrite IH. split; [intros [Hx Hl]; now constructor |].
    intros Hxl. inversion Hxl. now split.
Qed.

Lemma floats_avoid_sort_keys (c : ascii) (v : json) :
  floats_avoid c v -> floats_avoid c (sort_keys v).
Proof.
  induction v as [| | | | |l IH|kv IH] using json_ind'; try (intros Hv; exact Hv).
  - intros Hv. apply floats_avoid_arr in Hv.
    change (sort_keys (JArr l)) with (JArr (map sort_keys l)).
    apply floats_avoid_arr, Forall_map.
    induction IH as [|x l Hx _ IHl]; [constructor |].
    inversion Hv; subst. constructor; auto.
  - intros Hv. apply floats_avoid_obj in Hv.
    rewrite sort_keys_obj. apply floats_avoid_obj.
    eapply Permutation_Forall; [apply sort_perm |]. apply Forall_map.
    induction IH as [|p kv Hx _ IHl]; [constructor |].
    inversion Hv; subst. constructor; auto.
Qed.

Lemma no_cr_join (sep : string) (l : list string) :
  no_cr sep -> Forall no_cr l -> no_cr (join sep l).
Proof.
  intros Hsep Hl. unfold join. induction Hl as [|x l Hx Hl IH]; [reflexivity |].
  cbn [String.concat]. destruct l as [|y l]; [exact Hx |].
  apply no_cr_app; [exact Hx |]. apply no_cr_app; assumption.
Qed.

Lemma escape_char_no_cr (c : ascii) : no_cr (escape_char c).
Proof. destruct c as [[] [] [] [] [] [] [] []]; vm_compute; reflexivity. Qed.

Lemma json_string_no_cr (s : string) : no_cr (json_string s).
Proof.
  unfold json_string.
  change (String (chr 34) (escape s +:+ String (chr 34) ""))
    with (String (chr 34) "" +:+ (escape s +:+ String (chr 34) "")).
  apply no_cr_app; [reflexivity |]. apply no_cr_app; [| reflexivity].
  induction s as [|c s IH]; [reflexivity |].
  cbn [escape]. apply no_cr_app; [apply escape_char_no_cr | exact IH].
Qed.

Lemma string_of_uint_no_cr (d : Decimal.uint) : no_cr (NilEmpty.string_of_uint d).
Proof. induction d; simpl; try reflexivity; apply no_cr_cons; now split. Qed.

Lemma str_of_int_no_cr (z : Z) : no_cr (str_of_int z).
Proof.
  unfold str_of_int, NilZero.string_of_int, NilZero.string_of_uint.
  destruct (Z.to_int z) as [d|d]; destruct d; try reflexivity;
    try apply (string_of_uint_no_cr (_ d));
    apply (no_cr_app "-" _ eq_refl), (string_of_uint_no_cr (_ d)).
Qed.

Lemma spaces_no_cr (n : nat) : no_cr (spaces n).
Proof.
  induction n as [|n IH]; [reflexivity |].
  cbn [spaces]. apply no_cr_app; [reflexivity | exact IH].
Qed.

Lemma newline_indent_no_cr (level : nat) : no_cr (newline_indent level).
Proof. unfold newline_indent. apply no_cr_app; [reflexivity | apply spaces_no_cr]. Qed.

Lemma json_float_no_cr (r : string) : no_cr r -> no_cr (json_float r).
Proof.
  intros Hr. unfold json_float.
  repeat (match goal with |- context [String.eqb r ?s] => destruct (String.eqb r s) end;
          [reflexivity |]).
  exact Hr.
Qed.

(** The indented text of a document has no carriage return, unless a
    float brings one. *)
Lemma dumps_indent_no_cr (v : json) :
  floats_avoid CR v -> forall level, no_cr (dumps_indent level v).
Proof.
  induction v as [|b|z|r|s|l IH|kv IH] using json_ind'; intros Hv level.
  - reflexivity.
  - now destruct b.
  - apply str_of_int_no_cr.
  - now apply json_float_no_cr.
  - apply json_string_no_cr.
  - apply floats_avoid_arr in Hv.
    destruct l as [|x l]; [reflexivity |]. cbn [dumps_indent].
    apply no_cr_app; [reflexivity |].
    apply no_cr_app; [apply newline_indent_no_cr |].
    apply no_cr_app; [| apply no_cr_app; [apply newline_indent_no_cr | reflexivity]].
    apply no_cr_join.
    + apply no_cr_app; [reflexivity | apply newline_indent_no_cr].
    + apply Forall_map. generalize dependent (x :: l). clear x l. intros l IH Hv.
      induction IH as [|y l Hy _ IHl]; [constructor |].
      inversion Hv; subst. constructor; auto.
  - apply floats_avoid_obj in Hv.
    destruct kv as [|p kv]; [reflexivity |]. cbn [dumps_indent].
    apply no_cr_app; [reflexivity |].
    apply no_cr_app; [apply newline_indent_no_cr |].
    apply no_cr_app; [| apply no_cr_app; [apply newline_indent_no_cr | reflexivity]].
    apply no_cr_join.
    + apply no_cr_app; [reflexivity | apply newline_indent_no_cr].
    + apply Forall_map. generalize dependent (p :: kv). clear p kv. intros kv IH Hv.
      induction IH as [|q kv Hq _ IHl]; [constructor |].
      inversion Hv; subst. constructor; [| auto].
      apply no_cr_app; [apply json_string_no_cr |].
      apply no_cr_app; [reflexivity | auto].
Qed.

Lemma config_text_no_cr (config : json) :
  floats_avoid CR config -> no_cr (dumps_pretty config +:+ NL).
Proof.
  intros Hc. apply no_cr_app; [| reflexivity].
  unfold dumps_pretty. apply dumps_indent_no_cr. now apply floats_avoid_sort_keys.
Qed.

(** [read_config] right after a [write_config] that went through hands
    the decoder exactly the text that was written, and returns what the
    decoder makes of it. *)
Theorem read_config_after_write_config (H : host) (repo_path : string) (config : json)
        (fs fs1 : filesystem) :
  write_config repo_path config fs = (Ret tt, fs1) ->
  floats_avoid CR config ->
  read_config H fs1 repo_path
  = match json_loads H (dumps_pretty config +:+ NL) with
    | Some doc => doc
    | None => JNull
    end.
Proof.
  intros Hw Hc. rewrite write_config_outcome in Hw.
  destruct (isfile fs _); [discriminate |].
  destruct (isdir fs (config_tmp_path repo_path)); [discriminate |].
  destruct (isdir fs (config_file_path repo_path)); [discriminate |].
  injection Hw as <-.
  unfold read_config, read_text. fold (config_dir_path repo_path).
  fold (config_file_path repo_path). unfold written_config.
  rewrite lookup_insert_eq. unfold config_text.
  now rewrite (universal_newlines_id _ (config_text_no_cr config Hc)).
Qed.

(** Writing and reading back on a fresh repository. *)
Lemma read_config_after_write_config_witness :
  let config := JObj [("setupCommands", JArr [JStr "make"])] in
  let H := host_decoding (dumps_pretty config +:+ NL) config in
  exists fs1,
    write_config "/repo" config bare_repo = (Ret tt, fs1)
    /\ read_config H fs1 "/repo" = config.
Proof.
  intros config H. eexists. split; [vm_compute; reflexivity |].
  rewrite (read_config_after_write_config H "/repo" config bare_repo _);
    [| vm_compute; reflexivity | cbn; tauto].
  vm_compute. reflexivity.
Defined.

(** [get_project_config] after a [configure_project] that went through
    shows the configuration that was written: with a decoder that reads the
    written text back as the document it stands for (its keys in sorted
    order), the result is the pretty text of that configuration, which is
    the content of the config file without its final line break. *)
Theorem get_project_config_after_configure (H : host) (fs : filesystem)
        (kv : list (string * json)) (repo_path : string) (items : list json) :
  call_accepted fs kv repo_path ->
  iterate (dict_get kv "runConfigurations" (JArr [])) = Ret items ->
  find stops_indexed (enumerate_from 0 items) = None ->
  writable fs repo_path ->
  floats_avoid CR (config_of kv (entries_from 0 items)) ->
  json_loads H (dumps_pretty (config_of kv (entries_from 0 items)) +:+ NL)
  = Some (sort_keys (config_of kv (entries_from 0 items))) ->
  let fs' := snd (handle_configure_project (JObj kv) fs) in
  fs' !! config_file_path repo_path
  = Some (File (dumps_pretty (config_of kv (entries_from 0 items)) +:+ NL))
  /\ handle_get_project_config H (JObj [("repoPath", JStr repo_path)]) fs'
     = (Ret (text_result (dumps_pretty (config_of kv (entries_from 0 items)))), fs').
Proof.
  intros Hcall Hitems Hnone Hw Hfl Hdec fs'.
  pose proof (configure_project_persists fs kv repo_path items Hcall Hitems Hnone Hw)
    as Hfile.
  fold fs' in Hfile. split; [exact Hfile |].
  destruct Hcall as (_ & Habs & _).
  unfold handle_get_project_config.
  rewrite (check_repo_path_absolute (JObj [("repoPath", JStr repo_path)]) repo_path
             eq_refl Habs).
  cbv beta iota delta [mbind M_mbind bind lift mret M_ret ret].
  assert (Hread : read_config H fs' repo_path
                  = sort_keys (config_of kv (entries_from 0 items))).
  { unfold read_config, read_text. fold (config_dir_path repo_path).
    fold (config_file_path repo_path). rewrite Hfile.
    rewrite (universal_newlines_id _ (config_text_no_cr _ Hfl)). now rewrite Hdec. }
  rewrite Hread. unfold dumps_pretty at 1. rewrite sort_keys_idempotent.
  fold (dumps_pretty (config_of kv (entries_from 0 items))).
  now destruct (config_of kv (entries_from 0 items)) eqn:E;
    try (unfold config_of, build_config in E; discriminate E).
Qed.

(** Configuring the bare repository and asking for the configuration. *)
Lemma get_project_config_after_configure_witness :
  let H := host_decoding (dumps_pretty claude_config +:+ NL) (sort_keys claude_config) in
  let fs' := snd (handle_configure_project (JObj call_with_claude) bare_repo) in
  handle_get_project_config H (JObj [("repoPath", JStr "/repo")]) fs'
  = (Ret (text_result (dumps_pretty claude_config)), fs').
Proof.
  intros H fs'.
  assert (Hcall : call_accepted bare_repo call_with_claude "/repo")
    by (repeat split; reflexivity).
  assert (Hw : writable bare_repo "/repo") by (repeat split; reflexivity).
  assert (Hfl : floats_avoid CR (config_of call_with_claude (entries_from 0 [])))
    by (cbn; tauto).
  exact (proj2 (get_project_config_after_configure H bare_repo call_with_claude "/repo" []
                  Hcall eq_refl eq_refl Hw Hfl eq_refl)).
Defined.

(* ===================================================================== *)
(** * Properties of the hook script *)
(* ===================================================================== *)

Lemma in_tuple_spec (v : json) (t : list string) :
  in_tuple v t = true <-> exists s, v = JStr s /\ In s t.
Proof.
  unfold in_tuple. rewrite existsb_exists. split.
  - intros (s & Hs & E). apply eq_str_true in E. eauto.
  - intros (s & -> & Hs). exists s. split; [exact Hs | apply String.eqb_refl].
Qed.

Lemma eq_str_iff (v : json) (s : string) : v = JStr s <-> eq_str v s = true.
Proof.
  split; [intros ->; apply String.eqb_refl | apply eq_str_true].
Qed.

Lemma map_status_range (event : json) (s : string) :
  map_status event = Ret s -> In s STATUSES.
Proof.
  unfold map_status. destruct event as [| | | | | |kv]; try discriminate.
  cbn [get mbind res_mbind res_bind].
  repeat match goal with
         | |- context [if ?b then _ else _] => destruct b
         end;
    try (intros [= <-]; cbv; tauto).
  destruct (in_string_set (dict_get kv "tool_name" (JStr "")) WRITE_TOOLS) as [[]|];
    cbn [res_bind]; try discriminate; intros [= <-]; cbv; tauto.
Qed.

(** What [map_status] makes of an event that is an object. The status is
    one of six. It is [working] exactly for a
    [PreToolUse] of one of the writing tools, and [needsAttention] exactly
    for a [PermissionRequest] and for a [Notification] of one of the three
    prompting kinds. An event without hook name, or with a name the script
    does not know, is [thinking]. The one way to an exception is a
    [PreToolUse] whose tool name is a list or an object. *)
Theorem map_status_by_event (kv : list (string * json)) :
  let hook := dict_get kv "hook_event_name" (JStr "") in
  let tool := dict_get kv "tool_name" (JStr "") in
  let ntype := dict_get kv "notification_type" (JStr "") in
  (forall s, map_status (JObj kv) = Ret s -> In s STATUSES)
  /\ (map_status (JObj kv) = Ret "working"
      <-> hook = JStr "PreToolUse" /\ exists name, tool = JStr name /\ In name WRITE_TOOLS)
  /\ (map_status (JObj kv) = Ret "needsAttention"
      <-> hook = JStr "PermissionRequest"
          \/ (hook = JStr "Notification"
              /\ exists kind, ntype = JStr kind
                              /\ In kind ["permission_prompt"; "idle_prompt";
                                          "elicitation_dialog"]))
  /\ (in_tuple hook ["SessionStart"; "UserPromptSubmit"; "PostToolUse"; "PreToolUse";
                     "Stop"; "SessionEnd"; "PermissionRequest"; "Notification"] = false ->
      map_status (JObj kv) = Ret "thinking")
  /\ (forall e, map_status (JObj kv) = Raise e ->
                e = TypeError /\ hook = JStr "PreToolUse" /\ hashable tool = false).
Proof.
  intros hook tool ntype.
  rewrite <- !in_tuple_spec, !eq_str_iff.
  unfold map_status. cbn [get mbind res_mbind res_bind]. fold hook tool ntype.
  assert (Hset : in_string_set tool WRITE_TOOLS
                 = if hashable tool then Ret (in_tuple tool WRITE_TOOLS) else Raise TypeError).
  { destruct tool; try reflexivity. }
  rewrite Hset. clear Hset.
  assert (Htw : hashable tool = false -> in_tuple tool WRITE_TOOLS = false).
  { destruct tool; try discriminate; reflexivity. }
  revert Htw.
  generalize (in_tuple tool WRITE_TOOLS) as tw.
  generalize (in_tuple ntype ["permission_prompt"; "idle_prompt"; "elicitation_dialog"])
    as nk.
  generalize (hashable tool) as th. intros th nk tw Htw.
  destruct hook as [| | | |h| |]; cbn [eq_str in_tuple existsb orb];
    try (split; [intros s [= <-]; cbv; tauto |];
         intuition (try discriminate; try congruence); fail).
  destruct (String.eqb_spec h "SessionStart") as [->|N1]; cbn [orb];
    [split; [intros s [= <-]; cbv; tauto |];
     intuition (try discriminate; try congruence) |].
  destruct (String.eqb_spec h "UserPromptSubmit") as [->|N2]; cbn [orb];
    [split; [intros s [= <-]; cbv; tauto |];
     intuition (try discriminate; try congruence) |].
  destruct (String.eqb_spec h "PostToolUse") as [->|N3]; cbn [orb];
    [split; [intros s [= <-]; cbv; tauto |];
     intuition (try discriminate; try congruence) |].
  destruct (String.eqb_spec h "PreToolUse") as [->|N4]; cbn [orb].
  { cbn [String.eqb Ascii.eqb Bool.eqb]. destruct th; cbn [mbind res_mbind res_bind].
    - destruct tw;
        (split; [intros s [= <-]; cbv; tauto |];
         intuition (try discriminate; try congruence)).
    - specialize (Htw eq_refl). subst tw.
      split; [intros s [=] |].
      intuition (try discriminate; try congruence). }
  destruct (String.eqb_spec h "Stop") as [->|N5]; cbn [orb];
    [split; [intros s [= <-]; cbv; tauto |];
     intuition (try discriminate; try congruence) |].
  destruct (String.eqb_spec h "SessionEnd") as [->|N6]; cbn [orb];
    [split; [intros s [= <-]; cbv; tauto |];
     intuition (try discriminate; try congruence) |].
  destruct (String.eqb_spec h "PermissionRequest") as [->|N7]; cbn [orb];
    [split; [intros s [= <-]; cbv; tauto |];
     intuition (try discriminate; try congruence) |].
  destruct (String.eqb_spec h "Notification") as [->|N8]; cbn [orb].
  { cbn [String.eqb Ascii.eqb Bool.eqb]. destruct nk;
      (split; [intros s [= <-]; cbv; tauto |];
       intuition (try discriminate; try congruence)). }
  split; [intros s [= <-]; cbv; tauto |].
  intuition (try discriminate; try congruence).
Qed.

(** An [Edit] about to run. *)
Lemma map_status_by_event_witness :
  map_status edit_event = Ret "working".
Proof.
  destruct (map_status_by_event
              [("hook_event_name", JStr "PreToolUse"); ("tool_name", JStr "Edit");
               ("cwd", JStr "/work"); ("session_id", JStr "s1")])
    as (_ & Hworking & _).
  apply Hworking. split; [reflexivity |]. exists "Edit". split; [reflexivity | cbv; tauto].
Defined.

(** ** The status file and its directory *)

Lemma up_to_last_sep_app (a b : string) :
  has_char sep b = true -> up_to_last_sep (a +:+ b) = a +:+ up_to_last_sep b.
Proof.
  intros Hb. induction a as [|c a IH]; [reflexivity |].
  change (String c a +:+ b) with (String c (a +:+ b)).
  cbn [up_to_last_sep].
  change (String c (a +:+ b)) with (String c a +:+ b) at 1.
  rewrite has_char_app, Hb, orb_true_r, IH. reflexivity.
Qed.

Lemma rstrip_sep_app (a b : string) :
  rstrip_sep b <> "" -> rstrip_sep (a +:+ b) = a +:+ rstrip_sep b.
Proof.
  intros Hb. induction a as [|c a IH]; [reflexivity |].
  change (String c a +:+ b) with (String c (a +:+ b)).
  cbn [rstrip_sep]. rewrite IH.
  destruct (rstrip_sep b) as [|x r]; [congruence |].
  destruct a; reflexivity.
Qed.

Lemma all_sep_app (a b : string) : all_sep (a +:+ b) = all_sep a && all_sep b.
Proof.
  unfold all_sep. induction a as [|c a IH]; [reflexivity |].
  simpl. now rewrite IH, andb_assoc.
Qed.

Lemma STATUS_FILE_in_dir (userhome : option string) :
  STATUS_FILE userhome = status_dir_text userhome +:+ "/claude-status.json".
Proof.
  destruct userhome as [home|]; [| reflexivity].
  unfold STATUS_FILE, expanduser_tilde, status_dir_text.
  rewrite append_assoc.
  change ("/.wtmux" +:+ "/claude-status.json") with "/.wtmux/claude-status.json".
  destruct (String.eqb_spec (rstrip_sep home +:+ "/.wtmux/claude-status.json") "")
    as [E|_]; [| reflexivity].
  destruct (rstrip_sep home); discriminate E.
Qed.

Lemma status_dir_text_tail (userhome : option string) :
  exists x, status_dir_text userhome = x +:+ "/.wtmux".
Proof.
  destruct userhome as [home|]; [exists (rstrip_sep home) | exists "~"]; reflexivity.
Qed.

(** The directory the script creates is the one the status file is in. *)
Lemma dirname_STATUS_FILE (userhome : option string) :
  dirname (STATUS_FILE userhome) = status_dir_text userhome.
Proof.
  rewrite STATUS_FILE_in_dir.
  destruct (status_dir_text_tail userhome) as (x & ->).
  rewrite append_assoc.
  change ("/.wtmux" +:+ "/claude-status.json") with "/.wtmux/claude-status.json".
  unfold dirname. rewrite up_to_last_sep_app by reflexivity.
  change (up_to_last_sep "/.wtmux/claude-status.json") with "/.wtmux/".
  rewrite all_sep_app.
  change (all_sep "/.wtmux/") with false. rewrite andb_false_r.
  destruct (String.eqb_spec (x +:+ "/.wtmux/") "") as [E|_];
    [destruct x; discriminate E |].
  cbn [negb andb]. rewrite rstrip_sep_app by discriminate. reflexivity.
Qed.

Lemma STATUS_FILE_neq_dir (userhome : option string) :
  STATUS_FILE userhome <> status_dir_text userhome.
Proof. rewrite STATUS_FILE_in_dir. apply append_longer. discriminate. Qed.

Lemma STATUS_FILE_neq_tmp (userhome : option string) :
  STATUS_FILE userhome +:+ ".tmp" <> STATUS_FILE userhome.
Proof. apply append_longer. discriminate. Qed.

Lemma status_tmp_neq_dir (userhome : option string) :
  STATUS_FILE userhome +:+ ".tmp" <> status_dir_text userhome.
Proof.
  rewrite STATUS_FILE_in_dir, append_assoc. apply append_longer. discriminate.
Qed.

Lemma write_status_ops_shape (userhome : option string) (status : string)
      (cwd session_id : json) (now : Z) :
  write_status_ops userhome status cwd session_id now =
    (([Makedirs (status_dir_text userhome); OpenW (STATUS_FILE userhome +:+ ".tmp")]
        ++ write_chars (STATUS_FILE userhome +:+ ".tmp")
             (dumps_default (status_data status cwd session_id now)))
       ++ [Replace (STATUS_FILE userhome +:+ ".tmp") (STATUS_FILE userhome)])%list.
Proof.
  unfold write_status_ops. rewrite dirname_STATUS_FILE. reflexivity.
Qed.

(** The steps of [write_status] before the replace do not touch the status
    file. *)
Lemma status_staging_frame (userhome : option string) (text : string) :
  Forall (fun o => ~ In (STATUS_FILE userhome) (touches o))
         ([Makedirs (status_dir_text userhome); OpenW (STATUS_FILE userhome +:+ ".tmp")]
            ++ write_chars (STATUS_FILE userhome +:+ ".tmp") text)%list.
Proof.
  pose proof (STATUS_FILE_neq_dir userhome) as Hd.
  pose proof (STATUS_FILE_neq_tmp userhome) as Ht.
  cbn [app]. constructor; [intros [E|[]]; congruence |].
  constructor; [intros [E|[]]; congruence |].
  unfold write_chars. apply Forall_map, Forall_forall. intros c _ [E|[]]. congruence.
Qed.

(** Writing a text to a temporary file and moving it over the target. *)
Lemma staged_write_run (tmp file text : string) (fs : filesystem) :
  tmp <> file ->
  run (OpenW tmp :: write_chars tmp text ++ [Replace tmp file]) fs =
    if isdir fs tmp then (Raise (os_error 21 "Is a directory" (repr_str tmp)), fs)
    else if isdir fs file
         then (Raise (os_error 21 "Is a directory"
                        (repr_str tmp +:+ " -> " +:+ repr_str file)),
               <[tmp := File text]> fs)
         else (Ret tt, <[file := File text]> (delete tmp fs)).
Proof.
  intros Hne. cbn [run]. unfold bind at 1. unfold isdir.
  assert (Hgo : run (write_chars tmp text ++ [Replace tmp file]) (<[tmp := File ""]> fs)
                = match fs !! file with
                  | Some Dir => (Raise (os_error 21 "Is a directory"
                                          (repr_str tmp +:+ " -> " +:+ repr_str file)),
                                 <[tmp := File text]> fs)
                  | _ => (Ret tt, <[file := File text]> (delete tmp fs))
                  end).
  { rewrite run_app, (write_chars_run _ _ "") by apply lookup_insert_eq.
    rewrite insert_insert_eq. cbn [run]. unfold bind. cbn [exec].
    rewrite lookup_insert_eq, lookup_insert_ne by exact Hne.
    change ("" +:+ text) with text. rewrite delete_insert_eq.
    destruct (fs !! file) as [[]|]; reflexivity. }
  cbn [exec].
  destruct (fs !! tmp) as [[]|]; try reflexivity;
    rewrite Hgo; destruct (fs !! file) as [[]|]; reflexivity.
Qed.

(** What the whole of [write_status] comes to, by the three nodes that can
    stand in its way. *)
Lemma write_status_outcome (userhome : option string) (status : string)
      (cwd session_id : json) (now : Z) (fs : filesystem) :
  let file := STATUS_FILE userhome in
  let tmp := STATUS_FILE userhome +:+ ".tmp" in
  let dir := status_dir_text userhome in
  let text := dumps_default (status_data status cwd session_id now) in
  if isfile fs dir then
    exists e, write_status userhome status cwd session_id now fs = (Raise e, fs)
  else if isdir fs tmp then
    exists e, write_status userhome status cwd session_id now fs
              = (Raise e, <[dir := Dir]> fs)
  else if isdir fs file then
    exists e, write_status userhome status cwd session_id now fs
              = (Raise e, <[tmp := File text]> (<[dir := Dir]> fs))
  else
    write_status userhome status cwd session_id now fs
    = (Ret tt, <[file := File text]> (delete tmp (<[dir := Dir]> fs))).
Proof.
  intros file tmp dir text.
  pose proof (STATUS_FILE_neq_dir userhome) as Hfd.
  pose proof (STATUS_FILE_neq_tmp userhome) as Htf.
  pose proof (status_tmp_neq_dir userhome) as Htd.
  fold tmp in Htf, Htd. fold file dir in Hfd, Htf, Htd.
  unfold write_status. rewrite write_status_ops_shape. fold tmp. fold file dir text.
  rewrite <- app_assoc.
  change ([Makedirs dir; OpenW tmp] ++ write_chars tmp text ++ [Replace tmp file])%list
    with (Makedirs dir :: OpenW tmp :: write_chars tmp text ++ [Replace tmp file])%list.
  assert (Hmk : run (Makedirs dir :: OpenW tmp :: write_chars tmp text
                        ++ [Replace tmp file]) fs
                = match fs !! dir with
                  | Some Dir =>
                      run (OpenW tmp :: write_chars tmp text ++ [Replace tmp file]) fs
                  | Some (File _) =>
                      (Raise (os_error 17 "File exists" (repr_str dir)), fs)
                  | None =>
                      run (OpenW tmp :: write_chars tmp text ++ [Replace tmp file])
                          (<[dir := Dir]> fs)
                  end).
  { change (run (Makedirs dir :: ?r) fs)
      with (bind (exec (Makedirs dir)) (fun _ => run r) fs).
    unfold bind. cbn [exec]. destruct (fs !! dir) as [[]|]; reflexivity. }
  rewrite Hmk. clear Hmk.
  assert (Et' : isdir (<[dir := Dir]> fs) tmp = isdir fs tmp)
    by (unfold isdir; rewrite lookup_insert_ne by congruence; reflexivity).
  assert (Ef' : isdir (<[dir := Dir]> fs) file = isdir fs file)
    by (unfold isdir; rewrite lookup_insert_ne by congruence; reflexivity).
  unfold isfile. destruct (fs !! dir) as [[]|] eqn:Ed.
  - eexists. reflexivity.
  - assert (Hid : <[dir := Dir]> fs = fs) by now apply insert_id.
    rewrite Hid. rewrite staged_write_run by exact Htf.
    destruct (isdir fs tmp); [eexists; reflexivity |].
    destruct (isdir fs file); [eexists; reflexivity | reflexivity].
  - rewrite staged_write_run by exact Htf. rewrite Et', Ef'.
    destruct (isdir fs tmp); [eexists; reflexivity |].
    destruct (isdir fs file); [eexists; reflexivity | reflexivity].
Qed.

(** [write_status] is atomic for the status file. The directory it makes is
    the one of the status file. If the process is terminated after any
    number of steps before the last, the status file, or its absence, is as
    it was; at every point the path of the status file holds what it held
    before or the whole new text; and a call that raises leaves the status
    file as it was. *)
Theorem write_status_atomic (userhome : option string) (status : string)
        (cwd session_id : json) (now : Z) (fs : filesystem) :
  let ops := write_status_ops userhome status cwd session_id now in
  let file := STATUS_FILE userhome in
  let text := dumps_default (status_data status cwd session_id now) in
  dirname file = status_dir_text userhome
  /\ (forall k, (k < length ops)%nat -> terminated_after k ops fs !! file = fs !! file)
  /\ (forall k, terminated_after k ops fs !! file = fs !! file
                \/ terminated_after k ops fs !! file = Some (File text))
  /\ (forall e fs', write_status userhome status cwd session_id now fs = (Raise e, fs') ->
                    fs' !! file = fs !! file).
Proof.
  intros ops file text.
  pose proof (STATUS_FILE_neq_dir userhome) as Hfd.
  pose proof (STATUS_FILE_neq_tmp userhome) as Htf.
  fold file in Hfd, Htf.
  assert (Hshape : ops =
                   (([Makedirs (status_dir_text userhome); OpenW (file +:+ ".tmp")]
                       ++ write_chars (file +:+ ".tmp") text)
                      ++ [Replace (file +:+ ".tmp") file])%list)
    by apply write_status_ops_shape.
  pose proof (status_staging_frame userhome text) as Hframe. fold file in Hframe.
  assert (Hraise : forall e fs',
             write_status userhome status cwd session_id now fs = (Raise e, fs') ->
             fs' !! file = fs !! file).
  { intros e fs' E.
    pose proof (write_status_outcome userhome status cwd session_id now fs) as Ho.
    cbv zeta in Ho. fold file text in Ho. rewrite E in Ho.
    destruct (isfile fs (status_dir_text userhome)).
    { destruct Ho as (e' & [= _ ->]). reflexivity. }
    destruct (isdir fs (file +:+ ".tmp")).
    { destruct Ho as (e' & [= _ ->]). apply lookup_insert_ne. congruence. }
    destruct (isdir fs file); [| discriminate Ho].
    destruct Ho as (e' & [= _ ->]).
    rewrite lookup_insert_ne by exact Htf. apply lookup_insert_ne. congruence. }
  assert (Hbefore : forall k, (k < length ops)%nat ->
                              terminated_after k ops fs !! file = fs !! file).
  { intros k Hk. unfold terminated_after. rewrite Hshape in Hk |- *.
    rewrite firstn_before by exact Hk. apply run_frame.
    apply firstn_Forall. exact Hframe. }
  split; [apply dirname_STATUS_FILE |].
  split; [exact Hbefore |].
  split; [| exact Hraise].
  intros k. destruct (Nat.lt_ge_cases k (length ops)) as [Hk|Hk];
    [left; now apply Hbefore |].
  unfold terminated_after. rewrite firstn_all2 by exact Hk.
  change (run ops fs) with (write_status userhome status cwd session_id now fs).
  destruct (write_status userhome status cwd session_id now fs) as [[[]|e] fs'] eqn:E.
  - right. pose proof (write_status_outcome userhome status cwd session_id now fs) as Ho.
    cbv zeta in Ho. fold file text in Ho. rewrite E in Ho.
    destruct (isfile fs (status_dir_text userhome));
      [destruct Ho as (e' & [=]) |].
    destruct (isdir fs (file +:+ ".tmp")); [destruct Ho as (e' & [=]) |].
    destruct (isdir fs file); [destruct Ho as (e' & [=]) |].
    pose proof (f_equal snd Ho) as Hs. cbn [snd] in Hs. rewrite Hs.
    apply lookup_insert_eq.
  - left. now apply (Hraise e).
Qed.

(** A hook that is terminated right before the replace, with an earlier
    status file in place. *)
Lemma write_status_atomic_witness :
  let ops := write_status_ops (Some "/home/u") "working" (JStr "/work") (JStr "s1") 1700000000 in
  (length ops - 1 < length ops)%nat
  /\ terminated_after (length ops - 1) ops home_with_status
       !! "/home/u/.wtmux/claude-status.json" = Some (File "old").
Proof.
  intros ops. split; [vm_compute; lia |].
  pose proof (write_status_atomic (Some "/home/u") "working" (JStr "/work") (JStr "s1")
                1700000000 home_with_status) as (_ & Hbefore & _).
  exact (Hbefore (length ops - 1)%nat ltac:(vm_compute; lia)).
Defined.

(** With the home directory in place, [write_status] succeeds exactly when
    the directory of the status file, which lies right in the home
    directory, is not a regular file and neither the temporary file nor the
    status file is a directory. It then leaves the status file with the
    whole text, no temporary file, the directory in place, and every other
    path as it was. *)
Theorem write_status_result (userhome : option string) (status : string)
        (cwd session_id : json) (now : Z) (fs : filesystem) :
  home_present fs userhome ->
  let file := STATUS_FILE userhome in
  let tmp := STATUS_FILE userhome +:+ ".tmp" in
  let dir := status_dir_text userhome in
  let text := dumps_default (status_data status cwd session_id now) in
  dir = home_dir userhome +:+ "/.wtmux"
  /\ ((exists fs', write_status userhome status cwd session_id now fs = (Ret tt, fs'))
       <-> isfile fs dir = false /\ isdir fs tmp = false /\ isdir fs file = false)
  /\ (forall fs', write_status userhome status cwd session_id now fs = (Ret tt, fs') ->
                  fs' !! file = Some (File text)
                  /\ fs' !! tmp = None
                  /\ fs' !! dir = Some Dir
                  /\ forall q, q <> file -> q <> tmp -> q <> dir -> fs' !! q = fs !! q).
Proof.
  intros _ file tmp dir text.
  split; [destruct userhome; reflexivity |].
  pose proof (STATUS_FILE_neq_dir userhome) as Hfd.
  pose proof (STATUS_FILE_neq_tmp userhome) as Htf.
  pose proof (status_tmp_neq_dir userhome) as Htd.
  fold tmp in Htf, Htd. fold file dir in Hfd, Htf, Htd.
  pose proof (write_status_outcome userhome status cwd session_id now fs) as Ho.
  cbv zeta in Ho. fold tmp in Ho. fold file dir text in Ho.
  destruct (isfile fs dir).
  { destruct Ho as (e & Ho). rewrite Ho. split.
    - split; [intros (fs' & [=]) | intros (Hd & _); discriminate Hd].
    - intros fs' [=]. }
  destruct (isdir fs tmp).
  { destruct Ho as (e & Ho). rewrite Ho. split.
    - split; [intros (fs' & [=]) | intros (_ & Ht & _); discriminate Ht].
    - intros fs' [=]. }
  destruct (isdir fs file).
  { destruct Ho as (e & Ho). rewrite Ho. split.
    - split; [intros (fs' & [=]) | intros (_ & _ & Hf); discriminate Hf].
    - intros fs' [=]. }
  rewrite Ho. split.
  - split; [auto | intros _; eexists; reflexivity].
  - intros fs' [= <-]. split; [apply lookup_insert_eq |].
    split; [rewrite lookup_insert_ne by congruence; apply lookup_delete_eq |].
    split.
    + rewrite lookup_insert_ne, lookup_delete_ne by congruence. apply lookup_insert_eq.
    + intros q Hq1 Hq2 Hq3.
      rewrite lookup_insert_ne, lookup_delete_ne, lookup_insert_ne by congruence.
      reflexivity.
Qed.

(** The first status of a session: the directory does not exist yet. *)
Lemma write_status_result_witness :
  home_present (list_to_map [("/home/u", Dir)]) (Some "/home/u")
  /\ exists fs',
    write_status (Some "/home/u") "idle" (JStr "/work") (JStr "s1") 1700000000
                 (list_to_map [("/home/u", Dir)]) = (Ret tt, fs')
    /\ fs' !! "/home/u/.wtmux" = Some Dir
    /\ fs' !! "/home/u/.wtmux/claude-status.json.tmp" = None.
Proof.
  assert (Hhome : home_present (list_to_map [("/home/u", Dir)]) (Some "/home/u"))
    by (right; reflexivity).
  split; [exact Hhome |].
  destruct (write_status_result (Some "/home/u") "idle" (JStr "/work") (JStr "s1")
              1700000000 (list_to_map [("/home/u", Dir)]) Hhome) as (_ & [_ Hok] & Hres).
  destruct Hok as (fs' & E); [vm_compute; auto |].
  exists fs'. split; [exact E |].
  destruct (Hres fs' E) as (_ & Htmp & Hdir & _). split; [exact Hdir | exact Htmp].
Defined.

(** How the hook ends, with the home directory in place. An input that
    does not decode ends it by [sys.exit(1)] with nothing written, and an
    input that decodes to something other than an object ends it with an
    [AttributeError], again with nothing written. An event object with a
    status, met with nothing in the way of the write, is reported: the hook
    ends normally. Unless it ends normally the status file is as it was.
    When it ends normally the input was an object, and the status file
    holds the document made of the status of the event, one of the six, of
    the members [cwd] and [session_id] of the event (the empty string for a
    missing one) and of the time. *)
Theorem hook_main_outcome (H : host) (userhome : option string) (now : Z) (raw : string)
        (fs : filesystem) :
  home_present fs userhome ->
  let r := hook_main H userhome now raw fs in
  let file := STATUS_FILE userhome in
  (json_loads H raw = None -> r = (HookExit 1, fs))
  /\ (forall v, json_loads H raw = Some v -> (forall kv, v <> JObj kv) ->
                r = (HookUncaught AttributeError, fs))
  /\ (forall kv status,
         json_loads H raw = Some (JObj kv) ->
         map_status (JObj kv) = Ret status ->
         isfile fs (status_dir_text userhome) = false ->
         isdir fs (file +:+ ".tmp") = false ->
         isdir fs file = false ->
         fst r = HookDone)
  /\ (fst r <> HookDone -> snd r !! file = fs !! file)
  /\ (fst r = HookDone ->
      exists kv status,
        json_loads H raw = Some (JObj kv)
        /\ map_status (JObj kv) = Ret status
        /\ In status STATUSES
        /\ snd r !! file
           = Some (File (dumps_default
                           (status_data status (dict_get kv "cwd" (JStr ""))
                                        (dict_get kv "session_id" (JStr "")) now)))).
Proof.
  intros _ r file. subst r. unfold hook_main.
  destruct (json_loads H raw) as [event|] eqn:Eload; cbn [fst snd].
  2:{ split; [reflexivity |].
      split; [intros v [=] |].
      split; [intros kv status [=] |].
      split; [reflexivity | intros [=]]. }
  destruct event as [| | | | |l|kv];
    try (cbn [map_status get mbind res_mbind res_bind fst snd];
         split; [intros [=] |];
         split; [intros v _ _; reflexivity |];
         split; [intros kv status [=] |];
         split; [reflexivity | intros [=]]; fail).
  pose proof (map_status_range (JObj kv)) as Hrange.
  destruct (map_status (JObj kv)) as [status|e] eqn:Emap; cbn [fst snd].
  { cbn [get].
    pose proof (write_status_outcome userhome status (dict_get kv "cwd" (JStr ""))
                  (dict_get kv "session_id" (JStr "")) now fs) as Ho.
    cbv zeta in Ho. fold file in Ho.
    pose proof (STATUS_FILE_neq_dir userhome) as Hfd.
    pose proof (STATUS_FILE_neq_tmp userhome) as Htf.
    fold file in Hfd, Htf.
    destruct (write_status userhome status (dict_get kv "cwd" (JStr ""))
                           (dict_get kv "session_id" (JStr "")) now fs)
      as [[[]|e] fs'] eqn:Ew; cbn [fst snd].
    - split; [intros [=] |].
      split; [intros v [= <-] Hv; now destruct (Hv kv) |].
      split; [reflexivity |].
      split; [congruence |].
      intros _. exists kv, status.
      split; [reflexivity |]. split; [exact Emap |].
      split; [now apply Hrange |].
      destruct (isfile fs (status_dir_text userhome)); [destruct Ho as (e' & [=]) |].
      destruct (isdir fs (file +:+ ".tmp")); [destruct Ho as (e' & [=]) |].
      destruct (isdir fs file); [destruct Ho as (e' & [=]) |].
      pose proof (f_equal snd Ho) as Hs. cbn [snd] in Hs. rewrite Hs.
      apply lookup_insert_eq.
    - split; [intros [=] |].
      split; [intros v [= <-] Hv; now destruct (Hv kv) |].
      split.
      { intros kv' status' _ _ Hd Ht Hf. rewrite Hd, Ht, Hf in Ho. discriminate Ho. }
      split; [| intros [=]].
      intros _.
      destruct (isfile fs (status_dir_text userhome)).
      { destruct Ho as (e' & [= _ ->]). reflexivity. }
      destruct (isdir fs (file +:+ ".tmp")).
      { destruct Ho as (e' & [= _ ->]). apply lookup_insert_ne. congruence. }
      destruct (isdir fs file); [| discriminate Ho].
      destruct Ho as (e' & [= _ ->]).
      rewrite lookup_insert_ne by exact Htf. apply lookup_insert_ne. congruence. }
  split; [intros [=] |].
  split; [intros v [= <-] Hv; now destruct (Hv kv) |].
  split; [intros kv' status' [= <-] Hm; rewrite Emap in Hm; discriminate Hm |].
  split; [reflexivity | intros [=]].
Qed.

(** An [Edit] about to run, reported over an earlier status. *)
Lemma hook_main_outcome_witness :
  let r := hook_main (host_decoding "EVENT" edit_event) (Some "/home/u") 1700000000
                     "EVENT" home_with_status in
  home_present home_with_status (Some "/home/u")
  /\ fst r = HookDone
  /\ snd r !! "/home/u/.wtmux/claude-status.json"
     = Some (File (dumps_default
                     (status_data "working" (JStr "/work") (JStr "s1") 1700000000))).
Proof.
  intros r.
  assert (Hhome : home_present home_with_status (Some "/home/u")) by (right; reflexivity).
  destruct (hook_main_outcome (host_decoding "EVENT" edit_event) (Some "/home/u")
              1700000000 "EVENT" home_with_status Hhome) as (_ & _ & Hgo & _ & Hfile).
  assert (Hdone : fst r = HookDone).
  { apply (Hgo [("hook_event_name", JStr "PreToolUse"); ("tool_name", JStr "Edit");
                ("cwd", JStr "/work"); ("session_id", JStr "s1")] "working");
      reflexivity. }
  split; [exact Hhome |]. split; [exact Hdone |].
  destruct (Hfile Hdone) as (kv & status & Eload & Emap & _ & E).
  injection Eload as <-. injection Emap as <-. exact E.
Defined.
